(** * python_auto_refund: the two refund scripts, embedded and verified

    The repository holds two variants of one workflow (log in, fetch the
    bills awaiting refund, refund them one by one):

    - [autoRefund.py]  (loguru; requires BASE_URL and USERNAME), module
      [autoRefund] below;
    - [auto_refund.py] (logging + requests.Session; requires BASE_URL,
      USERNAME and PASSWORD_HASH), module [auto_refund] below.

    Python values coming out of [resp.json()] are modelled by [pyval];
    the interpreter state the scripts mutate (the global [auth_token], the
    calls made to [requests.post] / [session.post], the log) by [world];
    the remote API, the calendar and the interpreter's [int()] on strings
    by an [env] of oracles.  Functions of the scripts are computations in
    the state-and-exception monad [Py]. *)

From Stdlib Require Import ZArith QArith List String Ascii Bool Lia.
From Stdlib Require Import DecimalString.
From Stdlib Require DecimalPos DecimalZ.
Import ListNotations.

Local Close Scope Q_scope.
Local Open Scope string_scope.
Local Open Scope list_scope.
Local Open Scope Z_scope.

Set Implicit Arguments.
Set Warnings "-register-all".

(** ** Python values *)

(** A Python float: every finite double is a rational, so [FFin] covers
    them all; [json.loads] also accepts NaN and the two infinities. *)
Inductive pyfloat : Type :=
| FNan
| FInf (negative : bool)
| FFin (q : Q).

(** A [str] is held as the bytes of its UTF-8 encoding; the operations
    that cut a string ([v[:n]], iteration) cut it between characters. *)
Inductive pyval : Type :=
| PNone
| PBool (b : bool)
| PInt (z : Z)
| PFloat (f : pyfloat)
| PStr (s : string)
| PList (items : list pyval)
| PDict (fields : list (string * pyval)).

Inductive exn : Type :=
| AttributeError
| TypeError
| ValueError
| OverflowError
| KeyError
| CookieConflictError  (* requests.cookies.CookieConflictError *)
| RequestException     (* requests.RequestException and its subclasses *)
| OtherException.      (* any other subclass of Exception *)

Inductive outcome (A : Type) : Type :=
| Ok (a : A)
| Raise (e : exn).
Arguments Ok {A} a.
Arguments Raise {A} e.

(** [bool(v)], as used by [if v:], [not v] and [all([...])]. *)
Definition py_truthy (v : pyval) : bool :=
  match v with
  | PNone => false
  | PBool b => b
  | PInt z => negb (z =? 0)
  | PFloat (FFin q) => negb (Qnum q =? 0)
  | PFloat _ => true
  | PStr s => negb (String.eqb s "")
  | PList l => match l with [] => false | _ => true end
  | PDict kvs => match kvs with [] => false | _ => true end
  end.

(** [v == 0]: numbers compare by value ([False == 0] and [0.0 == 0] hold),
    everything else is unequal to 0. *)
Definition py_eq_zero (v : pyval) : bool :=
  match v with
  | PBool b => negb b
  | PInt z => z =? 0
  | PFloat (FFin q) => Qnum q =? 0
  | _ => false
  end.

Definition py_is_none (v : pyval) : bool :=
  match v with PNone => true | _ => false end.

(** [isinstance(v, (int, str))]; [bool] is a subclass of [int]. *)
Definition isinstance_int_str (v : pyval) : bool :=
  match v with
  | PBool _ | PInt _ | PStr _ => true
  | _ => false
  end.

Definition isinstance_list (v : pyval) : bool :=
  match v with PList _ => true | _ => false end.

Fixpoint assoc (k : string) (kvs : list (string * pyval)) : option pyval :=
  match kvs with
  | [] => None
  | (k', v) :: rest => if String.eqb k k' then Some v else assoc k rest
  end.

(** [d.get(k, default)]; only a dict has [.get]. *)
Definition py_get (d : pyval) (k : string) (default : pyval) : outcome pyval :=
  match d with
  | PDict kvs => Ok (match assoc k kvs with Some v => v | None => default end)
  | _ => Raise AttributeError
  end.

(** [k in v] for a string [k]. *)
Definition py_contains (k : string) (v : pyval) : outcome bool :=
  match v with
  | PDict kvs => Ok (match assoc k kvs with Some _ => true | None => false end)
  | PList l =>
      Ok (existsb (fun x => match x with PStr s => String.eqb s k | _ => false end) l)
  | PStr s => Ok (match index 0 k s with Some _ => true | None => false end)
  | _ => Raise TypeError
  end.

(** [v[k]] for a string [k]; reached in the scripts only after [k in v]. *)
Definition py_getitem (v : pyval) (k : string) : outcome pyval :=
  match v with
  | PDict kvs => match assoc k kvs with Some x => Ok x | None => Raise KeyError end
  | _ => Raise TypeError
  end.

(** A byte that continues a character of the UTF-8 encoding
    ([0b10xxxxxx]). *)
Definition is_continuation (a : ascii) : bool :=
  let n := nat_of_ascii a in ((128 <=? n) && (n <? 192))%nat.

(** The first [n] characters of a string. *)
Fixpoint str_prefix (n : nat) (s : string) : string :=
  match s with
  | EmptyString => EmptyString
  | String a r =>
      if is_continuation a then String a (str_prefix n r)
      else match n with
           | O => EmptyString
           | S n' => String a (str_prefix n' r)
           end
  end.

Definition starts_with_continuation (s : string) : bool :=
  match s with
  | String b _ => is_continuation b
  | EmptyString => false
  end.

(** The characters of a string, one string each. *)
Fixpoint str_chars (s : string) : list string :=
  match s with
  | EmptyString => []
  | String a r =>
      match str_chars r with
      | c :: cs =>
          if starts_with_continuation r then String a c :: cs
          else String a EmptyString :: c :: cs
      | [] => [String a EmptyString]
      end
  end.

(** The number of characters of a string. *)
Definition str_len (s : string) : nat := List.length (str_chars s).

(** [v[:n]]: defined on strings and lists; on any other value the
    slice raises, and both callers catch whatever it raises. *)
Definition py_prefix (n : nat) (v : pyval) : outcome pyval :=
  match v with
  | PStr s => Ok (PStr (str_prefix n s))
  | PList l => Ok (PList (firstn n l))
  | _ => Raise TypeError
  end.

(** What [for x in v] iterates over.  A string yields its characters and a
    dict its keys (all of them strings). *)
Definition py_iter (v : pyval) : outcome (list pyval) :=
  match v with
  | PList l => Ok l
  | PDict kvs => Ok (map (fun kv => PStr (fst kv)) kvs)
  | PStr s => Ok (map PStr (str_chars s))
  | _ => Raise TypeError
  end.

(** *** [int(...)] *)

(** Truncation toward zero of a rational. *)
Definition trunc (q : Q) : Z := Z.quot (Qnum q) (Z.pos (Qden q)).

(** [int(v)].  On numbers it is fixed by the language.  On a string it
    is the interpreter's parser, [of_str]: which strings it accepts
    (Unicode digits and white space, the cap on the number of digits)
    varies with the interpreter, so the scripts are modelled over any
    such parser, taken from the environment; [None] is its ValueError. *)
Definition py_int (of_str : string -> option Z) (v : pyval) : outcome Z :=
  match v with
  | PInt z => Ok z
  | PBool b => Ok (if b then 1 else 0)
  | PFloat (FFin q) => Ok (trunc q)
  | PFloat FNan => Raise ValueError
  | PFloat (FInf _) => Raise OverflowError
  | PStr s => match of_str s with Some z => Ok z | None => Raise ValueError end
  | PNone | PList _ | PDict _ => Raise TypeError
  end.

(** [str(z)] / [f"{z}"] for an int. *)
Definition str_of_int (z : Z) : string := NilZero.string_of_int (Z.to_int z).

(** [f"{v}"] for a value read with [os.getenv]. *)
Definition fmt_env (v : option string) : string :=
  match v with Some s => s | None => "None" end.

Definition env_val (v : option string) : pyval :=
  match v with Some s => PStr s | None => PNone end.

(** ** The outside world *)

Inductive endpoint : Type := EpLogin | EpFetch | EpRefund.

Definition endpoint_path (e : endpoint) : string :=
  match e with
  | EpLogin => "/api/config-service/user/login"
  | EpFetch => "/api/statistics-service/billDetailStatisticsController/page"
  | EpRefund => "/api/bill-service/bill/billRefund"
  end.

(** One call of [requests.post] / [session.post].  Of the headers only
    [authorization] is kept (absent on login); the others are constants
    of the scripts.  [req_timeout] is the [timeout=] keyword, [None] when
    the call passes none. *)
Record request : Type := mkRequest {
  req_endpoint : endpoint;
  req_url : string;
  req_authorization : option pyval;
  req_json : pyval;
  req_timeout : option Z
}.

(** [json_body = None]: [resp.json()] raises.  [cookies] is the cookie
    jar of the response in its iteration order, each cookie with its name
    and its value (a cookie can have none); two cookies of one name
    differ in domain or path. *)
Record response : Type := mkResponse {
  status_code : Z;
  json_body : option pyval;
  text : string;
  cookies : list (string * option string)
}.

(** [jar[name]] of a RequestsCookieJar ([_find_no_duplicates]): a second
    cookie of the name after one with a value is a conflict, and a name
    whose value is missing or empty counts as absent. *)
Fixpoint find_no_duplicates (name : string) (jar : list (string * option string))
    (found : option string) : outcome string :=
  match jar with
  | [] =>
      match found with
      | Some v => if String.eqb v "" then Raise KeyError else Ok v
      | None => Raise KeyError
      end
  | (n, v) :: rest =>
      if String.eqb n name then
        match found with
        | Some _ => Raise CookieConflictError
        | None => find_no_duplicates name rest v
        end
      else find_no_duplicates name rest found
  end.

(** [d.update(jar)] for a plain dict [d]: it reads [jar[name]] for every
    name of [jar.keys()], in order, and stops at the first that raises.
    The dict itself is not part of the modelled state. *)
Fixpoint dict_update_from_jar (names : list string) (jar : list (string * option string))
    : outcome unit :=
  match names with
  | [] => Ok tt
  | name :: rest =>
      match find_no_duplicates name jar None with
      | Ok _ => dict_update_from_jar rest jar
      | Raise e => Raise e
      end
  end.

Inductive http_result : Type :=
| HttpRaise (e : exn)
| HttpResponse (r : response).

Record config : Type := mkConfig {
  BASE_URL : option string;
  USERNAME : option string;
  PASSWORD_HASH : option string;
  SELLER_NUMBER : option string;
  COOKIE_VALUE : option string
}.

(** The remote API answers a call knowing the calls made before it; the
    calendar is read the same way. [today_iso] is ["%Y-%m-%d"],
    [today_compact] is ["%Y%m%d"].  [int_of_str] is [int(s)] on a string
    as the interpreter running the script computes it, [None] for its
    ValueError. *)
Record env : Type := mkEnv {
  net : list request -> request -> http_result;
  today_iso : list request -> string;
  yesterday_iso : list request -> string;
  today_compact : list request -> string;
  int_of_str : string -> option Z
}.

Inductive log_event : Type :=
| LogStart
| LogLoggingIn
| LogLoginOk (preview : pyval)
| LogNoToken (data : pyval)
| LogLoginError (e : exn)
| LogLoginFailed
| LogBillsOk
| LogFetchError (e : exn)
| LogNoBillData
| LogBillsFound (total : pyval)
| LogNoBills
| LogNotList (bills : pyval)
| LogInvalidBillId (bill_id : pyval)
| LogSkipped (bill_id : Z) (amt : pyval)
| LogProcessing (bill_id amt : pyval)
| LogSummary (success failed skipped : nat)
| LogSummary2 (success failed : nat)
| LogNoAuthToken
| LogRefundOk (bill_id : pyval)
| LogRefundError (bill_id : pyval)
| LogDone.

Record world : Type := mkWorld {
  auth_token : pyval;
  sent : list request;
  logged : list log_event
}.

Definition initial_world : world :=
  {| auth_token := PNone; sent := []; logged := [] |}.

(** How a script ends: [sys.exit(code)], falling off the end, or an
    exception nobody caught (the interpreter prints it and exits with 1). *)
Inductive termination : Type :=
| SysExit (code : Z)
| Finished
| Uncaught (e : exn).

Definition exit_code (t : termination) : Z :=
  match t with
  | SysExit c => c
  | Finished => 0
  | Uncaught _ => 1
  end.

(** ** The monad of script computations *)

Definition Py (A : Type) : Type := world -> world * outcome A.

Definition ret {A} (a : A) : Py A := fun w => (w, Ok a).

Definition bind {A B} (m : Py A) (k : A -> Py B) : Py B :=
  fun w =>
    match m w with
    | (w', Ok a) => k a w'
    | (w', Raise e) => (w', Raise e)
    end.

Definition lift {A} (o : outcome A) : Py A := fun w => (w, o).

(** [try: m  except Exception as e: h e] *)
Definition try_except {A} (m : Py A) (h : exn -> Py A) : Py A :=
  fun w =>
    match m w with
    | (w', Raise e) => h e w'
    | r => r
    end.

Declare Scope py_scope.
Delimit Scope py_scope with py.
Notation "x <- m ;; k" := (bind m (fun x => k))
  (at level 61, m at next level, right associativity) : py_scope.
Notation "m ;;; k" := (bind m (fun _ => k))
  (at level 61, right associativity) : py_scope.
Local Open Scope py_scope.

Definition log (e : log_event) : Py unit :=
  fun w => ({| auth_token := auth_token w; sent := sent w;
               logged := logged w ++ [e] |}, Ok tt).

Definition get_token : Py pyval := fun w => (w, Ok (auth_token w)).

Definition set_token (t : pyval) : Py unit :=
  fun w => ({| auth_token := t; sent := sent w; logged := logged w |}, Ok tt).

Definition read {A} (f : list request -> A) : Py A :=
  fun w => (w, Ok (f (sent w))).

Definition post (E : env) (r : request) : Py response :=
  fun w =>
    let w' := {| auth_token := auth_token w; sent := sent w ++ [r];
                 logged := logged w |} in
    match net E (sent w) r with
    | HttpRaise e => (w', Raise e)
    | HttpResponse resp => (w', Ok resp)
    end.

(** [resp.raise_for_status()]: HTTPError on 4xx and 5xx. *)
Definition raise_for_status (r : response) : Py unit :=
  if (400 <=? status_code r) && (status_code r <? 600)
  then lift (Raise RequestException) else ret tt.

(** [resp.json()] *)
Definition resp_json (r : response) : Py pyval :=
  match json_body r with
  | Some v => ret v
  | None => lift (Raise RequestException)
  end.

(** [for x in items: acc = body acc x], the loop leaving at the first
    exception. *)
Fixpoint for_each {A} (body : A -> pyval -> Py A) (acc : A) (items : list pyval) : Py A :=
  match items with
  | [] => ret acc
  | x :: rest => acc' <- body acc x ;; for_each body acc' rest
  end.

(** Running a script body to its end. *)
Definition run (m : Py termination) (w : world) : world * termination :=
  match m w with
  | (w', Ok t) => (w', t)
  | (w', Raise e) => (w', Uncaught e)
  end.

(** ** autoRefund.py *)

Module autoRefund.

Section Script.

Variable cfg : config.
Variable E : env.

Definition url (e : endpoint) : string :=
  String.append (fmt_env (BASE_URL cfg)) (endpoint_path e).

(** Lines 30-34: the names of [required] bound to [None]. *)
Definition missing : list string :=
  (match BASE_URL cfg with None => ["BASE_URL"] | Some _ => [] end) ++
  (match USERNAME cfg with None => ["USERNAME"] | Some _ => [] end).

Definition login_payload : pyval :=
  PDict [("account", env_val (USERNAME cfg));
         ("password", env_val (PASSWORD_HASH cfg));
         ("sellerNumber", env_val (SELLER_NUMBER cfg));
         ("smsCaptchaPass", PBool true)].

(** [token[:20] + "..."] *)
Definition token_preview (token : pyval) : outcome pyval :=
  match py_prefix 20 token with
  | Ok (PStr s) => Ok (PStr (String.append s "..."))
  | Ok _ => Raise TypeError
  | Raise e => Raise e
  end.

(** [login() -> Optional[str]]; [PNone] is Python's [None]. *)
Definition login : Py pyval :=
  try_except
    (resp <- post E {| req_endpoint := EpLogin; req_url := url EpLogin;
                       req_authorization := None; req_json := login_payload;
                       req_timeout := Some 30 |} ;;
     raise_for_status resp ;;;
     data <- resp_json resp ;;
     d <- lift (py_get data "data" PNone) ;;
     if py_truthy d then
       token <- lift (py_getitem data "data") ;;
       preview <- lift (token_preview token) ;;
       log (LogLoginOk preview) ;;;
       set_token token ;;;
       ret token
     else
       log (LogNoToken data) ;;;
       ret PNone)
    (fun e => log (LogLoginError e) ;;; ret PNone).

Definition fetch_payload (yesterday today : string) : pyval :=
  PDict [("stationIds", PList [PInt 1227]);
         ("memberCategorys", PList [PInt 1; PInt 0]);
         ("billStatus", PList [PInt 14]);
         ("timeS", PStr (String.append yesterday " 00:00:00"));
         ("timeE", PStr (String.append today " 23:59:59"));
         ("current", PInt 1);
         ("pageSize", PInt 50);
         ("busIdType", PInt 1)].

(** [fetch_bills(token) -> Optional[Dict]] *)
Definition fetch_bills (token : pyval) : Py pyval :=
  yesterday <- read (yesterday_iso E) ;;
  today <- read (today_iso E) ;;
  try_except
    (resp <- post E {| req_endpoint := EpFetch; req_url := url EpFetch;
                       req_authorization := Some token;
                       req_json := fetch_payload yesterday today;
                       req_timeout := Some 30 |} ;;
     raise_for_status resp ;;;
     data <- resp_json resp ;;
     total <- lift (py_get data "totalCount" (PInt 0)) ;;
     log LogBillsOk ;;;
     ret data)
    (fun e => log (LogFetchError e) ;;; ret PNone).

Definition refund_payload (bill_id amount : Z) (today : string) : pyval :=
  PDict [("billId", PInt bill_id);
         ("memberId", PNone);
         ("refundMoney", PInt amount);
         ("note", PStr (String.append "python-refund-"
                         (String.append (str_of_int bill_id)
                           (String.append "-" today))));
         ("refundPowerDiscount", PInt 0)].

(** [refund_bill(bill_id: int, amount: int) -> bool] *)
Definition refund_bill (bill_id amount : Z) : Py bool :=
  tok <- get_token ;;
  if negb (py_truthy tok) then
    log LogNoAuthToken ;;; ret false
  else
    today <- read (today_compact E) ;;
    try_except
      (resp <- post E {| req_endpoint := EpRefund; req_url := url EpRefund;
                         req_authorization := Some tok;
                         req_json := refund_payload bill_id amount today;
                         req_timeout := Some 30 |} ;;
       if (200 <=? status_code resp) && (status_code resp <? 300) then
         log (LogRefundOk (PInt bill_id)) ;;; ret true
       else
         log (LogRefundError (PInt bill_id)) ;;; ret false)
      (fun e => log (LogRefundError (PInt bill_id)) ;;; ret false).

Record counts : Type := mkCounts {
  success : nat;
  failed : nat;
  skipped : nat
}.

(** The body of the [for bill in bills] loop, lines 132-149. *)
Definition process_bill (c : counts) (bill : pyval) : Py counts :=
  bill_id <- lift (py_get bill "id" PNone) ;;
  if negb (py_truthy bill_id) || negb (isinstance_int_str bill_id) then
    log (LogInvalidBillId bill_id) ;;; ret c
  else
    bill_id_int <- lift (py_int (int_of_str E) bill_id) ;;
    amt <- lift (py_get bill "actualMoney" PNone) ;;
    if py_eq_zero amt || py_is_none amt then
      log (LogSkipped bill_id_int amt) ;;;
      ret {| success := success c; failed := failed c; skipped := S (skipped c) |}
    else
      log (LogProcessing (PInt bill_id_int) amt) ;;;
      amount <- lift (py_int (int_of_str E) amt) ;;
      ok <- refund_bill bill_id_int amount ;;
      if ok
      then ret {| success := S (success c); failed := failed c; skipped := skipped c |}
      else ret {| success := success c; failed := S (failed c); skipped := skipped c |}.

Definition process_refunds (bill_data : pyval) : Py unit :=
  total <- lift (py_get bill_data "totalCount" (PInt 0)) ;;
  log (LogBillsFound total) ;;;
  if py_eq_zero total then
    log LogNoBills ;;; ret tt
  else
    bills <- lift (py_get bill_data "data" (PList [])) ;;
    if negb (isinstance_list bills) then
      log (LogNotList bills) ;;; ret tt
    else
      items <- lift (py_iter bills) ;;
      c <- for_each process_bill {| success := 0; failed := 0; skipped := 0 |} items ;;
      log (LogSummary (success c) (failed c) (skipped c)).

(** The [if __name__ == "__main__":] block. *)
Definition main : Py termination :=
  log LogStart ;;;
  t <- login ;;
  if negb (py_truthy t) then
    log LogLoginFailed ;;; ret (SysExit 1)
  else
    tok <- get_token ;;
    bill_data <- fetch_bills tok ;;
    (if py_truthy bill_data then process_refunds bill_data else log LogNoBillData) ;;;
    log LogDone ;;;
    ret Finished.

(** The whole script: the configuration check, then the main block. *)
Definition script (w : world) : world * termination :=
  match missing with
  | [] => run main w
  | _ => (w, SysExit 1)
  end.

End Script.

End autoRefund.

(** ** auto_refund.py *)

Module auto_refund.

Section Script.

Variable cfg : config.
Variable E : env.

Definition url (e : endpoint) : string :=
  String.append (fmt_env (BASE_URL cfg)) (endpoint_path e).

(** Line 21: [all([BASE_URL, USERNAME, PASSWORD_HASH])]. *)
Definition config_complete : bool :=
  py_truthy (env_val (BASE_URL cfg)) &&
  py_truthy (env_val (USERNAME cfg)) &&
  py_truthy (env_val (PASSWORD_HASH cfg)).

Definition login_payload : pyval :=
  PDict [("account", env_val (USERNAME cfg));
         ("password", env_val (PASSWORD_HASH cfg));
         ("sellerNumber", env_val (SELLER_NUMBER cfg));
         ("smsCaptchaPass", PBool true)].

(** Lines 74-75: [session.cookies.update(response.cookies)] copies the
    cookies into the session's jar; [cookies.update(response.cookies)]
    then reads every cookie of the response by name into the plain dict
    [cookies], which can raise. *)
Definition update_cookies (response : response) : outcome unit :=
  dict_update_from_jar (map fst (cookies response)) (cookies response).

(** [AuthManager.login() -> bool].  The global is assigned before the
    cookie update and the log line that slices it. *)
Definition login : Py bool :=
  try_except
    (log LogLoggingIn ;;;
     response <- post E {| req_endpoint := EpLogin; req_url := url EpLogin;
                           req_authorization := None; req_json := login_payload;
                           req_timeout := None |} ;;
     raise_for_status response ;;;
     login_data <- resp_json response ;;
     has <- lift (py_contains "data" login_data) ;;
     d <- (if has then lift (py_getitem login_data "data") else ret (PBool false)) ;;
     if py_truthy d then
       token <- lift (py_getitem login_data "data") ;;
       set_token token ;;;
       lift (update_cookies response) ;;;
       preview <- lift (py_prefix 20 token) ;;
       log (LogLoginOk preview) ;;;
       ret true
     else
       log (LogNoToken login_data) ;;;
       ret false)
    (fun e => log (LogLoginError e) ;;; ret false).

(** [get_headers()]: the headers built around the global token. *)
Definition get_headers : Py pyval := get_token.

(** [get_today_range()] *)
Definition get_today_range : Py (string * string) :=
  today <- read (today_iso E) ;;
  ret (String.append today " 00:00:00", String.append today " 23:59:59").

Definition fetch_payload (time_s time_e : string) : pyval :=
  PDict [("stationIds", PList [PInt 1227]);
         ("fleetIds", PNone);
         ("memberCategorys", PList [PInt 1; PInt 0]);
         ("billStatus", PList [PInt 14]);
         ("pileIds", PNone);
         ("groupIds", PNone);
         ("timeS", PStr time_s);
         ("timeE", PStr time_e);
         ("current", PInt 1);
         ("total", PInt 0);
         ("pageSize", PInt 50);
         ("busIdType", PInt 1)].

(** [fetch_bills()]: the parsed body, or [None]. *)
Definition fetch_bills : Py pyval :=
  range <- get_today_range ;;
  try_except
    (headers <- get_headers ;;
     resp <- post E {| req_endpoint := EpFetch; req_url := url EpFetch;
                       req_authorization := Some headers;
                       req_json := fetch_payload (fst range) (snd range);
                       req_timeout := None |} ;;
     raise_for_status resp ;;;
     data <- resp_json resp ;;
     log LogBillsOk ;;;
     ret data)
    (fun e => log (LogFetchError e) ;;; ret PNone).

Definition refund_payload (bill_id : pyval) (amount : Z) : pyval :=
  PDict [("billId", bill_id);
         ("memberId", PNone);
         ("refundMoney", PInt amount);
         ("note", PStr "auto-refund");
         ("refundPowerDiscount", PInt 0)].

(** [refund_bill(bill_id, amount)]: the payload, with its [int(amount)],
    is built before the [try]. *)
Definition refund_bill (bill_id amount : pyval) : Py bool :=
  money <- lift (py_int (int_of_str E) amount) ;;
  try_except
    (headers <- get_headers ;;
     resp <- post E {| req_endpoint := EpRefund; req_url := url EpRefund;
                       req_authorization := Some headers;
                       req_json := refund_payload bill_id money;
                       req_timeout := None |} ;;
     raise_for_status resp ;;;
     log (LogRefundOk bill_id) ;;;
     ret true)
    (fun e => log (LogRefundError bill_id) ;;; ret false).

Record counts : Type := mkCounts {
  success : nat;
  failed : nat
}.

(** The body of the [for bill in data] loop, lines 146-153. *)
Definition process_bill (c : counts) (bill : pyval) : Py counts :=
  bid <- lift (py_get bill "id" PNone) ;;
  amt <- lift (py_get bill "actualMoney" PNone) ;;
  if py_truthy bid && negb (py_is_none amt) then
    log (LogProcessing bid amt) ;;;
    ok <- refund_bill bid amt ;;
    if ok
    then ret {| success := S (success c); failed := failed c |}
    else ret {| success := success c; failed := S (failed c) |}
  else ret c.

Definition process_refunds (bill_data : pyval) : Py unit :=
  total <- lift (py_get bill_data "totalCount" (PInt 0)) ;;
  log (LogBillsFound total) ;;;
  if py_eq_zero total then
    log LogNoBills ;;; ret tt
  else
    data <- lift (py_get bill_data "data" (PList [])) ;;
    items <- lift (py_iter data) ;;
    c <- for_each process_bill {| success := 0; failed := 0 |} items ;;
    log (LogSummary2 (success c) (failed c)).

(** [main()]; it returns in every branch, so the script falls off its
    end unless an exception escapes. *)
Definition main : Py termination :=
  log LogStart ;;;
  ok <- login ;;
  if negb ok then
    log LogLoginFailed ;;; ret Finished
  else
    bill_data <- fetch_bills ;;
    (if py_truthy bill_data then process_refunds bill_data else ret tt) ;;;
    log LogDone ;;;
    ret Finished.

(** The whole script: the configuration check, then [main()]. *)
Definition script (w : world) : world * termination :=
  if config_complete then run main w else (w, SysExit 1).

End Script.

End auto_refund.

Arguments auto_refund.update_cookies : simpl never.

(** ** Vocabulary of the statements *)

(** What [bill.get("id")] and [bill.get("actualMoney")] classify as. *)
Definition id_truthy (bill : pyval) : bool :=
  match py_get bill "id" PNone with
  | Ok v => py_truthy v
  | Raise _ => false
  end.

Definition id_valid (bill : pyval) : bool :=
  match py_get bill "id" PNone with
  | Ok v => py_truthy v && isinstance_int_str v
  | Raise _ => false
  end.

(** [int(bill.get("id"))] *)
Definition id_int_of (E : env) (bill : pyval) : outcome Z :=
  match py_get bill "id" PNone with
  | Ok v => py_int (int_of_str E) v
  | Raise e => Raise e
  end.

(** [int(bill.get("actualMoney"))] *)
Definition amount_int_of (E : env) (bill : pyval) : outcome Z :=
  match py_get bill "actualMoney" PNone with
  | Ok v => py_int (int_of_str E) v
  | Raise e => Raise e
  end.

Definition amount_none (bill : pyval) : bool :=
  match py_get bill "actualMoney" PNone with
  | Ok v => py_is_none v
  | Raise _ => false
  end.

Definition amount_zero (bill : pyval) : bool :=
  match py_get bill "actualMoney" PNone with
  | Ok v => py_eq_zero v
  | Raise _ => false
  end.

Definition amount_zero_or_none (bill : pyval) : bool :=
  match py_get bill "actualMoney" PNone with
  | Ok v => py_eq_zero v || py_is_none v
  | Raise _ => false
  end.

(** [actualMoney] is a number greater than 0. *)
Definition amount_positive (bill : pyval) : bool :=
  match py_get bill "actualMoney" PNone with
  | Ok (PInt z) => 0 <? z
  | Ok (PBool b) => b
  | Ok (PFloat (FFin q)) => 0 <? Qnum q
  | Ok (PFloat (FInf negative)) => negb negative
  | _ => false
  end.

(** Records on which the loop body of autoRefund.py raises nothing: a
    dict whose id, when it passes the guard, converts with [int()], and
    whose amount, when it is to be refunded, converts too. *)
Definition autoRefund_convertible (E : env) (b : pyval) : Prop :=
  (exists fields, b = PDict fields) /\
  (id_valid b = true -> exists z, id_int_of E b = Ok z) /\
  (id_valid b = true -> amount_zero_or_none b = false ->
   exists amt z, py_get b "actualMoney" PNone = Ok amt /\ py_int (int_of_str E) amt = Ok z).

(** The same for auto_refund.py, which converts the amount only. *)
Definition auto_refund_convertible (E : env) (b : pyval) : Prop :=
  (exists fields, b = PDict fields) /\
  (id_truthy b = true -> amount_none b = false ->
   exists amt z, py_get b "actualMoney" PNone = Ok amt /\ py_int (int_of_str E) amt = Ok z).

Definition is_login (r : request) : Prop := req_endpoint r = EpLogin.

Definition is_refund (r : request) : bool :=
  match req_endpoint r with EpRefund => true | _ => false end.

(** [sub in s] for two strings. *)
Definition contains_str (sub s : string) : bool :=
  match index 0 sub s with Some _ => true | None => false end.

(** A computation that only appends calls satisfying [P] to [sent]. *)
Definition posts_only {A} (P : request -> Prop) (m : Py A) : Prop :=
  forall w, exists l, sent (fst (m w)) = sent w ++ l /\ Forall P l.

(** At most one call, and then the one described by [P]. *)
Definition at_most_one (P : request -> Prop) (l : list request) : Prop :=
  l = [] \/ exists r, l = [r] /\ P r.

(** The refund call that [autoRefund.process_bill] makes for [bill]. *)
Definition autoRefund_refund_of (cfg : config) (E : env) (bill : pyval) (r : request) : Prop :=
  exists id amt id_int amount tok day,
    py_get bill "id" PNone = Ok id /\
    py_truthy id = true /\ isinstance_int_str id = true /\
    py_int (int_of_str E) id = Ok id_int /\
    py_get bill "actualMoney" PNone = Ok amt /\
    py_eq_zero amt = false /\ py_is_none amt = false /\
    py_int (int_of_str E) amt = Ok amount /\
    py_truthy tok = true /\
    r = {| req_endpoint := EpRefund;
           req_url := autoRefund.url cfg EpRefund;
           req_authorization := Some tok;
           req_json := autoRefund.refund_payload id_int amount day;
           req_timeout := Some 30 |}.

(** The refund call that [auto_refund.process_bill] makes for [bill]. *)
Definition auto_refund_refund_of (cfg : config) (E : env) (bill : pyval) (r : request) : Prop :=
  exists bid amt amount tok,
    py_get bill "id" PNone = Ok bid /\
    py_truthy bid = true /\
    py_get bill "actualMoney" PNone = Ok amt /\
    py_is_none amt = false /\
    py_int (int_of_str E) amt = Ok amount /\
    r = {| req_endpoint := EpRefund;
           req_url := auto_refund.url cfg EpRefund;
           req_authorization := Some tok;
           req_json := auto_refund.refund_payload bid amount;
           req_timeout := None |}.

(** ** Concrete runs *)

(** The string parser of the concrete runs: CPython's [int(s)] on strings
    of ASCII characters.  White space ([\t \n \v \f \r] and the space) is
    dropped at both ends, a sign may come first, then decimal digits with
    single underscores between them, at most 4300 digits (the default
    limit).  A string with a byte above 127 is outside it and gets
    [None]; the runs below hand it ASCII strings only. *)
Definition is_space (a : ascii) : bool :=
  let n := nat_of_ascii a in
  ((9 <=? n) && (n <=? 13) || (n =? 32))%nat.

Definition digit_val (a : ascii) : option Z :=
  let n := nat_of_ascii a in
  if ((48 <=? n) && (n <=? 57))%nat then Some (Z.of_nat (n - 48)) else None.

Fixpoint lstrip (l : list ascii) : list ascii :=
  match l with
  | a :: r => if is_space a then lstrip r else l
  | [] => []
  end.

Definition strip (l : list ascii) : list ascii := rev (lstrip (rev (lstrip l))).

(** Decimal digits, a single underscore allowed between two digits. *)
Fixpoint parse_digits (acc : Z) (after_digit : bool) (l : list ascii) : option Z :=
  match l with
  | [] => if after_digit then Some acc else None
  | a :: r =>
      match digit_val a with
      | Some d => parse_digits (10 * acc + d) true r
      | None =>
          if Ascii.eqb a "_"%char && after_digit then parse_digits acc false r else None
      end
  end.

Definition count_digits (l : list ascii) : nat :=
  List.length (filter (fun a => match digit_val a with Some _ => true | None => false end) l).

Definition is_ascii (a : ascii) : bool := (nat_of_ascii a <? 128)%nat.

Definition ascii_int_of_str (s : string) : option Z :=
  let l := list_ascii_of_string s in
  if negb (forallb is_ascii l) then None
  else if (4300 <? count_digits l)%nat then None
  else match strip l with
       | "-"%char :: r => option_map Z.opp (parse_digits 0 false r)
       | "+"%char :: r => parse_digits 0 false r
       | digits => parse_digits 0 false digits
       end.

Definition json_ok (v : pyval) : http_result :=
  HttpResponse {| status_code := 200; json_body := Some v; text := ""; cookies := [] |}.

(** A remote API that answers each endpoint the same way every time. *)
Definition scenario (login_answer fetch_answer refund_answer : http_result) : env :=
  {| net := fun _ r =>
       match req_endpoint r with
       | EpLogin => login_answer
       | EpFetch => fetch_answer
       | EpRefund => refund_answer
       end;
     today_iso := fun _ => "2026-01-02";
     yesterday_iso := fun _ => "2026-01-01";
     today_compact := fun _ => "20260102";
     int_of_str := ascii_int_of_str |}.

Definition login_ok : http_result := json_ok (PDict [("data", PStr "tok_abc123")]).

Definition refund_ok : http_result :=
  HttpResponse {| status_code := 200; json_body := None; text := "ok"; cookies := [] |}.

Definition page (bills : list pyval) : pyval :=
  PDict [("totalCount", PInt (Z.of_nat (List.length bills))); ("data", PList bills)].

Definition bill (id amount : pyval) : pyval :=
  PDict [("id", id); ("actualMoney", amount)].

(** The page of the spec's scenario: bill 501 of 100, bill 502 of 0. *)
Definition page_501_502 : list pyval :=
  [bill (PInt 501) (PInt 100); bill (PInt 502) (PInt 0)].

Definition serving (bills : list pyval) : env :=
  scenario login_ok (json_ok (page bills)) refund_ok.

(** A remote API that rejects the credentials with 401. *)
Definition login_refused : env :=
  scenario (HttpResponse {| status_code := 401; json_body := None; text := ""; cookies := [] |})
           (json_ok (page page_501_502)) refund_ok.

(** Only BASE_URL and USERNAME set: enough for autoRefund.py. *)
Definition cfg_minimal : config :=
  {| BASE_URL := Some "https://ev.example"; USERNAME := Some "ops";
     PASSWORD_HASH := None; SELLER_NUMBER := None; COOKIE_VALUE := None |}.

Definition cfg_full : config :=
  {| BASE_URL := Some "https://ev.example"; USERNAME := Some "ops";
     PASSWORD_HASH := Some "5f4dcc3b"; SELLER_NUMBER := Some "S1";
     COOKIE_VALUE := Some "c" |}.

Definition logged_in : world :=
  {| auth_token := PStr "tok_abc123"; sent := []; logged := [] |}.

(** A record with a zero amount and no id. *)
Definition bill_without_id : pyval := PDict [("actualMoney", PInt 0)].

(** A record with an amount to refund and no id. *)
Definition bill_missing_id : pyval := PDict [("actualMoney", PInt 100)].

(** A record whose amount is negative. *)
Definition bill_negative : pyval := bill (PInt 501) (PInt (-100)).

(** A record whose amount is the float 100.75. *)
Definition bill_fractional : pyval :=
  bill (PInt 501) (PFloat (FFin (Qmake 403 4))).

(** A response whose totalCount is 0 although its data list has bills. *)
Definition page_total_zero : list (string * pyval) :=
  [("totalCount", PInt 0); ("data", PList page_501_502)].

(** ** Vocabulary of the further properties *)

(** The three calls as the scripts build them. *)
Definition autoRefund_login_request (cfg : config) : request :=
  {| req_endpoint := EpLogin; req_url := autoRefund.url cfg EpLogin;
     req_authorization := None; req_json := autoRefund.login_payload cfg;
     req_timeout := Some 30 |}.

Definition auto_refund_login_request (cfg : config) : request :=
  {| req_endpoint := EpLogin; req_url := auto_refund.url cfg EpLogin;
     req_authorization := None; req_json := auto_refund.login_payload cfg;
     req_timeout := None |}.

(** A status on which [raise_for_status] raises. *)
Definition is_http_error (r : response) : bool :=
  (400 <=? status_code r) && (status_code r <? 600).

(** The [data] field of an answer that is a JSON object with a status
    outside [400, 600). *)
Definition answered_data (a : http_result) : option pyval :=
  match a with
  | HttpRaise _ => None
  | HttpResponse r =>
      if is_http_error r then None
      else match json_body r with
           | Some (PDict kvs) => assoc "data" kvs
           | _ => None
           end
  end.

(** The token a login answer grants to autoRefund.py: a non-empty string. *)
Definition autoRefund_granted (a : http_result) : option string :=
  match answered_data a with
  | Some (PStr s) => if String.eqb s "" then None else Some s
  | _ => None
  end.

(** Values on which [v[:20]] is defined. *)
Definition sliceable (v : pyval) : bool :=
  match v with PStr _ | PList _ => true | _ => false end.

(** Whether [cookies.update(response.cookies)] goes through on an answer. *)
Definition cookies_accepted (a : http_result) : bool :=
  match a with
  | HttpResponse r =>
      match auto_refund.update_cookies r with
      | Ok _ => true
      | Raise _ => false
      end
  | HttpRaise _ => false
  end.

(** The token a login answer grants to auto_refund.py: a truthy [data]
    that can be sliced, in an answer whose cookies can be read. *)
Definition auto_refund_granted (a : http_result) : option pyval :=
  match answered_data a with
  | Some v => if py_truthy v && cookies_accepted a && sliceable v then Some v else None
  | None => None
  end.

Definition autoRefund_fetch_request (cfg : config) (E : env) (token : pyval)
    (w : world) : request :=
  {| req_endpoint := EpFetch; req_url := autoRefund.url cfg EpFetch;
     req_authorization := Some token;
     req_json := autoRefund.fetch_payload (yesterday_iso E (sent w)) (today_iso E (sent w));
     req_timeout := Some 30 |}.

Definition auto_refund_fetch_request (cfg : config) (E : env) (w : world) : request :=
  {| req_endpoint := EpFetch; req_url := auto_refund.url cfg EpFetch;
     req_authorization := Some (auth_token w);
     req_json := auto_refund.fetch_payload
                   (String.append (today_iso E (sent w)) " 00:00:00")
                   (String.append (today_iso E (sent w)) " 23:59:59");
     req_timeout := None |}.

(** What [fetch_bills] hands back for an answer: autoRefund.py keeps a
    JSON object only, auto_refund.py any JSON value. *)
Definition autoRefund_fetched (a : http_result) : pyval :=
  match a with
  | HttpRaise _ => PNone
  | HttpResponse r =>
      if is_http_error r then PNone
      else match json_body r with
           | Some (PDict kvs) => PDict kvs
           | _ => PNone
           end
  end.

Definition auto_refund_fetched (a : http_result) : pyval :=
  match a with
  | HttpRaise _ => PNone
  | HttpResponse r =>
      if is_http_error r then PNone
      else match json_body r with
           | Some v => v
           | None => PNone
           end
  end.

Definition is_dict (v : pyval) : bool :=
  match v with PDict _ => true | _ => false end.

Definition autoRefund_refund_request (cfg : config) (E : env) (bill_id amount : Z)
    (w : world) : request :=
  {| req_endpoint := EpRefund; req_url := autoRefund.url cfg EpRefund;
     req_authorization := Some (auth_token w);
     req_json := autoRefund.refund_payload bill_id amount (today_compact E (sent w));
     req_timeout := Some 30 |}.

Definition auto_refund_refund_request (cfg : config) (bill_id : pyval) (money : Z)
    (w : world) : request :=
  {| req_endpoint := EpRefund; req_url := auto_refund.url cfg EpRefund;
     req_authorization := Some (auth_token w);
     req_json := auto_refund.refund_payload bill_id money;
     req_timeout := None |}.

(** An answer with a status in [200, 300). *)
Definition is_2xx (a : http_result) : bool :=
  match a with
  | HttpRaise _ => false
  | HttpResponse r => (200 <=? status_code r) && (status_code r <? 300)
  end.

(** An answer on which [raise_for_status] does not raise. *)
Definition not_http_error (a : http_result) : bool :=
  match a with
  | HttpRaise _ => false
  | HttpResponse r => negb (is_http_error r)
  end.

(** A remote API that answers every refund with 304. *)
Definition refund_not_modified : env :=
  scenario login_ok (json_ok (page page_501_502))
    (HttpResponse {| status_code := 304; json_body := None; text := ""; cookies := [] |}).

(** A computation that, started with [tok] stored, keeps it stored and
    only appends calls satisfying [P]. *)
Definition under_token {A} (tok : pyval) (P : request -> Prop) (m : Py A) : Prop :=
  forall w, auth_token w = tok ->
    auth_token (fst (m w)) = tok /\
    exists l, sent (fst (m w)) = sent w ++ l /\ Forall P l.

(** A refund call authorised by [tok]. *)
Definition refund_with (tok : pyval) (r : request) : Prop :=
  req_endpoint r = EpRefund /\ req_authorization r = Some tok.

(** A remote API whose page query fails with 500. *)
Definition fetch_broken : env :=
  scenario login_ok
    (HttpResponse {| status_code := 500; json_body := None; text := ""; cookies := [] |}) refund_ok.

(** A remote API whose page query answers a JSON array. *)
Definition fetch_array : env :=
  scenario login_ok (json_ok (PList page_501_502)) refund_ok.

(** The exceptions of reading a malformed page: [.get] on a value that
    is no dict, [int()] on a value it rejects, [for] over a value that
    cannot be iterated. *)
Definition is_conversion_error (e : exn) : bool :=
  match e with
  | AttributeError | TypeError | ValueError | OverflowError => true
  | _ => false
  end.

(** A computation whose exceptions all satisfy [Q]. *)
Definition raises_only {A} (Q : exn -> Prop) (m : Py A) : Prop :=
  forall w e, snd (m w) = Raise e -> Q e.

(** A remote API whose refund endpoint makes the HTTP library raise. *)
Definition refund_unreachable (bills : list pyval) : env :=
  scenario login_ok (json_ok (page bills)) (HttpRaise RequestException).

(** A page whose first record has the id "abc". *)
Definition page_abc : list pyval :=
  [bill (PStr "abc") (PInt 100); bill (PInt 501) (PInt 100)].

(** [int(bill.get("actualMoney"))] *)
(** The [billId] and [refundMoney] that a refund call carries. *)
Definition billed (r : request) : option pyval * option pyval :=
  match req_json r with
  | PDict kvs => (assoc "billId" kvs, assoc "refundMoney" kvs)
  | _ => (None, None)
  end.

(** The refund that autoRefund.py owes a record: none unless the id
    passes the guard and the amount is neither 0 nor None. *)
Definition autoRefund_due (E : env) (b : pyval) : list (option pyval * option pyval) :=
  if id_valid b && negb (amount_zero_or_none b) then
    match id_int_of E b, amount_int_of E b with
    | Ok i, Ok m => [(Some (PInt i), Some (PInt m))]
    | _, _ => []
    end
  else [].

(** The refund that auto_refund.py owes a record: none unless the id is
    truthy and the amount is not None; the id goes out as it is. *)
Definition auto_refund_due (E : env) (b : pyval) : list (option pyval * option pyval) :=
  if id_truthy b && negb (amount_none b) then
    match py_get b "id" PNone, amount_int_of E b with
    | Ok i, Ok m => [(Some i, Some (PInt m))]
    | _, _ => []
    end
  else [].

(** A page whose first record has an amount that is no number. *)
Definition page_bad_amount : list pyval :=
  [bill (PInt 500) (PStr "12.5"); bill (PInt 501) (PInt 100)].

(** The empty string and the empty dict: iterating them does nothing. *)
Definition empty_container (v : pyval) : bool :=
  match v with
  | PStr EmptyString => true
  | PDict [] => true
  | _ => false
  end.

(** Strings and dicts iterate over strings. *)
Definition iterates_strings (v : pyval) : bool :=
  match v with PStr _ | PDict _ => true | _ => false end.

(** A page whose [data] is null. *)
Definition page_data_null : list (string * pyval) :=
  [("totalCount", PInt 3); ("data", PNone)].

(** BASE_URL set to the empty string. *)
Definition cfg_empty_url : config :=
  {| BASE_URL := Some ""; USERNAME := Some "ops";
     PASSWORD_HASH := Some "5f4dcc3b"; SELLER_NUMBER := None; COOKIE_VALUE := None |}.

(** USERNAME not set. *)
Definition cfg_no_user : config :=
  {| BASE_URL := Some "https://ev.example"; USERNAME := None;
     PASSWORD_HASH := Some "5f4dcc3b"; SELLER_NUMBER := None; COOKIE_VALUE := None |}.

(** A page that autoRefund.py reads without raising: every record of
    its [data] list, if it has one, converts. *)
Definition autoRefund_readable (E : env) (page : pyval) : Prop :=
  forall bills, py_get page "data" (PList []) = Ok (PList bills) ->
                Forall (autoRefund_convertible E) bills.

(** A remote API whose refund endpoint answers 500. *)
Definition refund_rejected (bills : list pyval) : env :=
  scenario login_ok (json_ok (page bills))
    (HttpResponse {| status_code := 500; json_body := None; text := ""; cookies := [] |}).

(** A page that auto_refund.py reads without raising: nothing (falsy),
    or an object whose totalCount is 0 or missing, or an object whose
    [data] is a list (or missing) of records that convert. *)
Definition auto_refund_readable (E : env) (page : pyval) : Prop :=
  py_truthy page = true ->
  exists total,
    py_get page "totalCount" (PInt 0) = Ok total /\
    (py_eq_zero total = true \/
     exists bills, py_get page "data" (PList []) = Ok (PList bills) /\
                   Forall (auto_refund_convertible E) bills).

(** A login answer that grants "tok_abc123" and sets the given cookies. *)
Definition login_with_cookies (jar : list (string * option string)) : http_result :=
  HttpResponse {| status_code := 200;
                  json_body := Some (PDict [("data", PStr "tok_abc123")]);
                  text := "";
                  cookies := jar |}.

(** A remote API whose login answer sets the cookie [sid] twice (for two
    paths). *)
Definition login_cookie_conflict : env :=
  scenario (login_with_cookies [("sid", Some "a"); ("sid", Some "b")])
    (json_ok (page page_501_502)) refund_ok.

(** The two bytes of U+00E9 in UTF-8. *)
Definition e_acute : string :=
  String (ascii_of_nat 195) (String (ascii_of_nat 169) EmptyString).

(** The bytes of a string that start a character. *)
Fixpoint leaders (s : string) : nat :=
  match s with
  | EmptyString => O
  | String a r => ((if is_continuation a then 0 else 1) + leaders r)%nat
  end.

(** ** Frame lemmas of the monad *)

Section Frame.

Context {P : request -> Prop}.

Lemma posts_only_ret {A} (a : A) : posts_only P (ret a).
Proof. intros w. exists []. simpl. rewrite app_nil_r. auto. Qed.

Lemma posts_only_lift {A} (o : outcome A) : posts_only P (lift o).
Proof. intros w. exists []. simpl. rewrite app_nil_r. auto. Qed.

Lemma posts_only_log (e : log_event) : posts_only P (log e).
Proof. intros w. exists []. simpl. rewrite app_nil_r. auto. Qed.

Lemma posts_only_get_token : posts_only P get_token.
Proof. intros w. exists []. simpl. rewrite app_nil_r. auto. Qed.

Lemma posts_only_set_token (t : pyval) : posts_only P (set_token t).
Proof. intros w. exists []. simpl. rewrite app_nil_r. auto. Qed.

Lemma posts_only_read {A} (f : list request -> A) : posts_only P (read f).
Proof. intros w. exists []. simpl. rewrite app_nil_r. auto. Qed.

Lemma posts_only_raise_for_status (r : response) : posts_only P (raise_for_status r).
Proof.
  unfold raise_for_status.
  destruct (_ && _); [apply posts_only_lift | apply posts_only_ret].
Qed.

Lemma posts_only_resp_json (r : response) : posts_only P (resp_json r).
Proof.
  unfold resp_json.
  destruct (json_body r); [apply posts_only_ret | apply posts_only_lift].
Qed.

Lemma posts_only_post (E : env) (r : request) : P r -> posts_only P (post E r).
Proof.
  intros Hr w. exists [r]. unfold post.
  destruct (net E (sent w) r); simpl; auto.
Qed.

Lemma posts_only_bind {A B} (m : Py A) (k : A -> Py B) :
  posts_only P m -> (forall a, posts_only P (k a)) -> posts_only P (bind m k).
Proof.
  intros Hm Hk w. unfold bind.
  destruct (Hm w) as [l1 [E1 F1]].
  destruct (m w) as [w1 [a | e]]; simpl in E1.
  - destruct (Hk a w1) as [l2 [E2 F2]].
    exists (l1 ++ l2). rewrite E2, E1, app_assoc. split; [reflexivity|].
    apply Forall_app; auto.
  - exists l1. simpl. auto.
Qed.

Lemma posts_only_try_except {A} (m : Py A) (h : exn -> Py A) :
  posts_only P m -> (forall e, posts_only P (h e)) -> posts_only P (try_except m h).
Proof.
  intros Hm Hh w. unfold try_except.
  destruct (Hm w) as [l1 [E1 F1]].
  destruct (m w) as [w1 [a | e]]; simpl in E1.
  - exists l1. simpl. auto.
  - destruct (Hh e w1) as [l2 [E2 F2]].
    exists (l1 ++ l2). rewrite E2, E1, app_assoc. split; [reflexivity|].
    apply Forall_app; auto.
Qed.

Lemma posts_only_for_each {A} (body : A -> pyval -> Py A) :
  (forall acc x, posts_only P (body acc x)) ->
  forall items acc, posts_only P (for_each body acc items).
Proof.
  intros Hb items. induction items as [| x rest IH]; intros acc; simpl.
  - apply posts_only_ret.
  - apply posts_only_bind; auto.
Qed.

End Frame.

(** Solves [posts_only P m] by walking down [m]. *)
Ltac frame :=
  repeat first
    [ apply posts_only_ret | apply posts_only_lift | apply posts_only_log
    | apply posts_only_get_token | apply posts_only_set_token
    | apply posts_only_read | apply posts_only_raise_for_status
    | apply posts_only_resp_json
    | apply posts_only_post; solve [simpl; auto]
    | apply posts_only_bind; [| intros ?]
    | apply posts_only_try_except; [| intros ?]
    | apply posts_only_for_each; intros ? ?
    | match goal with
      | |- posts_only _ (if ?b then _ else _) => destruct b
      | |- posts_only _ (match ?o with _ => _ end) => destruct o
      end ].

(** ** The loop body and the loop *)

Lemma autoRefund_process_bill_calls cfg E c bill w :
  exists l,
    sent (fst (autoRefund.process_bill cfg E c bill w)) = sent w ++ l /\
    at_most_one (autoRefund_refund_of cfg E bill) l.
Proof.
  unfold autoRefund.process_bill, autoRefund.refund_bill, bind, lift, log, ret,
    try_except, post, get_token, read.
  destruct (py_get bill "id" PNone) as [id |] eqn:Hid; simpl.
  2:{ exists []. rewrite app_nil_r. split; [reflexivity | now left]. }
  destruct (py_truthy id) eqn:Ht; simpl.
  2:{ exists []. rewrite app_nil_r. split; [reflexivity | now left]. }
  destruct (isinstance_int_str id) eqn:Hi; simpl.
  2:{ exists []. rewrite app_nil_r. split; [reflexivity | now left]. }
  destruct (py_int (int_of_str E) id) as [id_int |] eqn:Hint; simpl.
  2:{ exists []. rewrite app_nil_r. split; [reflexivity | now left]. }
  destruct (py_get bill "actualMoney" PNone) as [amt |] eqn:Hamt; simpl.
  2:{ exists []. rewrite app_nil_r. split; [reflexivity | now left]. }
  destruct (py_eq_zero amt) eqn:Hz; simpl.
  1:{ exists []. rewrite app_nil_r. split; [reflexivity | now left]. }
  destruct (py_is_none amt) eqn:Hn; simpl.
  1:{ exists []. rewrite app_nil_r. split; [reflexivity | now left]. }
  destruct (py_int (int_of_str E) amt) as [amount |] eqn:Hamount; simpl.
  2:{ exists []. rewrite app_nil_r. split; [reflexivity | now left]. }
  destruct (py_truthy (auth_token w)) eqn:Htok; simpl.
  2:{ exists []. rewrite app_nil_r. split; [reflexivity | now left]. }
  match goal with
  | |- context [net E ?h ?r] =>
      exists [r]; split;
      [ destruct (net E h r) as [e | resp]; simpl;
        [| destruct ((200 <=? status_code resp) && (status_code resp <? 300))];
        reflexivity
      | right; exists r; split; [reflexivity |] ]
  end.
  exists id, amt, id_int, amount, (auth_token w), (today_compact E (sent w)).
  repeat split; assumption.
Qed.

Lemma at_most_one_nil (P : request -> Prop) : at_most_one P [].
Proof. now left. Qed.

Lemma concat_all_nil {A B} (l : list A) :
  List.concat (map (fun _ => @nil B) l) = [].
Proof. induction l; simpl; auto. Qed.

Lemma Forall2_all_nil {A} (R : A -> list request -> Prop) (l : list A) :
  (forall a, R a []) -> Forall2 R l (map (fun _ => []) l).
Proof. intros H. induction l; simpl; constructor; auto. Qed.

(** The calls of a loop split bill by bill. *)
Lemma for_each_calls {A} (body : A -> pyval -> Py A) (R : pyval -> list request -> Prop) :
  (forall b, R b []) ->
  (forall c b w, exists l, sent (fst (body c b w)) = sent w ++ l /\ R b l) ->
  forall items c w,
  exists per,
    sent (fst (for_each body c items w)) = sent w ++ List.concat per /\
    Forall2 R items per.
Proof.
  intros Hnil Hbody items.
  induction items as [| x rest IH]; intros c w; simpl.
  - exists []. simpl. rewrite app_nil_r. split; constructor.
  - unfold bind.
    destruct (Hbody c x w) as [l [El Rl]].
    destruct (body c x w) as [w1 [c1 | e]]; simpl in El.
    + destruct (IH c1 w1) as [per [Eper Fper]].
      exists (l :: per). simpl. rewrite Eper, El, app_assoc.
      split; [reflexivity | constructor; assumption].
    + exists (l :: map (fun _ => []) rest). simpl.
      rewrite concat_all_nil, app_nil_r.
      split; [assumption |].
      constructor; [assumption | apply Forall2_all_nil; assumption].
Qed.

(** A counter that the loop body bumps on the bills selected by [f]
    ends at the number of selected bills, when the loop completes. *)
Lemma for_each_count {A} (body : A -> pyval -> Py A) (mu : A -> nat) (f : pyval -> bool) :
  (forall c b w w' c', body c b w = (w', Ok c') ->
     mu c' = ((if f b then 1 else 0) + mu c)%nat) ->
  forall items c w w' c',
    for_each body c items w = (w', Ok c') ->
    mu c' = (List.length (filter f items) + mu c)%nat.
Proof.
  intros Hbody items.
  induction items as [| x rest IH]; intros c w w' c' Hrun; simpl in *.
  - unfold ret in Hrun. now inversion Hrun.
  - unfold bind in Hrun.
    destruct (body c x w) as [w1 [c1 | e]] eqn:Hx; [| discriminate].
    apply IH in Hrun. apply Hbody in Hx. rewrite Hrun, Hx.
    destruct (f x); simpl; lia.
Qed.

Lemma auto_refund_process_bill_calls cfg E c bill w :
  exists l,
    sent (fst (auto_refund.process_bill cfg E c bill w)) = sent w ++ l /\
    at_most_one (auto_refund_refund_of cfg E bill) l.
Proof.
  unfold auto_refund.process_bill, auto_refund.refund_bill, auto_refund.get_headers,
    bind, lift, log, ret, try_except, post, get_token, raise_for_status.
  destruct (py_get bill "id" PNone) as [bid |] eqn:Hid; simpl.
  2:{ exists []. rewrite app_nil_r. split; [reflexivity | now left]. }
  destruct (py_get bill "actualMoney" PNone) as [amt |] eqn:Hamt; simpl.
  2:{ exists []. rewrite app_nil_r. split; [reflexivity | now left]. }
  destruct (py_truthy bid) eqn:Ht; simpl.
  2:{ exists []. rewrite app_nil_r. split; [reflexivity | now left]. }
  destruct (py_is_none amt) eqn:Hn; simpl.
  1:{ exists []. rewrite app_nil_r. split; [reflexivity | now left]. }
  destruct (py_int (int_of_str E) amt) as [amount |] eqn:Hamount; simpl.
  2:{ exists []. rewrite app_nil_r. split; [reflexivity | now left]. }
  match goal with
  | |- context [net E ?h ?r] =>
      exists [r]; split;
      [ destruct (net E h r) as [e | resp]; simpl;
        [| destruct ((400 <=? status_code resp) && (status_code resp <? 600))];
        reflexivity
      | right; exists r; split; [reflexivity |] ]
  end.
  exists bid, amt, amount, (auth_token w).
  repeat split; assumption.
Qed.

Lemma autoRefund_process_bill_counts cfg E c bill w w' c' :
  autoRefund.process_bill cfg E c bill w = (w', Ok c') ->
  (autoRefund.success c' + autoRefund.failed c' + autoRefund.skipped c'
   = (if id_valid bill then 1 else 0)
     + (autoRefund.success c + autoRefund.failed c + autoRefund.skipped c))%nat /\
  (autoRefund.skipped c'
   = (if id_valid bill && amount_zero_or_none bill then 1 else 0)
     + autoRefund.skipped c)%nat.
Proof.
  unfold autoRefund.process_bill, id_valid, amount_zero_or_none, bind, lift, log, ret.
  destruct (py_get bill "id" PNone) as [id |] eqn:Hid; simpl; [| discriminate].
  destruct (py_truthy id) eqn:Ht; simpl.
  2:{ intros H; inversion H; subst; simpl; lia. }
  destruct (isinstance_int_str id) eqn:Hi; simpl.
  2:{ intros H; inversion H; subst; simpl; lia. }
  destruct (py_int (int_of_str E) id) as [id_int |] eqn:Hint; simpl; [| discriminate].
  destruct (py_get bill "actualMoney" PNone) as [amt |] eqn:Hamt; simpl; [| discriminate].
  destruct (py_eq_zero amt || py_is_none amt) eqn:Hz; simpl.
  1:{ intros H; inversion H; subst; simpl; lia. }
  destruct (py_int (int_of_str E) amt) as [amount |] eqn:Hamount; simpl; [| discriminate].
  destruct (autoRefund.refund_bill cfg E id_int amount _) as [w1 [[|] | e]];
    intros H; inversion H; subst; simpl; lia.
Qed.

Lemma auto_refund_process_bill_counts cfg E c bill w w' c' :
  auto_refund.process_bill cfg E c bill w = (w', Ok c') ->
  (auto_refund.success c' + auto_refund.failed c'
   = (if id_truthy bill && negb (amount_none bill) then 1 else 0)
     + (auto_refund.success c + auto_refund.failed c))%nat.
Proof.
  unfold auto_refund.process_bill, id_truthy, amount_none, bind, lift, log, ret.
  destruct (py_get bill "id" PNone) as [bid |] eqn:Hid; simpl; [| discriminate].
  destruct (py_get bill "actualMoney" PNone) as [amt |] eqn:Hamt; simpl; [| discriminate].
  destruct (py_truthy bid && negb (py_is_none amt)) eqn:Hg; simpl.
  2:{ intros H; inversion H; subst; simpl; lia. }
  destruct (auto_refund.refund_bill cfg E bid amt _) as [w1 [[|] | e]];
    intros H; inversion H; subst; simpl; lia.
Qed.

Lemma autoRefund_process_refunds_calls cfg E fields bills w :
  assoc "data" fields = Some (PList bills) ->
  exists per,
    sent (fst (autoRefund.process_refunds cfg E (PDict fields) w)) = sent w ++ List.concat per /\
    Forall2 (fun b l => at_most_one (autoRefund_refund_of cfg E b) l) bills per.
Proof.
  intros Hdata.
  unfold autoRefund.process_refunds, bind, lift, log, ret. simpl. rewrite Hdata. simpl.
  destruct (py_eq_zero _); simpl.
  - exists (map (fun _ => []) bills). rewrite concat_all_nil, app_nil_r.
    split; [reflexivity | apply Forall2_all_nil; intros; apply at_most_one_nil].
  - match goal with
    | |- context [for_each ?body ?c0 bills ?w0] =>
        destruct (for_each_calls body
                    (fun b l => at_most_one (autoRefund_refund_of cfg E b) l)
                    (fun b => at_most_one_nil _)
                    (autoRefund_process_bill_calls cfg E) bills c0 w0)
          as [per [Eper Fper]];
        exists per; split; [| exact Fper];
        destruct (for_each body c0 bills w0) as [w1 [c1 | e]]; exact Eper
    end.
Qed.

Lemma auto_refund_process_refunds_calls cfg E fields bills w :
  assoc "data" fields = Some (PList bills) ->
  exists per,
    sent (fst (auto_refund.process_refunds cfg E (PDict fields) w)) = sent w ++ List.concat per /\
    Forall2 (fun b l => at_most_one (auto_refund_refund_of cfg E b) l) bills per.
Proof.
  intros Hdata.
  unfold auto_refund.process_refunds, bind, lift, log, ret. simpl. rewrite Hdata. simpl.
  destruct (py_eq_zero _); simpl.
  - exists (map (fun _ => []) bills). rewrite concat_all_nil, app_nil_r.
    split; [reflexivity | apply Forall2_all_nil; intros; apply at_most_one_nil].
  - match goal with
    | |- context [for_each ?body ?c0 bills ?w0] =>
        destruct (for_each_calls body
                    (fun b l => at_most_one (auto_refund_refund_of cfg E b) l)
                    (fun b => at_most_one_nil _)
                    (auto_refund_process_bill_calls cfg E) bills c0 w0)
          as [per [Eper Fper]];
        exists per; split; [| exact Fper];
        destruct (for_each body c0 bills w0) as [w1 [c1 | e]]; exact Eper
    end.
Qed.

Lemma Forall2_weaken {A B} (R1 R2 : A -> B -> Prop) (l : list A) (l' : list B) :
  (forall a b, R1 a b -> R2 a b) -> Forall2 R1 l l' -> Forall2 R2 l l'.
Proof. intros H F. induction F; constructor; auto. Qed.

Lemma autoRefund_refund_needs_amount cfg E b r :
  autoRefund_refund_of cfg E b r -> amount_zero_or_none b = false.
Proof.
  intros (id & amt & id_int & amount & tok & day & H).
  destruct H as (_ & _ & _ & _ & Hamt & Hz & Hn & _).
  unfold amount_zero_or_none. now rewrite Hamt, Hz, Hn.
Qed.

Lemma auto_refund_refund_needs_amount cfg E b r :
  auto_refund_refund_of cfg E b r -> amount_none b = false.
Proof.
  intros (bid & amt & amount & tok & H).
  destruct H as (_ & _ & Hamt & Hn & _).
  unfold amount_none. now rewrite Hamt, Hn.
Qed.

Lemma autoRefund_refund_gate cfg E b r :
  autoRefund_refund_of cfg E b r ->
  id_valid b = true /\ amount_zero_or_none b = false /\
  req_endpoint r = EpRefund /\
  exists id_int, id_int_of E b = Ok id_int /\
                 py_get (req_json r) "billId" PNone = Ok (PInt id_int).
Proof.
  intros Hr. split; [| split; [eapply autoRefund_refund_needs_amount; eauto |]].
  - destruct Hr as (id & amt & id_int & amount & tok & day & H).
    destruct H as (Hid & Ht & Hi & _).
    unfold id_valid. now rewrite Hid, Ht, Hi.
  - destruct Hr as (id & amt & id_int & amount & tok & day & H).
    destruct H as (Hid & _ & _ & Hint & _ & _ & _ & _ & _ & ->).
    split; [reflexivity |]. exists id_int.
    unfold id_int_of. rewrite Hid. split; [assumption | reflexivity].
Qed.

Lemma auto_refund_refund_gate cfg E b r :
  auto_refund_refund_of cfg E b r ->
  id_truthy b = true /\ amount_none b = false /\
  req_endpoint r = EpRefund /\
  py_get (req_json r) "billId" PNone = py_get b "id" PNone.
Proof.
  intros Hr. split; [| split; [eapply auto_refund_refund_needs_amount; eauto |]].
  - destruct Hr as (bid & amt & amount & tok & H).
    destruct H as (Hid & Ht & _).
    unfold id_truthy. now rewrite Hid, Ht.
  - destruct Hr as (bid & amt & amount & tok & H).
    destruct H as (Hid & _ & _ & _ & _ & ->).
    split; [reflexivity |]. now rewrite Hid.
Qed.

Lemma autoRefund_refund_money cfg E b r :
  autoRefund_refund_of cfg E b r ->
  exists amt money,
    py_get b "actualMoney" PNone = Ok amt /\
    py_int (int_of_str E) amt = Ok money /\
    py_get (req_json r) "refundMoney" PNone = Ok (PInt money).
Proof.
  intros (id & amt & id_int & amount & tok & day & H).
  destruct H as (_ & _ & _ & _ & Hamt & _ & _ & Hint & _ & ->).
  exists amt, amount. repeat split; assumption.
Qed.

Lemma auto_refund_refund_money cfg E b r :
  auto_refund_refund_of cfg E b r ->
  exists amt money,
    py_get b "actualMoney" PNone = Ok amt /\
    py_int (int_of_str E) amt = Ok money /\
    py_get (req_json r) "refundMoney" PNone = Ok (PInt money).
Proof.
  intros (bid & amt & amount & tok & H).
  destruct H as (_ & _ & Hamt & _ & Hint & ->).
  exists amt, amount. repeat split; assumption.
Qed.

(** ** C1 *)

(** C1, as stated, fails: in autoRefund.py a record with a zero amount
    and no id takes the invalid-id branch, which leaves [skipped] alone;
    the run logs Success:0, Failed:0, Skipped:0 for a page of one such
    record. *)
Lemma C1_zero_amount_without_id_is_not_counted :
  amount_zero_or_none bill_without_id = true /\
  snd (autoRefund.process_bill cfg_minimal (serving [bill_without_id])
         {| autoRefund.success := 0; autoRefund.failed := 0; autoRefund.skipped := 0 |}
         bill_without_id logged_in)
  = Ok {| autoRefund.success := 0; autoRefund.failed := 0; autoRefund.skipped := 0 |} /\
  In (LogSummary 0 0 0)
     (logged (fst (autoRefund.script cfg_minimal (serving [bill_without_id]) initial_world))).
Proof. vm_compute. intuition. Qed.

(** C1 (amended): for every record of the fetched list [process_refunds]
    makes at most one refund call, and that call carries the record's
    own id; for a record whose actualMoney is 0 or null/missing
    autoRefund.py makes none: when the record's id passes the guard
    (truthy, int or str) and converts with [int()], it logs the skip and
    adds one to [skipped]; when the id fails the guard, it logs the
    invalid id and leaves all counters alone.  auto_refund.py has no
    skipped counter; a record whose actualMoney is null/missing gets no
    refund call there, changes no counter and logs nothing. *)
Theorem C1_zero_or_null_amount_is_skipped cfg E fields bills w :
  assoc "data" fields = Some (PList bills) ->
  (exists per,
     sent (fst (autoRefund.process_refunds cfg E (PDict fields) w))
       = sent w ++ List.concat per /\
     Forall2 (fun b calls =>
                (List.length calls <= 1)%nat /\
                (forall r, In r calls ->
                   req_endpoint r = EpRefund /\
                   exists id_int, id_int_of E b = Ok id_int /\
                     py_get (req_json r) "billId" PNone = Ok (PInt id_int)) /\
                (amount_zero_or_none b = true -> calls = []))
             bills per) /\
  (exists per,
     sent (fst (auto_refund.process_refunds cfg E (PDict fields) w))
       = sent w ++ List.concat per /\
     Forall2 (fun b calls =>
                (List.length calls <= 1)%nat /\
                (forall r, In r calls ->
                   req_endpoint r = EpRefund /\
                   py_get (req_json r) "billId" PNone = py_get b "id" PNone) /\
                (amount_none b = true -> calls = []))
             bills per) /\
  (forall b id amt c w0,
     py_get b "id" PNone = Ok id ->
     py_get b "actualMoney" PNone = Ok amt ->
     py_eq_zero amt || py_is_none amt = true ->
     (forall id_int,
        py_truthy id && isinstance_int_str id = true ->
        py_int (int_of_str E) id = Ok id_int ->
        autoRefund.process_bill cfg E c b w0
        = (fst (log (LogSkipped id_int amt) w0),
           Ok {| autoRefund.success := autoRefund.success c;
                 autoRefund.failed := autoRefund.failed c;
                 autoRefund.skipped := S (autoRefund.skipped c) |})) /\
     (py_truthy id && isinstance_int_str id = false ->
        autoRefund.process_bill cfg E c b w0
        = (fst (log (LogInvalidBillId id) w0), Ok c))) /\
  (forall b c w0, amount_none b = true ->
     auto_refund.process_bill cfg E c b w0 = (w0, Ok c)).
Proof.
  intros Hdata. split; [| split; [| split]].
  - destruct (autoRefund_process_refunds_calls cfg E fields w Hdata) as [per [Hs HF]].
    exists per. split; [exact Hs |].
    eapply Forall2_weaken; [| exact HF].
    intros b l [-> | [r [-> Hr]]]; simpl.
    + split; [lia | split; [intros r [] | reflexivity]].
    + split; [lia | split].
      * intros r' [<- | []].
        destruct (@autoRefund_refund_gate cfg E b r Hr) as (_ & _ & Hep & Hid).
        split; assumption.
      * intros Hz. apply autoRefund_refund_needs_amount in Hr. congruence.
  - destruct (auto_refund_process_refunds_calls cfg E fields w Hdata) as [per [Hs HF]].
    exists per. split; [exact Hs |].
    eapply Forall2_weaken; [| exact HF].
    intros b l [-> | [r [-> Hr]]]; simpl.
    + split; [lia | split; [intros r [] | reflexivity]].
    + split; [lia | split].
      * intros r' [<- | []].
        destruct (@auto_refund_refund_gate cfg E b r Hr) as (_ & _ & Hep & Hid).
        split; assumption.
      * intros Hz. apply auto_refund_refund_needs_amount in Hr. congruence.
  - intros b id amt c w0 Hid Hamt Hz. split.
    + intros id_int Hv Hi. apply andb_prop in Hv. destruct Hv as [Ht Hs].
      unfold autoRefund.process_bill, bind, lift, log, ret.
      rewrite Hid, Ht, Hs. simpl. rewrite Hi, Hamt. simpl. rewrite Hz. reflexivity.
    + intros Hv.
      unfold autoRefund.process_bill, bind, lift, log, ret.
      rewrite Hid.
      destruct (py_truthy id); simpl in *; [rewrite Hv |]; reflexivity.
  - intros b c w0. unfold amount_none, auto_refund.process_bill, bind, lift, ret.
    destruct (py_get b "actualMoney" PNone) as [amt |] eqn:Hamt; [| discriminate].
    intros Hn.
    destruct b; try discriminate. simpl.
    simpl in Hamt. inversion Hamt; subst. simpl.
    rewrite Hn, andb_false_r. reflexivity.
Qed.

(** C1 on the spec's page: bill 502 has amount 0.  It gets no call, its
    skip is logged and counted. *)
Lemma C1_witness :
  (exists per,
     sent (fst (autoRefund.process_refunds cfg_minimal (serving page_501_502)
                  (page page_501_502) logged_in))
       = sent logged_in ++ List.concat per /\
     Forall2 (fun b calls =>
                (List.length calls <= 1)%nat /\
                (forall r, In r calls ->
                   req_endpoint r = EpRefund /\
                   exists id_int, id_int_of (serving page_501_502) b = Ok id_int /\
                     py_get (req_json r) "billId" PNone = Ok (PInt id_int)) /\
                (amount_zero_or_none b = true -> calls = []))
       page_501_502 per) /\
  autoRefund.process_bill cfg_minimal (serving page_501_502)
    {| autoRefund.success := 1; autoRefund.failed := 0; autoRefund.skipped := 0 |}
    (bill (PInt 502) (PInt 0)) logged_in
  = (fst (log (LogSkipped 502 (PInt 0)) logged_in),
     Ok {| autoRefund.success := 1; autoRefund.failed := 0; autoRefund.skipped := 1 |}).
Proof.
  destruct (@C1_zero_or_null_amount_is_skipped cfg_minimal (serving page_501_502)
              [("totalCount", PInt 2); ("data", PList page_501_502)]
              page_501_502 logged_in eq_refl) as (HA & _ & Hbill & _).
  split; [exact HA |].
  destruct (Hbill (bill (PInt 502) (PInt 0)) (PInt 502) (PInt 0)
              {| autoRefund.success := 1; autoRefund.failed := 0; autoRefund.skipped := 0 |}
              logged_in eq_refl eq_refl eq_refl) as [Hskip _].
  exact (Hskip 502 eq_refl eq_refl).
Defined.

(** What auto_refund.py does with an amount equal to 0: its gate is
    "amt is not None", so bill 502 of the spec's page is sent to the
    refund endpoint with refundMoney 0. *)
Lemma auto_refund_zero_amount_is_sent :
  map (fun r => (py_get (req_json r) "billId" PNone,
                 py_get (req_json r) "refundMoney" PNone))
    (filter is_refund
       (sent (fst (auto_refund.script cfg_full (serving page_501_502) initial_world))))
  = [(Ok (PInt 501), Ok (PInt 100)); (Ok (PInt 502), Ok (PInt 0))].
Proof. vm_compute. reflexivity. Qed.

(** ** C2 *)

Lemma autoRefund_login_posts cfg E : posts_only is_login (autoRefund.login cfg E).
Proof. unfold autoRefund.login. frame. apply posts_only_post. reflexivity. Qed.

Lemma auto_refund_login_posts cfg E : posts_only is_login (auto_refund.login cfg E).
Proof. unfold auto_refund.login. frame. apply posts_only_post. reflexivity. Qed.

(** Both logins catch every exception: they always return. *)
Lemma autoRefund_login_returns cfg E w :
  exists w1 t, autoRefund.login cfg E w = (w1, Ok t).
Proof.
  unfold autoRefund.login, try_except.
  match goal with |- context [match ?m w with _ => _ end] => destruct (m w) as [w1 [t | e]] end.
  - eauto.
  - unfold bind, log, ret. simpl. eauto.
Qed.

Lemma auto_refund_login_returns cfg E w :
  exists w1 ok, auto_refund.login cfg E w = (w1, Ok ok).
Proof.
  unfold auto_refund.login, try_except.
  match goal with |- context [match ?m w with _ => _ end] => destruct (m w) as [w1 [t | e]] end.
  - eauto.
  - unfold bind, log, ret. simpl. eauto.
Qed.

(** C2, as stated, fails: when the API refuses the login, auto_refund.py
    logs the failure and returns from [main()], so the process ends with
    exit status 0. *)
Lemma C2_auto_refund_login_failure_exits_zero :
  snd (auto_refund.login cfg_full login_refused (fst (log LogStart initial_world)))
  = Ok false /\
  exit_code (snd (auto_refund.script cfg_full login_refused initial_world)) = 0.
Proof. vm_compute. split; reflexivity. Qed.

(** C2 (amended): in a run in which login does not yield a non-empty
    token, the only call made is the login call (no fetch, no refund) and
    the failure is logged; autoRefund.py then exits with code 1, while
    auto_refund.py returns from [main()] and ends with exit status 0. *)
Theorem C2_login_failure_ends_the_run cfg E w :
  (forall w1 t,
     autoRefund.login cfg E (fst (log LogStart w)) = (w1, Ok t) ->
     py_truthy t = false ->
     run (autoRefund.main cfg E) w = (fst (log LogLoginFailed w1), SysExit 1) /\
     exit_code (snd (run (autoRefund.main cfg E) w)) = 1 /\
     exists l, sent (fst (run (autoRefund.main cfg E) w)) = sent w ++ l /\
               Forall is_login l) /\
  (forall w1,
     auto_refund.login cfg E (fst (log LogStart w)) = (w1, Ok false) ->
     run (auto_refund.main cfg E) w = (fst (log LogLoginFailed w1), Finished) /\
     exit_code (snd (run (auto_refund.main cfg E) w)) = 0 /\
     exists l, sent (fst (run (auto_refund.main cfg E) w)) = sent w ++ l /\
               Forall is_login l).
Proof.
  split.
  - intros w1 t Hlogin Hfalsy.
    assert (Hrun : run (autoRefund.main cfg E) w
                   = (fst (log LogLoginFailed w1), SysExit 1)).
    { unfold run, autoRefund.main, bind at 1 2. simpl.
      simpl in Hlogin. rewrite Hlogin, Hfalsy. reflexivity. }
    rewrite Hrun. repeat split.
    destruct (autoRefund_login_posts cfg E (fst (log LogStart w))) as [l [Hs Hl]].
    rewrite Hlogin in Hs. exists l. split; assumption.
  - intros w1 Hlogin.
    assert (Hrun : run (auto_refund.main cfg E) w
                   = (fst (log LogLoginFailed w1), Finished)).
    { unfold run, auto_refund.main, bind at 1 2. simpl.
      simpl in Hlogin. rewrite Hlogin. reflexivity. }
    rewrite Hrun. repeat split.
    destruct (auto_refund_login_posts cfg E (fst (log LogStart w))) as [l [Hs Hl]].
    rewrite Hlogin in Hs. exists l. split; assumption.
Qed.

(** C2 against an API that answers the login with 401. *)
Lemma C2_witness :
  (exit_code (snd (run (autoRefund.main cfg_minimal login_refused) initial_world)) = 1 /\
   exists l, sent (fst (run (autoRefund.main cfg_minimal login_refused) initial_world))
             = sent initial_world ++ l /\ Forall is_login l) /\
  (exit_code (snd (run (auto_refund.main cfg_full login_refused) initial_world)) = 0 /\
   exists l, sent (fst (run (auto_refund.main cfg_full login_refused) initial_world))
             = sent initial_world ++ l /\ Forall is_login l).
Proof.
  split.
  - destruct (C2_login_failure_ends_the_run cfg_minimal login_refused initial_world)
      as [HA _].
    destruct (HA (fst (autoRefund.login cfg_minimal login_refused
                         (fst (log LogStart initial_world)))) PNone eq_refl eq_refl)
      as (_ & Hcode & Hcalls).
    split; assumption.
  - destruct (C2_login_failure_ends_the_run cfg_full login_refused initial_world)
      as [_ HB].
    destruct (HB (fst (auto_refund.login cfg_full login_refused
                         (fst (log LogStart initial_world)))) eq_refl)
      as (_ & Hcode & Hcalls).
    split; assumption.
Defined.

(** ** C3 *)

Lemma filter_all {A} (f : A -> bool) (l : list A) :
  forallb f l = true -> filter f l = l.
Proof.
  induction l as [| a l IH]; simpl; [reflexivity |].
  intros H. apply andb_prop in H. destruct H as [Ha Hl].
  rewrite Ha, IH; auto.
Qed.

Lemma filter_and_all {A} (f g : A -> bool) (l : list A) :
  forallb f l = true -> filter (fun a => f a && g a) l = filter g l.
Proof.
  induction l as [| a l IH]; simpl; [reflexivity |].
  intros H. apply andb_prop in H. destruct H as [Ha Hl].
  rewrite Ha, IH; auto.
Qed.

Lemma autoRefund_process_refunds_loop cfg E fields bills total w :
  assoc "data" fields = Some (PList bills) ->
  assoc "totalCount" fields = Some total ->
  py_eq_zero total = false ->
  autoRefund.process_refunds cfg E (PDict fields) w =
  match for_each (autoRefund.process_bill cfg E)
          {| autoRefund.success := 0; autoRefund.failed := 0; autoRefund.skipped := 0 |}
          bills (fst (log (LogBillsFound total) w)) with
  | (w1, Ok c) =>
      (fst (log (LogSummary (autoRefund.success c) (autoRefund.failed c)
                   (autoRefund.skipped c)) w1), Ok tt)
  | (w1, Raise e) => (w1, Raise e)
  end.
Proof.
  intros Hdata Htotal Hnz.
  unfold autoRefund.process_refunds, bind, lift, ret. simpl.
  rewrite Hdata, Htotal, Hnz. simpl.
  destruct (for_each _ _ _ _) as [w1 [c | e]]; reflexivity.
Qed.

Lemma auto_refund_process_refunds_loop cfg E fields bills total w :
  assoc "data" fields = Some (PList bills) ->
  assoc "totalCount" fields = Some total ->
  py_eq_zero total = false ->
  auto_refund.process_refunds cfg E (PDict fields) w =
  match for_each (auto_refund.process_bill cfg E)
          {| auto_refund.success := 0; auto_refund.failed := 0 |}
          bills (fst (log (LogBillsFound total) w)) with
  | (w1, Ok c) =>
      (fst (log (LogSummary2 (auto_refund.success c) (auto_refund.failed c)) w1), Ok tt)
  | (w1, Raise e) => (w1, Raise e)
  end.
Proof.
  intros Hdata Htotal Hnz.
  unfold auto_refund.process_refunds, bind, lift, ret. simpl.
  rewrite Hdata, Htotal, Hnz. simpl.
  destruct (for_each _ _ _ _) as [w1 [c | e]]; reflexivity.
Qed.

Lemma try_except_returns {A} (m : Py A) (h : exn -> Py A) :
  (forall e w, exists w' a, h e w = (w', Ok a)) ->
  forall w, exists w' a, try_except m h w = (w', Ok a).
Proof.
  intros Hh w. unfold try_except.
  destruct (m w) as [w1 [a | e]]; eauto.
Qed.

Lemma for_each_returns {A} (body : A -> pyval -> Py A) (Q : pyval -> Prop) :
  (forall c b w, Q b -> exists w' c', body c b w = (w', Ok c')) ->
  forall items, Forall Q items ->
  forall c w, exists w' c', for_each body c items w = (w', Ok c').
Proof.
  intros Hbody items HQ.
  induction HQ as [| x rest Hx Hrest IH]; intros c w; simpl.
  - unfold ret. eauto.
  - unfold bind. destruct (Hbody c x w Hx) as [w1 [c1 ->]]. apply IH.
Qed.

Lemma autoRefund_refund_bill_returns cfg E bill_id amount w :
  exists w' ok, autoRefund.refund_bill cfg E bill_id amount w = (w', Ok ok).
Proof.
  unfold autoRefund.refund_bill, bind at 1, get_token.
  destruct (negb (py_truthy (auth_token w))).
  - unfold bind, log, ret. eauto.
  - unfold bind at 1, read.
    apply try_except_returns. intros e w0. unfold bind, log, ret. eauto.
Qed.

Lemma auto_refund_refund_bill_returns cfg E bill_id amount money w :
  py_int (int_of_str E) amount = Ok money ->
  exists w' ok, auto_refund.refund_bill cfg E bill_id amount w = (w', Ok ok).
Proof.
  intros Hm. unfold auto_refund.refund_bill, bind at 1, lift. rewrite Hm.
  apply try_except_returns. intros e w0. unfold bind, log, ret. eauto.
Qed.

Lemma autoRefund_process_bill_returns cfg E c b w :
  autoRefund_convertible E b ->
  exists w' c', autoRefund.process_bill cfg E c b w = (w', Ok c').
Proof.
  intros ([fields ->] & Hid & Hamt). revert Hid Hamt.
  unfold id_valid, id_int_of, amount_zero_or_none, autoRefund.process_bill,
    bind, lift, log, ret.
  destruct (py_get (PDict fields) "id" PNone) as [id |] eqn:Hgi;
    [| discriminate Hgi].
  destruct (py_get (PDict fields) "actualMoney" PNone) as [amt |] eqn:Hga;
    [| discriminate Hga].
  intros Hid Hamt.
  destruct (py_truthy id && isinstance_int_str id) eqn:Hv.
  - apply andb_prop in Hv. destruct Hv as [Ht Hi]. rewrite Ht, Hi. simpl.
    destruct (Hid eq_refl) as [z ->].
    destruct (py_eq_zero amt || py_is_none amt) eqn:Hzero.
    + eauto.
    + destruct (Hamt eq_refl eq_refl) as (amt' & money & Hget & Hmoney).
      inversion Hget; subst amt'. rewrite Hmoney.
      match goal with
      | |- context [autoRefund.refund_bill cfg E z money ?w0] =>
          destruct (autoRefund_refund_bill_returns cfg E z money w0) as [w1 [ok ->]]
      end.
      destruct ok; eauto.
  - assert (Hbad : negb (py_truthy id) || negb (isinstance_int_str id) = true).
    { destruct (py_truthy id), (isinstance_int_str id); auto; discriminate. }
    rewrite Hbad. eauto.
Qed.

Lemma auto_refund_process_bill_returns cfg E c b w :
  auto_refund_convertible E b ->
  exists w' c', auto_refund.process_bill cfg E c b w = (w', Ok c').
Proof.
  intros ([fields ->] & Hamt). revert Hamt.
  unfold id_truthy, amount_none, auto_refund.process_bill, bind, lift, log, ret.
  destruct (py_get (PDict fields) "id" PNone) as [id |] eqn:Hgi;
    [| discriminate Hgi].
  destruct (py_get (PDict fields) "actualMoney" PNone) as [amt |] eqn:Hga;
    [| discriminate Hga].
  intros Hamt.
  destruct (py_truthy id) eqn:Ht; [destruct (py_is_none amt) eqn:Hn |]; simpl.
  - eauto.
  - destruct (Hamt eq_refl eq_refl) as (amt' & money & Hget & Hmoney).
    inversion Hget; subst amt'.
    match goal with
    | |- context [auto_refund.refund_bill cfg E id amt ?w0] =>
        destruct (auto_refund_refund_bill_returns cfg E id amt w0 Hmoney)
          as [w1 [ok ->]]
    end.
    destruct ok; eauto.
  - eauto.
Qed.

(** C3, as stated, fails: a page whose single record has a zero amount
    and no id gives N = 1 and K = 1, and autoRefund.py logs
    Success:0, Failed:0, Skipped:0. *)
Lemma C3_tally_misses_record_without_id :
  logged (fst (autoRefund.script cfg_minimal (serving [bill_without_id]) initial_world))
  = [LogStart; LogLoginOk (PStr "tok_abc123..."); LogBillsOk;
     LogBillsFound (PInt 1); LogInvalidBillId PNone; LogSummary 0 0 0; LogDone] /\
  ~ ((0 + 0 + 0 = List.length [bill_without_id])%nat /\
     (0 >= List.length (filter amount_zero_or_none [bill_without_id]))%nat).
Proof.
  split; [vm_compute; reflexivity |].
  vm_compute. intros [H _]. discriminate.
Qed.

Lemma existsb_false_in {A} (f : A -> bool) (l : list A) (x : A) :
  existsb f l = false -> In x l -> f x = false.
Proof.
  induction l as [| a l IH]; simpl; [intros _ [] |].
  intros H [-> | Hin]; apply orb_false_elim in H; destruct H; auto.
Qed.

Lemma filter_without_zero (bills : list pyval) :
  existsb amount_zero bills = false ->
  filter (fun b => id_truthy b && negb (amount_none b)) bills
  = filter (fun b => id_truthy b && negb (amount_zero_or_none b)) bills.
Proof.
  intros Hz. apply filter_ext_in. intros b Hin.
  pose proof (existsb_false_in amount_zero bills b Hz Hin) as Hb.
  unfold amount_zero, amount_none, amount_zero_or_none in *.
  destruct (py_get b "actualMoney" PNone) as [amt |]; [| reflexivity].
  now rewrite Hb.
Qed.

(** C3 (amended): when the loop of autoRefund.py completes on a batch of N
    records (it does whenever the ids and amounts it converts with
    [int()] convert), the logged counts satisfy
    success + failed + skipped == number of records whose id passes the
    guard, and skipped == number of those whose actualMoney is 0 or
    null; so success + failed + skipped == N and skipped == K when every
    record's id passes the guard.  auto_refund.py logs success and failed
    only; on a batch in which no actualMoney equals 0,
    success + failed == number of records with a truthy id and a
    non-null actualMoney, which is N - K when every id is truthy. *)
Theorem C3_logged_tally cfg E fields bills total w :
  assoc "data" fields = Some (PList bills) ->
  assoc "totalCount" fields = Some total ->
  py_eq_zero total = false ->
  (forall w', autoRefund.process_refunds cfg E (PDict fields) w = (w', Ok tt) ->
     exists s f k pre,
       logged w' = pre ++ [LogSummary s f k] /\
       (s + f + k = List.length (filter id_valid bills))%nat /\
       k = List.length (filter (fun b => id_valid b && amount_zero_or_none b) bills) /\
       (forallb id_valid bills = true ->
          (s + f + k = List.length bills)%nat /\
          k = List.length (filter amount_zero_or_none bills))) /\
  (forall w', auto_refund.process_refunds cfg E (PDict fields) w = (w', Ok tt) ->
     exists s f pre,
       logged w' = pre ++ [LogSummary2 s f] /\
       (existsb amount_zero bills = false ->
          (s + f = List.length
                     (filter (fun b => id_truthy b && negb (amount_zero_or_none b))
                        bills))%nat /\
          (forallb id_truthy bills = true ->
             (s + f + List.length (filter amount_zero_or_none bills)
              = List.length bills)%nat))) /\
  (Forall (autoRefund_convertible E) bills ->
   exists w', autoRefund.process_refunds cfg E (PDict fields) w = (w', Ok tt)) /\
  (Forall (auto_refund_convertible E) bills ->
   exists w', auto_refund.process_refunds cfg E (PDict fields) w = (w', Ok tt)).
Proof.
  intros Hdata Htotal Hnz.
  split; [| split; [| split]]; [intros w' | intros w' | intros Hall | intros Hall].
  - rewrite (autoRefund_process_refunds_loop cfg E fields w Hdata Htotal Hnz).
    destruct (for_each _ _ _ _) as [w1 [c | e]] eqn:Hloop; [| discriminate].
    intros H. inversion H; subst; clear H. simpl.
    pose proof (for_each_count _
      (fun c => (autoRefund.success c + autoRefund.failed c + autoRefund.skipped c)%nat)
      id_valid
      (fun c b w w' c' Hb => proj1 (autoRefund_process_bill_counts _ _ _ _ _ Hb))
      _ _ _ Hloop) as Hsum.
    pose proof (for_each_count _ autoRefund.skipped
      (fun b => id_valid b && amount_zero_or_none b)
      (fun c b w w' c' Hb => proj2 (autoRefund_process_bill_counts _ _ _ _ _ Hb))
      _ _ _ Hloop) as Hskip.
    simpl in Hsum, Hskip.
    exists (autoRefund.success c), (autoRefund.failed c), (autoRefund.skipped c), (logged w1).
    repeat split.
    + lia.
    + lia.
    + rewrite (filter_all id_valid bills H) in Hsum. lia.
    + rewrite (filter_and_all id_valid amount_zero_or_none bills H) in Hskip. lia.
  - rewrite (auto_refund_process_refunds_loop cfg E fields w Hdata Htotal Hnz).
    destruct (for_each _ _ _ _) as [w1 [c | e]] eqn:Hloop; [| discriminate].
    intros H. inversion H; subst; clear H. simpl.
    pose proof (for_each_count _
      (fun c => (auto_refund.success c + auto_refund.failed c)%nat)
      (fun b => id_truthy b && negb (amount_none b))
      (fun c b w w' c' Hb => auto_refund_process_bill_counts _ _ _ _ _ Hb)
      _ _ _ Hloop) as Hsum.
    simpl in Hsum.
    exists (auto_refund.success c), (auto_refund.failed c), (logged w1).
    split; [reflexivity |].
    intros Hzero. rewrite (filter_without_zero bills Hzero) in Hsum.
    split; [lia |].
    intros Hids.
    rewrite (filter_and_all id_truthy (fun b => negb (amount_zero_or_none b)) bills Hids)
      in Hsum.
    pose proof (filter_length amount_zero_or_none bills). lia.
  - rewrite (autoRefund_process_refunds_loop cfg E fields w Hdata Htotal Hnz).
    match goal with
    | |- context [for_each ?body ?c0 bills ?w0] =>
        destruct (@for_each_returns _ body (autoRefund_convertible E)
                    (@autoRefund_process_bill_returns cfg E) bills Hall c0 w0)
          as [w1 [c ->]]
    end.
    eauto.
  - rewrite (auto_refund_process_refunds_loop cfg E fields w Hdata Htotal Hnz).
    match goal with
    | |- context [for_each ?body ?c0 bills ?w0] =>
        destruct (@for_each_returns _ body (auto_refund_convertible E)
                    (@auto_refund_process_bill_returns cfg E) bills Hall c0 w0)
          as [w1 [c ->]]
    end.
    eauto.
Qed.

(** C3 on the spec's page: Success:1, Failed:0, Skipped:1 in
    autoRefund.py; on a page with the one bill 501, Success:1, Failed:0
    in auto_refund.py. *)
Lemma C3_witness :
  (exists s f k pre,
     logged (fst (autoRefund.process_refunds cfg_minimal (serving page_501_502)
                    (page page_501_502) logged_in))
       = pre ++ [LogSummary s f k] /\
     (s + f + k = 2)%nat /\ k = 1%nat) /\
  (exists s f pre,
     logged (fst (auto_refund.process_refunds cfg_full (serving [bill (PInt 501) (PInt 100)])
                    (page [bill (PInt 501) (PInt 100)]) logged_in))
       = pre ++ [LogSummary2 s f] /\
     (s + f = 1)%nat).
Proof.
  split.
  - destruct (@C3_logged_tally cfg_minimal (serving page_501_502)
                [("totalCount", PInt 2); ("data", PList page_501_502)]
                page_501_502 (PInt 2) logged_in eq_refl eq_refl eq_refl) as [HA _].
    destruct (HA (fst (autoRefund.process_refunds cfg_minimal (serving page_501_502)
                         (page page_501_502) logged_in)) eq_refl)
      as (s & f & k & pre & Hlog & Hsum & Hskip & _).
    exists s, f, k, pre. repeat split; assumption.
  - destruct (@C3_logged_tally cfg_full (serving [bill (PInt 501) (PInt 100)])
                [("totalCount", PInt 1); ("data", PList [bill (PInt 501) (PInt 100)])]
                [bill (PInt 501) (PInt 100)] (PInt 1) logged_in eq_refl eq_refl eq_refl)
      as (_ & HB & _).
    destruct (HB (fst (auto_refund.process_refunds cfg_full
                         (serving [bill (PInt 501) (PInt 100)])
                         (page [bill (PInt 501) (PInt 100)]) logged_in)) eq_refl)
      as (s & f & pre & Hlog & Hsum).
    exists s, f, pre. split; [exact Hlog | exact (proj1 (Hsum eq_refl))].
Defined.

(** ** C4 *)

(** C4, as stated, fails: autoRefund.py passes over a record without id
    through its invalid-id branch, which does not count it as skipped; a
    page of one such record is logged as Success:0, Failed:0, Skipped:0. *)
Lemma C4_missing_id_is_not_counted_as_skipped :
  autoRefund.process_bill cfg_minimal (serving [bill_missing_id])
    {| autoRefund.success := 0; autoRefund.failed := 0; autoRefund.skipped := 0 |}
    bill_missing_id logged_in
  = (fst (log (LogInvalidBillId PNone) logged_in),
     Ok {| autoRefund.success := 0; autoRefund.failed := 0; autoRefund.skipped := 0 |}) /\
  In (LogSummary 0 0 0)
     (logged (fst (autoRefund.script cfg_minimal (serving [bill_missing_id]) initial_world))).
Proof. vm_compute. intuition. Qed.

(** What autoRefund.py does with an id that is a non-numeric string: the
    guard lets it through and [int(bill_id)] raises ValueError out of the
    loop; the bills after it are not processed and the script dies. *)
Lemma autoRefund_non_numeric_id_raises :
  snd (autoRefund.process_bill cfg_minimal (serving [])
         {| autoRefund.success := 0; autoRefund.failed := 0; autoRefund.skipped := 0 |}
         (bill (PStr "abc") (PInt 100)) logged_in) = Raise ValueError /\
  snd (autoRefund.script cfg_minimal
         (serving [bill (PStr "abc") (PInt 100); bill (PInt 501) (PInt 100)])
         initial_world) = Uncaught ValueError /\
  filter is_refund
    (sent (fst (autoRefund.script cfg_minimal
                  (serving [bill (PStr "abc") (PInt 100); bill (PInt 501) (PInt 100)])
                  initial_world))) = [].
Proof. vm_compute. intuition. Qed.

(** C4 (amended): a record whose id is missing, null or otherwise falsy
    (in autoRefund.py also one whose id is neither int nor str) is passed
    over: no refund call, no exception, no counter changed (it is not
    counted as skipped; autoRefund.py logs the invalid id), and the loop
    goes on with the next record. *)
Theorem C4_invalid_id_is_passed_over cfg E b id rest :
  py_get b "id" PNone = Ok id ->
  (py_truthy id = false \/ isinstance_int_str id = false ->
   forall c w,
     autoRefund.process_bill cfg E c b w = (fst (log (LogInvalidBillId id) w), Ok c) /\
     for_each (autoRefund.process_bill cfg E) c (b :: rest) w
     = for_each (autoRefund.process_bill cfg E) c rest (fst (log (LogInvalidBillId id) w))) /\
  (py_truthy id = false ->
   forall c w,
     auto_refund.process_bill cfg E c b w = (w, Ok c) /\
     for_each (auto_refund.process_bill cfg E) c (b :: rest) w
     = for_each (auto_refund.process_bill cfg E) c rest w).
Proof.
  intros Hid. split.
  - intros Hbad c w.
    assert (Hstep : autoRefund.process_bill cfg E c b w
                    = (fst (log (LogInvalidBillId id) w), Ok c)).
    { unfold autoRefund.process_bill, bind, lift, log, ret. rewrite Hid. simpl.
      destruct Hbad as [-> | ->]; simpl; [| rewrite orb_true_r]; reflexivity. }
    split; [exact Hstep |].
    simpl. unfold bind at 1. rewrite Hstep. reflexivity.
  - intros Hfalsy c w.
    assert (Hstep : auto_refund.process_bill cfg E c b w = (w, Ok c)).
    { unfold auto_refund.process_bill, bind, lift, ret. rewrite Hid.
      destruct b; try discriminate. simpl. rewrite Hfalsy. reflexivity. }
    split; [exact Hstep |].
    simpl. unfold bind at 1. rewrite Hstep. reflexivity.
Qed.

(** C4 on a record without id followed by bill 501. *)
Lemma C4_witness :
  for_each (autoRefund.process_bill cfg_minimal (serving []))
    {| autoRefund.success := 0; autoRefund.failed := 0; autoRefund.skipped := 0 |}
    [bill_missing_id; bill (PInt 501) (PInt 100)] logged_in
  = for_each (autoRefund.process_bill cfg_minimal (serving []))
      {| autoRefund.success := 0; autoRefund.failed := 0; autoRefund.skipped := 0 |}
      [bill (PInt 501) (PInt 100)] (fst (log (LogInvalidBillId PNone) logged_in)) /\
  auto_refund.process_bill cfg_full (serving [])
    {| auto_refund.success := 0; auto_refund.failed := 0 |} bill_missing_id logged_in
  = (logged_in, Ok {| auto_refund.success := 0; auto_refund.failed := 0 |}).
Proof.
  split.
  - destruct (@C4_invalid_id_is_passed_over cfg_minimal (serving []) bill_missing_id
                PNone [bill (PInt 501) (PInt 100)] eq_refl) as [HA _].
    exact (proj2 (HA (or_introl eq_refl) _ logged_in)).
  - destruct (@C4_invalid_id_is_passed_over cfg_full (serving []) bill_missing_id
                PNone [] eq_refl) as [_ HB].
    exact (proj1 (HB eq_refl _ logged_in)).
Defined.

(** ** C5 *)

(** C5, as stated, fails: the gate of autoRefund.py is "amount is not 0
    and not None", which a negative amount passes; bill 501 with amount
    -100 is refunded with refundMoney -100. *)
Lemma C5_negative_amount_is_refunded :
  amount_positive bill_negative = false /\
  map req_json
    (filter is_refund
       (sent (fst (autoRefund.script cfg_minimal (serving [bill_negative]) initial_world))))
  = [PDict [("billId", PInt 501); ("memberId", PNone); ("refundMoney", PInt (-100));
            ("note", PStr "python-refund-501-20260102"); ("refundPowerDiscount", PInt 0)]].
Proof. vm_compute. split; reflexivity. Qed.

(** C5 (amended): within one pass over the fetched list a refund call is
    made at most once for each record, it is the refund of that record's
    id, and it is made only when the record's id is truthy and its amount
    is not None (autoRefund.py: the id is also an int or str and the
    amount is not equal to 0); no record is retried. *)
Theorem C5_at_most_one_refund_per_bill cfg E fields bills w :
  assoc "data" fields = Some (PList bills) ->
  (exists per,
     sent (fst (autoRefund.process_refunds cfg E (PDict fields) w))
       = sent w ++ List.concat per /\
     Forall2 (fun b calls =>
                (List.length calls <= 1)%nat /\
                forall r, In r calls ->
                  id_valid b = true /\ amount_zero_or_none b = false /\
                  req_endpoint r = EpRefund /\
                  exists id_int, id_int_of E b = Ok id_int /\
                    py_get (req_json r) "billId" PNone = Ok (PInt id_int))
             bills per) /\
  (exists per,
     sent (fst (auto_refund.process_refunds cfg E (PDict fields) w))
       = sent w ++ List.concat per /\
     Forall2 (fun b calls =>
                (List.length calls <= 1)%nat /\
                forall r, In r calls ->
                  id_truthy b = true /\ amount_none b = false /\
                  req_endpoint r = EpRefund /\
                  py_get (req_json r) "billId" PNone = py_get b "id" PNone)
             bills per).
Proof.
  intros Hdata. split.
  - destruct (autoRefund_process_refunds_calls cfg E fields w Hdata) as [per [Hs HF]].
    exists per. split; [exact Hs |].
    eapply Forall2_weaken; [| exact HF].
    intros b l [-> | [r [-> Hr]]]; simpl; (split; [lia |]).
    + intros r [].
    + intros r' [<- | []]. now apply (@autoRefund_refund_gate cfg E).
  - destruct (auto_refund_process_refunds_calls cfg E fields w Hdata) as [per [Hs HF]].
    exists per. split; [exact Hs |].
    eapply Forall2_weaken; [| exact HF].
    intros b l [-> | [r [-> Hr]]]; simpl; (split; [lia |]).
    + intros r [].
    + intros r' [<- | []]. now apply (@auto_refund_refund_gate cfg E).
Qed.

(** C5 on the spec's page. *)
Lemma C5_witness :
  exists per,
    sent (fst (autoRefund.process_refunds cfg_minimal (serving page_501_502)
                 (page page_501_502) logged_in))
      = sent logged_in ++ List.concat per /\
    Forall2 (fun b calls =>
               (List.length calls <= 1)%nat /\
               forall r, In r calls ->
                 id_valid b = true /\ amount_zero_or_none b = false /\
                 req_endpoint r = EpRefund /\
                 exists id_int, id_int_of (serving page_501_502) b = Ok id_int /\
                   py_get (req_json r) "billId" PNone = Ok (PInt id_int))
            page_501_502 per.
Proof.
  exact (proj1 (@C5_at_most_one_refund_per_bill cfg_minimal (serving page_501_502)
                  [("totalCount", PInt 2); ("data", PList page_501_502)]
                  page_501_502 logged_in eq_refl)).
Defined.

(** ** C6 *)

Lemma autoRefund_refund_bill_calls cfg E bill_id amount w :
  exists l,
    sent (fst (autoRefund.refund_bill cfg E bill_id amount w)) = sent w ++ l /\
    at_most_one
      (fun r => r = {| req_endpoint := EpRefund;
                       req_url := autoRefund.url cfg EpRefund;
                       req_authorization := Some (auth_token w);
                       req_json := autoRefund.refund_payload bill_id amount
                                     (today_compact E (sent w));
                       req_timeout := Some 30 |}) l.
Proof.
  unfold autoRefund.refund_bill, bind, log, ret, try_except, post, get_token, read.
  destruct (py_truthy (auth_token w)); simpl.
  - match goal with
    | |- context [net E ?h ?r] =>
        exists [r]; split;
        [ destruct (net E h r) as [e | resp]; simpl;
          [| destruct ((200 <=? status_code resp) && (status_code resp <? 300))];
          reflexivity
        | right; exists r; split; reflexivity ]
    end.
  - exists []. rewrite app_nil_r. split; [reflexivity | now left].
Qed.

Lemma auto_refund_refund_bill_calls cfg E bill_id amount w :
  exists l,
    sent (fst (auto_refund.refund_bill cfg E bill_id amount w)) = sent w ++ l /\
    at_most_one
      (fun r => exists money,
         py_int (int_of_str E) amount = Ok money /\
         r = {| req_endpoint := EpRefund;
                req_url := auto_refund.url cfg EpRefund;
                req_authorization := Some (auth_token w);
                req_json := auto_refund.refund_payload bill_id money;
                req_timeout := None |}) l.
Proof.
  unfold auto_refund.refund_bill, auto_refund.get_headers, bind, lift, log, ret,
    try_except, post, get_token, raise_for_status.
  destruct (py_int (int_of_str E) amount) as [money |] eqn:Hm; simpl.
  - match goal with
    | |- context [net E ?h ?r] =>
        exists [r]; split;
        [ destruct (net E h r) as [e | resp]; simpl;
          [| destruct ((400 <=? status_code resp) && (status_code resp <? 600))];
          reflexivity
        | right; exists r; split; [reflexivity | exists money; split; reflexivity] ]
    end.
  - exists []. rewrite app_nil_r. split; [reflexivity | now left].
Qed.

(** C6, as stated, fails: auto_refund.py sends the constant note
    "auto-refund", which holds neither the bill id nor the date. *)
Lemma C6_auto_refund_note_is_constant :
  map (fun r => py_get (req_json r) "note" PNone)
    (filter is_refund
       (sent (fst (auto_refund.script cfg_full (serving page_501_502) initial_world))))
  = [Ok (PStr "auto-refund"); Ok (PStr "auto-refund")] /\
  contains_str (str_of_int 501) "auto-refund" = false /\
  contains_str "20260102" "auto-refund" = false.
Proof. vm_compute. intuition. Qed.

(** C6 (amended): every refund request has the JSON body
    {billId, memberId: null, refundMoney, note, refundPowerDiscount: 0};
    in autoRefund.py the note is "python-refund-<bill id>-<YYYYMMDD>" with
    the id and the date of the call, in auto_refund.py it is the constant
    "auto-refund" and billId is the id as the record gives it. *)
Theorem C6_refund_request_body cfg E w :
  (forall bill_id amount l,
     sent (fst (autoRefund.refund_bill cfg E bill_id amount w)) = sent w ++ l ->
     Forall (fun r =>
               req_json r
               = PDict [("billId", PInt bill_id);
                        ("memberId", PNone);
                        ("refundMoney", PInt amount);
                        ("note", PStr (String.append "python-refund-"
                                         (String.append (str_of_int bill_id)
                                            (String.append "-"
                                               (today_compact E (sent w))))));
                        ("refundPowerDiscount", PInt 0)]) l) /\
  (forall bill_id amount l,
     sent (fst (auto_refund.refund_bill cfg E bill_id amount w)) = sent w ++ l ->
     Forall (fun r =>
               exists money,
                 py_int (int_of_str E) amount = Ok money /\
                 req_json r
                 = PDict [("billId", bill_id);
                          ("memberId", PNone);
                          ("refundMoney", PInt money);
                          ("note", PStr "auto-refund");
                          ("refundPowerDiscount", PInt 0)]) l).
Proof.
  split; intros bill_id amount l Hl.
  - destruct (autoRefund_refund_bill_calls cfg E bill_id amount w) as [l' [Hs Hone]].
    rewrite Hl in Hs. apply app_inv_head in Hs. subst l'.
    destruct Hone as [-> | [r [-> ->]]]; repeat constructor.
  - destruct (auto_refund_refund_bill_calls cfg E bill_id amount w) as [l' [Hs Hone]].
    rewrite Hl in Hs. apply app_inv_head in Hs. subst l'.
    destruct Hone as [-> | [r [-> [money [Hm ->]]]]]; repeat constructor.
    exists money. split; [assumption | reflexivity].
Qed.

(** C6 on the refund of bill 501, amount 100. *)
Lemma C6_witness :
  Forall (fun r =>
            req_json r
            = PDict [("billId", PInt 501);
                     ("memberId", PNone);
                     ("refundMoney", PInt 100);
                     ("note", PStr "python-refund-501-20260102");
                     ("refundPowerDiscount", PInt 0)])
    (sent (fst (autoRefund.refund_bill cfg_minimal (serving page_501_502) 501 100 logged_in))) /\
  Forall (fun r =>
            exists money,
              py_int (int_of_str (serving page_501_502)) (PInt 100) = Ok money /\
              req_json r
              = PDict [("billId", PInt 501);
                       ("memberId", PNone);
                       ("refundMoney", PInt money);
                       ("note", PStr "auto-refund");
                       ("refundPowerDiscount", PInt 0)])
    (sent (fst (auto_refund.refund_bill cfg_full (serving page_501_502)
                  (PInt 501) (PInt 100) logged_in))).
Proof.
  destruct (C6_refund_request_body cfg_minimal (serving page_501_502) logged_in) as [HA _].
  destruct (C6_refund_request_body cfg_full (serving page_501_502) logged_in) as [_ HB].
  split.
  - exact (HA 501 100 _ eq_refl).
  - exact (HB (PInt 501) (PInt 100) _ eq_refl).
Defined.

(** ** C7 *)

Lemma autoRefund_main_timeouts cfg E :
  posts_only (fun r => req_timeout r = Some 30) (autoRefund.main cfg E).
Proof.
  unfold autoRefund.main, autoRefund.login, autoRefund.fetch_bills,
    autoRefund.process_refunds.
  frame; unfold autoRefund.process_bill, autoRefund.refund_bill; frame.
Qed.

Lemma auto_refund_main_timeouts cfg E :
  posts_only (fun r => req_timeout r = None) (auto_refund.main cfg E).
Proof.
  unfold auto_refund.main, auto_refund.login, auto_refund.fetch_bills,
    auto_refund.process_refunds, auto_refund.get_today_range, auto_refund.get_headers.
  frame; unfold auto_refund.process_bill, auto_refund.refund_bill,
    auto_refund.get_headers; frame.
Qed.

Lemma run_posts (P : request -> Prop) (m : Py termination) :
  posts_only P m ->
  forall w, exists l, sent (fst (run m w)) = sent w ++ l /\ Forall P l.
Proof.
  intros Hm w. destruct (Hm w) as [l Hl]. exists l.
  unfold run. destruct (m w) as [w1 [t | e]]; exact Hl.
Qed.

(** C7, as stated, fails: the variant that requires the password hash is
    auto_refund.py (it rejects a configuration without it, which
    autoRefund.py accepts), and none of its calls passes a timeout. *)
Lemma C7_stricter_variant_passes_no_timeout :
  auto_refund.config_complete cfg_minimal = false /\
  autoRefund.missing cfg_minimal = [] /\
  map (fun r => (req_endpoint r, req_timeout r))
    (sent (fst (auto_refund.script cfg_full (serving page_501_502) initial_world)))
  = [(EpLogin, None); (EpFetch, None); (EpRefund, None); (EpRefund, None)].
Proof. vm_compute. intuition. Qed.

(** C7 (amended): the variant that requires the password hash,
    auto_refund.py, passes no timeout to any of its calls (login, fetch,
    refund); it is the other variant, autoRefund.py, requiring only the
    base URL and the account, that issues every call with timeout=30. *)
Theorem C7_timeout_of_every_call cfg E w :
  (exists l,
     sent (fst (auto_refund.script cfg E w)) = sent w ++ l /\
     Forall (fun r => req_timeout r = None) l) /\
  (exists l,
     sent (fst (autoRefund.script cfg E w)) = sent w ++ l /\
     Forall (fun r => req_timeout r = Some 30) l) /\
  (auto_refund.config_complete cfg = true ->
     exists h, PASSWORD_HASH cfg = Some h /\ h <> "") /\
  (BASE_URL cfg <> None -> USERNAME cfg <> None -> autoRefund.missing cfg = []).
Proof.
  repeat split.
  - unfold auto_refund.script. destruct (auto_refund.config_complete cfg).
    + apply run_posts, auto_refund_main_timeouts.
    + exists []. simpl. rewrite app_nil_r. auto.
  - unfold autoRefund.script. destruct (autoRefund.missing cfg).
    + apply run_posts, autoRefund_main_timeouts.
    + exists []. simpl. rewrite app_nil_r. auto.
  - unfold auto_refund.config_complete. intros H.
    apply andb_prop in H. destruct H as [_ H].
    destruct (PASSWORD_HASH cfg) as [h |]; [| discriminate].
    exists h. split; [reflexivity |].
    intros ->. discriminate.
  - unfold autoRefund.missing. intros Hb Hu.
    destruct (BASE_URL cfg); [| contradiction].
    destruct (USERNAME cfg); [| contradiction].
    reflexivity.
Qed.

(** C7 on the two configurations. *)
Lemma C7_witness :
  (exists h, PASSWORD_HASH cfg_full = Some h /\ h <> "") /\
  autoRefund.missing cfg_minimal = [].
Proof.
  split.
  - exact (proj1 (proj2 (proj2 (C7_timeout_of_every_call cfg_full (serving [])
                                  initial_world))) eq_refl).
  - apply (proj2 (proj2 (proj2 (C7_timeout_of_every_call cfg_minimal (serving [])
                                  initial_world)))); discriminate.
Defined.

(** ** C8 *)

(** C8: when the response's totalCount is 0 or absent, [process_refunds]
    of either variant logs "no bills" and returns at once, without a call,
    whatever the data list holds. *)
Theorem C8_total_count_gates_the_loop cfg E fields w :
  (assoc "totalCount" fields = None \/
   exists v, assoc "totalCount" fields = Some v /\ py_eq_zero v = true) ->
  (exists total,
     autoRefund.process_refunds cfg E (PDict fields) w
     = (fst (log LogNoBills (fst (log (LogBillsFound total) w))), Ok tt)) /\
  sent (fst (autoRefund.process_refunds cfg E (PDict fields) w)) = sent w /\
  (exists total,
     auto_refund.process_refunds cfg E (PDict fields) w
     = (fst (log LogNoBills (fst (log (LogBillsFound total) w))), Ok tt)) /\
  sent (fst (auto_refund.process_refunds cfg E (PDict fields) w)) = sent w.
Proof.
  intros Htotal.
  assert (Hz : exists total,
             py_get (PDict fields) "totalCount" (PInt 0) = Ok total /\
             py_eq_zero total = true).
  { simpl. destruct Htotal as [-> | [v [-> Hv]]]; eauto. }
  destruct Hz as [total [Hget Hzero]].
  assert (HA : autoRefund.process_refunds cfg E (PDict fields) w
               = (fst (log LogNoBills (fst (log (LogBillsFound total) w))), Ok tt)).
  { unfold autoRefund.process_refunds, bind, lift, ret. rewrite Hget. simpl.
    rewrite Hzero. reflexivity. }
  assert (HB : auto_refund.process_refunds cfg E (PDict fields) w
               = (fst (log LogNoBills (fst (log (LogBillsFound total) w))), Ok tt)).
  { unfold auto_refund.process_refunds, bind, lift, ret. rewrite Hget. simpl.
    rewrite Hzero. reflexivity. }
  repeat split.
  - exists total. exact HA.
  - rewrite HA. reflexivity.
  - exists total. exact HB.
  - rewrite HB. reflexivity.
Qed.

(** C8 on a response with totalCount 0 and two bills in its data list. *)
Lemma C8_witness :
  sent (fst (autoRefund.process_refunds cfg_minimal (serving page_501_502)
               (PDict page_total_zero) logged_in)) = sent logged_in /\
  sent (fst (auto_refund.process_refunds cfg_full (serving page_501_502)
               (PDict page_total_zero) logged_in)) = sent logged_in.
Proof.
  destruct (@C8_total_count_gates_the_loop cfg_minimal (serving page_501_502)
              page_total_zero logged_in
              (or_intror (ex_intro _ (PInt 0) (conj eq_refl eq_refl))))
    as (_ & HA & _ & _).
  destruct (@C8_total_count_gates_the_loop cfg_full (serving page_501_502)
              page_total_zero logged_in
              (or_intror (ex_intro _ (PInt 0) (conj eq_refl eq_refl))))
    as (_ & _ & _ & HB).
  split; assumption.
Defined.

(** ** C9 *)

(** C9: [refund_bill] of autoRefund.py, called while the stored token is
    None or empty (falsy), logs the missing token and returns False
    without making a request; a request it does make carries the stored,
    non-empty token. *)
Theorem C9_no_token_no_request cfg E bill_id amount w :
  (py_truthy (auth_token w) = false ->
   autoRefund.refund_bill cfg E bill_id amount w = (fst (log LogNoAuthToken w), Ok false) /\
   sent (fst (autoRefund.refund_bill cfg E bill_id amount w)) = sent w) /\
  (forall l,
     sent (fst (autoRefund.refund_bill cfg E bill_id amount w)) = sent w ++ l ->
     Forall (fun r => py_truthy (auth_token w) = true /\
                      req_authorization r = Some (auth_token w)) l).
Proof.
  assert (H : py_truthy (auth_token w) = false ->
              autoRefund.refund_bill cfg E bill_id amount w
              = (fst (log LogNoAuthToken w), Ok false)).
  { intros Htok.
    unfold autoRefund.refund_bill, bind, get_token, ret. rewrite Htok. reflexivity. }
  split.
  - intros Htok. split; [exact (H Htok) | rewrite (H Htok); reflexivity].
  - intros l Hl.
    destruct (py_truthy (auth_token w)) eqn:Htok.
    + destruct (autoRefund_refund_bill_calls cfg E bill_id amount w) as [l' [Hs Hone]].
      rewrite Hl in Hs. apply app_inv_head in Hs. subst l'.
      destruct Hone as [-> | [r [-> ->]]]; repeat constructor.
    + rewrite (H eq_refl) in Hl. simpl in Hl.
      rewrite <- (app_nil_r (sent w)) in Hl at 1.
      apply app_inv_head in Hl. subst l. constructor.
Qed.

(** C9 before any login: the token is None. *)
Lemma C9_witness :
  autoRefund.refund_bill cfg_minimal (serving page_501_502) 501 100 initial_world
  = (fst (log LogNoAuthToken initial_world), Ok false) /\
  sent (fst (autoRefund.refund_bill cfg_minimal (serving page_501_502) 501 100
               initial_world)) = sent initial_world.
Proof.
  exact (proj1 (C9_no_token_no_request cfg_minimal (serving page_501_502) 501 100
                  initial_world) eq_refl).
Defined.

(** The empty string is no token either. *)
Lemma empty_token_no_request :
  autoRefund.refund_bill cfg_minimal (serving page_501_502) 501 100
    {| auth_token := PStr ""; sent := []; logged := [] |}
  = ({| auth_token := PStr ""; sent := []; logged := [LogNoAuthToken] |}, Ok false).
Proof. reflexivity. Qed.

(** ** C10 *)

Lemma autoRefund_refund_bill_spec cfg E bill_id amount w :
  py_truthy (auth_token w) = true ->
  sent (fst (autoRefund.refund_bill cfg E bill_id amount w))
    = sent w ++ [autoRefund_refund_request cfg E bill_id amount w] /\
  auth_token (fst (autoRefund.refund_bill cfg E bill_id amount w)) = auth_token w /\
  snd (autoRefund.refund_bill cfg E bill_id amount w)
    = Ok (is_2xx (net E (sent w) (autoRefund_refund_request cfg E bill_id amount w))).
Proof.
  intros Htok.
  unfold autoRefund.refund_bill, autoRefund_refund_request, is_2xx,
    try_except, bind, read, post, get_token, log, ret.
  rewrite Htok. simpl.
  destruct (net E (sent w) _) as [e | resp]; simpl; [auto |].
  destruct ((200 <=? status_code resp) && (status_code resp <? 300)); simpl; auto.
Qed.

Lemma auto_refund_refund_bill_spec cfg E bill_id amount w :
  (forall e, py_int (int_of_str E) amount = Raise e ->
     auto_refund.refund_bill cfg E bill_id amount w = (w, Raise e)) /\
  (forall money, py_int (int_of_str E) amount = Ok money ->
     sent (fst (auto_refund.refund_bill cfg E bill_id amount w))
       = sent w ++ [auto_refund_refund_request cfg bill_id money w] /\
     auth_token (fst (auto_refund.refund_bill cfg E bill_id amount w)) = auth_token w /\
     snd (auto_refund.refund_bill cfg E bill_id amount w)
       = Ok (not_http_error (net E (sent w) (auto_refund_refund_request cfg bill_id money w)))).
Proof.
  split.
  - intros e He. unfold auto_refund.refund_bill, bind, lift. rewrite He. reflexivity.
  - intros money Hm.
    unfold auto_refund.refund_bill, auto_refund.get_headers, auto_refund_refund_request,
      not_http_error, is_http_error,
      try_except, bind, post, get_token, raise_for_status, lift, log, ret.
    rewrite Hm. simpl.
    destruct (net E (sent w) _) as [e | resp]; simpl; [auto |].
    destruct ((400 <=? status_code resp) && (status_code resp <? 600)); simpl; auto.
Qed.

Lemma autoRefund_process_bill_exact cfg E c b w :
  py_truthy (auth_token w) = true ->
  autoRefund_convertible E b ->
  exists w' c' l,
    autoRefund.process_bill cfg E c b w = (w', Ok c') /\
    auth_token w' = auth_token w /\
    sent w' = sent w ++ l /\
    Forall (fun r => req_endpoint r = EpRefund) l /\
    map billed l = autoRefund_due E b /\
    (autoRefund.success c' + autoRefund.failed c'
     = autoRefund.success c + autoRefund.failed c + List.length l)%nat.
Proof.
  intros Htok ([fields ->] & Hid & Hamt). revert Hid Hamt.
  unfold autoRefund_due, id_valid, id_int_of, amount_int_of, amount_zero_or_none,
    autoRefund.process_bill, bind, lift, log, ret.
  destruct (py_get (PDict fields) "id" PNone) as [id |] eqn:Hgi;
    [| discriminate Hgi].
  destruct (py_get (PDict fields) "actualMoney" PNone) as [amt |] eqn:Hga;
    [| discriminate Hga].
  intros Hid Hamt.
  destruct (py_truthy id && isinstance_int_str id) eqn:Hv.
  - apply andb_prop in Hv. destruct Hv as [Ht Hi]. rewrite Ht, Hi. simpl.
    destruct (Hid eq_refl) as [z ->].
    destruct (py_eq_zero amt || py_is_none amt) eqn:Hzero; simpl.
    + eexists _, _, []. rewrite app_nil_r. simpl. repeat split; auto.
    + destruct (Hamt eq_refl eq_refl) as (amt' & money & Hget & Hmoney).
      inversion Hget; subst amt'. rewrite Hmoney.
      match goal with
      | |- context [autoRefund.refund_bill cfg E z money ?w0] =>
          destruct (@autoRefund_refund_bill_spec cfg E z money w0 Htok)
            as (Hs & Hk & Hr);
          destruct (autoRefund.refund_bill cfg E z money w0) as [w1 [ok | e]];
          simpl in Hs, Hk, Hr; [| discriminate Hr]
      end.
      destruct ok;
        (eexists _, _, [_];
         split; [reflexivity |];
         split; [exact Hk |];
         split; [exact Hs |];
         split; [repeat constructor |];
         split; [reflexivity | simpl; lia]).
  - assert (Hbad : negb (py_truthy id) || negb (isinstance_int_str id) = true).
    { destruct (py_truthy id), (isinstance_int_str id); auto; discriminate. }
    rewrite Hbad. simpl.
    eexists _, _, []. rewrite app_nil_r. simpl. repeat split; auto.
Qed.

Lemma autoRefund_loop_exact cfg E bills :
  Forall (autoRefund_convertible E) bills ->
  forall c w,
    py_truthy (auth_token w) = true ->
    exists w' c' l,
      for_each (autoRefund.process_bill cfg E) c bills w = (w', Ok c') /\
      sent w' = sent w ++ l /\
      Forall (fun r => req_endpoint r = EpRefund) l /\
      map billed l = flat_map (autoRefund_due E) bills /\
      (autoRefund.success c' + autoRefund.failed c'
       = autoRefund.success c + autoRefund.failed c + List.length l)%nat.
Proof.
  induction 1 as [| b rest Hb Hrest IH]; intros c w Htok; simpl.
  - exists w, c, []. rewrite app_nil_r. simpl. repeat split; auto.
  - unfold bind.
    destruct (@autoRefund_process_bill_exact cfg E c b w Htok Hb)
      as (w1 & c1 & l1 & -> & Hk1 & Hs1 & HF1 & Hm1 & Hc1).
    rewrite <- Hk1 in Htok.
    destruct (IH c1 w1 Htok) as (w2 & c2 & l2 & -> & Hs2 & HF2 & Hm2 & Hc2).
    exists w2, c2, (l1 ++ l2).
    rewrite map_app, length_app, Hm1, Hm2, Hs2, Hs1, app_assoc.
    repeat split; [apply Forall_app; auto | lia].
Qed.

Lemma auto_refund_process_bill_exact cfg E c b w :
  auto_refund_convertible E b ->
  exists w' c' l,
    auto_refund.process_bill cfg E c b w = (w', Ok c') /\
    sent w' = sent w ++ l /\
    Forall (fun r => req_endpoint r = EpRefund) l /\
    map billed l = auto_refund_due E b /\
    (auto_refund.success c' + auto_refund.failed c'
     = auto_refund.success c + auto_refund.failed c + List.length l)%nat.
Proof.
  intros ([fields ->] & Hamt). revert Hamt.
  unfold auto_refund_due, id_truthy, amount_int_of, amount_none,
    auto_refund.process_bill, bind, lift, log, ret.
  destruct (py_get (PDict fields) "id" PNone) as [id |] eqn:Hgi;
    [| discriminate Hgi].
  destruct (py_get (PDict fields) "actualMoney" PNone) as [amt |] eqn:Hga;
    [| discriminate Hga].
  intros Hamt.
  destruct (py_truthy id) eqn:Ht; [destruct (py_is_none amt) eqn:Hn |]; simpl.
  - eexists _, _, []. rewrite app_nil_r. simpl. repeat split; auto.
  - destruct (Hamt eq_refl eq_refl) as (amt' & money & Hget & Hmoney).
    inversion Hget; subst amt'. rewrite Hmoney.
    match goal with
    | |- context [auto_refund.refund_bill cfg E id amt ?w0] =>
        destruct (proj2 (@auto_refund_refund_bill_spec cfg E id amt w0) money Hmoney)
          as (Hs & Hk & Hr);
        destruct (auto_refund.refund_bill cfg E id amt w0) as [w1 [ok | e]];
        simpl in Hs, Hk, Hr; [| discriminate Hr]
    end.
    destruct ok;
      (eexists _, _, [_];
       split; [reflexivity |];
       split; [exact Hs |];
       split; [repeat constructor |];
       split; [reflexivity | simpl; lia]).
  - eexists _, _, []. rewrite app_nil_r. simpl. repeat split; auto.
Qed.

Lemma auto_refund_loop_exact cfg E bills :
  Forall (auto_refund_convertible E) bills ->
  forall c w,
    exists w' c' l,
      for_each (auto_refund.process_bill cfg E) c bills w = (w', Ok c') /\
      sent w' = sent w ++ l /\
      Forall (fun r => req_endpoint r = EpRefund) l /\
      map billed l = flat_map (auto_refund_due E) bills /\
      (auto_refund.success c' + auto_refund.failed c'
       = auto_refund.success c + auto_refund.failed c + List.length l)%nat.
Proof.
  induction 1 as [| b rest Hb Hrest IH]; intros c w; simpl.
  - exists w, c, []. rewrite app_nil_r. simpl. repeat split; auto.
  - unfold bind.
    destruct (@auto_refund_process_bill_exact cfg E c b w Hb)
      as (w1 & c1 & l1 & -> & Hs1 & HF1 & Hm1 & Hc1).
    destruct (IH c1 w1) as (w2 & c2 & l2 & -> & Hs2 & HF2 & Hm2 & Hc2).
    exists w2, c2, (l1 ++ l2).
    rewrite map_app, length_app, Hm1, Hm2, Hs2, Hs1, app_assoc.
    repeat split; [apply Forall_app; auto | lia].
Qed.

(** [trunc] rounds toward zero: it keeps the sign and drops less than
    one unit of magnitude. *)
Lemma trunc_toward_zero (q : Q) :
  Z.abs (trunc q) * Z.pos (Qden q) <= Z.abs (Qnum q)
    < (Z.abs (trunc q) + 1) * Z.pos (Qden q) /\
  0 <= trunc q * Qnum q.
Proof.
  unfold trunc. destruct q as [n d]. simpl.
  assert (Hd : 0 < Z.pos d) by lia.
  assert (Habs : Z.abs (n ÷ Z.pos d) = Z.abs n / Z.pos d).
  { rewrite <- Z.quot_abs by lia.
    rewrite (Z.abs_eq (Z.pos d)) by lia.
    apply Z.quot_div_nonneg; lia. }
  rewrite Habs. split.
  - pose proof (Z.mul_div_le (Z.abs n) (Z.pos d) Hd).
    pose proof (Z.mul_succ_div_gt (Z.abs n) (Z.pos d) Hd).
    lia.
  - destruct (Z.le_gt_cases 0 n) as [Hn | Hn].
    + pose proof (Z.quot_pos n (Z.pos d) Hn Hd). nia.
    + assert (Hq : n ÷ Z.pos d <= 0).
      { replace n with (- (- n)) by lia.
        rewrite Z.quot_opp_l by lia.
        pose proof (Z.quot_pos (- n) (Z.pos d)). lia. }
      nia.
Qed.

Lemma autoRefund_process_bill_due cfg E c b w0 id_int money :
  py_truthy (auth_token w0) = true ->
  id_valid b = true -> id_int_of E b = Ok id_int ->
  amount_zero_or_none b = false -> amount_int_of E b = Ok money ->
  exists r,
    sent (fst (autoRefund.process_bill cfg E c b w0)) = sent w0 ++ [r] /\
    req_endpoint r = EpRefund /\
    py_get (req_json r) "billId" PNone = Ok (PInt id_int) /\
    py_get (req_json r) "refundMoney" PNone = Ok (PInt money).
Proof.
  unfold id_valid, id_int_of, amount_zero_or_none, amount_int_of,
    autoRefund.process_bill, autoRefund.refund_bill, bind, lift, log, ret,
    try_except, post, get_token, read.
  destruct (py_get b "id" PNone) as [id |]; [| discriminate].
  destruct (py_get b "actualMoney" PNone) as [amt |]; [| discriminate].
  intros Htok Hv Hi Hz Hm. apply andb_prop in Hv. destruct Hv as [Ht Hs].
  rewrite Ht, Hs. simpl. rewrite Hi. simpl. rewrite Hz. simpl. rewrite Hm. simpl.
  rewrite Htok. simpl.
  match goal with
  | |- context [net E ?h ?r] =>
      exists r; destruct (net E h r) as [e | resp]; simpl;
      [| destruct ((200 <=? status_code resp) && (status_code resp <? 300))];
      repeat split
  end.
Qed.

Lemma auto_refund_process_bill_due cfg E c b w0 bid money :
  py_get b "id" PNone = Ok bid -> py_truthy bid = true ->
  amount_zero_or_none b = false -> amount_int_of E b = Ok money ->
  exists r,
    sent (fst (auto_refund.process_bill cfg E c b w0)) = sent w0 ++ [r] /\
    req_endpoint r = EpRefund /\
    py_get (req_json r) "billId" PNone = Ok bid /\
    py_get (req_json r) "refundMoney" PNone = Ok (PInt money).
Proof.
  unfold amount_zero_or_none, amount_int_of,
    auto_refund.process_bill, auto_refund.refund_bill, auto_refund.get_headers,
    bind, lift, log, ret, try_except, post, get_token, raise_for_status.
  intros Hid Ht. rewrite Hid.
  destruct (py_get b "actualMoney" PNone) as [amt |]; [| discriminate].
  intros Hz Hm. apply orb_false_elim in Hz. destruct Hz as [_ Hn].
  simpl. rewrite Ht, Hn. simpl. rewrite Hm. simpl.
  match goal with
  | |- context [net E ?h ?r] =>
      exists r; destruct (net E h r) as [e | resp]; simpl;
      [| destruct ((400 <=? status_code resp) && (status_code resp <? 600))];
      repeat split
  end.
Qed.

(** C10: every refund request sent belongs to one record of the fetched
    list (at most one request per record, carrying that record's id) and
    carries as refundMoney the integer [int(actualMoney)] of that
    record; a record that is due a refund (a token is stored, its id
    passes the gate and its amount is neither 0 nor None and converts) is
    sent exactly that request, and on a page whose ids and amounts
    convert the requests sent are exactly the ones due, in the order of
    the list; on a float amount [int] is the truncation toward zero. *)
Theorem C10_refund_money_is_int_of_amount cfg E fields bills w :
  assoc "data" fields = Some (PList bills) ->
  (exists per,
     sent (fst (autoRefund.process_refunds cfg E (PDict fields) w))
       = sent w ++ List.concat per /\
     Forall2 (fun b calls =>
                (List.length calls <= 1)%nat /\
                forall r, In r calls ->
                  req_endpoint r = EpRefund /\
                  (exists id_int, id_int_of E b = Ok id_int /\
                     py_get (req_json r) "billId" PNone = Ok (PInt id_int)) /\
                  exists money, amount_int_of E b = Ok money /\
                    py_get (req_json r) "refundMoney" PNone = Ok (PInt money))
             bills per) /\
  (exists per,
     sent (fst (auto_refund.process_refunds cfg E (PDict fields) w))
       = sent w ++ List.concat per /\
     Forall2 (fun b calls =>
                (List.length calls <= 1)%nat /\
                forall r, In r calls ->
                  req_endpoint r = EpRefund /\
                  py_get (req_json r) "billId" PNone = py_get b "id" PNone /\
                  exists money, amount_int_of E b = Ok money /\
                    py_get (req_json r) "refundMoney" PNone = Ok (PInt money))
             bills per) /\
  (forall b c w0 id_int money,
     py_truthy (auth_token w0) = true ->
     id_valid b = true -> id_int_of E b = Ok id_int ->
     amount_zero_or_none b = false -> amount_int_of E b = Ok money ->
     exists r,
       sent (fst (autoRefund.process_bill cfg E c b w0)) = sent w0 ++ [r] /\
       req_endpoint r = EpRefund /\
       py_get (req_json r) "billId" PNone = Ok (PInt id_int) /\
       py_get (req_json r) "refundMoney" PNone = Ok (PInt money)) /\
  (forall b c w0 bid money,
     py_get b "id" PNone = Ok bid -> py_truthy bid = true ->
     amount_zero_or_none b = false -> amount_int_of E b = Ok money ->
     exists r,
       sent (fst (auto_refund.process_bill cfg E c b w0)) = sent w0 ++ [r] /\
       req_endpoint r = EpRefund /\
       py_get (req_json r) "billId" PNone = Ok bid /\
       py_get (req_json r) "refundMoney" PNone = Ok (PInt money)) /\
  (forall total,
     assoc "totalCount" fields = Some total -> py_eq_zero total = false ->
     py_truthy (auth_token w) = true ->
     Forall (autoRefund_convertible E) bills ->
     exists l,
       sent (fst (autoRefund.process_refunds cfg E (PDict fields) w)) = sent w ++ l /\
       map billed l = flat_map (autoRefund_due E) bills) /\
  (forall total,
     assoc "totalCount" fields = Some total -> py_eq_zero total = false ->
     Forall (auto_refund_convertible E) bills ->
     exists l,
       sent (fst (auto_refund.process_refunds cfg E (PDict fields) w)) = sent w ++ l /\
       map billed l = flat_map (auto_refund_due E) bills) /\
  (forall q,
     py_int (int_of_str E) (PFloat (FFin q)) = Ok (trunc q) /\
     Z.abs (trunc q) * Z.pos (Qden q) <= Z.abs (Qnum q)
       < (Z.abs (trunc q) + 1) * Z.pos (Qden q) /\
     0 <= trunc q * Qnum q).
Proof.
  intros Hdata. split; [| split; [| split; [| split; [| split; [| split]]]]].
  - destruct (autoRefund_process_refunds_calls cfg E fields w Hdata) as [per [Hs HF]].
    exists per. split; [exact Hs |].
    eapply Forall2_weaken; [| exact HF].
    intros b l [-> | [r [-> Hr]]]; simpl; (split; [lia |]).
    + intros r [].
    + intros r' [<- | []].
      destruct (@autoRefund_refund_gate cfg E b r Hr) as (_ & _ & Hep & Hid).
      destruct (@autoRefund_refund_money cfg E b r Hr) as (amt & money & Hamt & Hint & Hm).
      split; [exact Hep | split; [exact Hid |]].
      exists money. unfold amount_int_of. rewrite Hamt. split; assumption.
  - destruct (auto_refund_process_refunds_calls cfg E fields w Hdata) as [per [Hs HF]].
    exists per. split; [exact Hs |].
    eapply Forall2_weaken; [| exact HF].
    intros b l [-> | [r [-> Hr]]]; simpl; (split; [lia |]).
    + intros r [].
    + intros r' [<- | []].
      destruct (@auto_refund_refund_gate cfg E b r Hr) as (_ & _ & Hep & Hid).
      destruct (@auto_refund_refund_money cfg E b r Hr) as (amt & money & Hamt & Hint & Hm).
      split; [exact Hep | split; [exact Hid |]].
      exists money. unfold amount_int_of. rewrite Hamt. split; assumption.
  - intros b c w0 id_int money. apply autoRefund_process_bill_due.
  - intros b c w0 bid money. apply auto_refund_process_bill_due.
  - intros total Htotal Hnz Htok Hall.
    rewrite (autoRefund_process_refunds_loop cfg E fields w Hdata Htotal Hnz).
    destruct (@autoRefund_loop_exact cfg E bills Hall
                {| autoRefund.success := 0; autoRefund.failed := 0;
                   autoRefund.skipped := 0 |}
                (fst (log (LogBillsFound total) w)) Htok)
      as (w1 & c1 & l & -> & Hs & _ & Hm & _).
    exists l. split; [exact Hs | exact Hm].
  - intros total Htotal Hnz Hall.
    rewrite (auto_refund_process_refunds_loop cfg E fields w Hdata Htotal Hnz).
    destruct (@auto_refund_loop_exact cfg E bills Hall
                {| auto_refund.success := 0; auto_refund.failed := 0 |}
                (fst (log (LogBillsFound total) w)))
      as (w1 & c1 & l & -> & Hs & _ & Hm & _).
    exists l. split; [exact Hs | exact Hm].
  - intros q. split; [reflexivity | apply trunc_toward_zero].
Qed.

(** C10 on a page whose bill has the amount 100.75: the one request sent
    is for bill 501, with refundMoney 100. *)
Lemma C10_witness :
  (exists r,
     sent (fst (autoRefund.process_bill cfg_minimal (serving [bill_fractional])
                  {| autoRefund.success := 0; autoRefund.failed := 0;
                     autoRefund.skipped := 0 |}
                  bill_fractional logged_in))
       = sent logged_in ++ [r] /\
     req_endpoint r = EpRefund /\
     py_get (req_json r) "billId" PNone = Ok (PInt 501) /\
     py_get (req_json r) "refundMoney" PNone = Ok (PInt 100)) /\
  (exists l,
     sent (fst (autoRefund.process_refunds cfg_minimal (serving [bill_fractional])
                  (page [bill_fractional]) logged_in))
       = sent logged_in ++ l /\
     map billed l = [(Some (PInt 501), Some (PInt 100))]).
Proof.
  destruct (@C10_refund_money_is_int_of_amount cfg_minimal (serving [bill_fractional])
              [("totalCount", PInt 1); ("data", PList [bill_fractional])]
              [bill_fractional] logged_in eq_refl) as (_ & _ & Hdue & _ & Hall & _).
  split.
  - exact (Hdue bill_fractional
             {| autoRefund.success := 0; autoRefund.failed := 0; autoRefund.skipped := 0 |}
             logged_in 501 100 eq_refl eq_refl eq_refl eq_refl eq_refl).
  - refine (Hall (PInt 1) eq_refl eq_refl eq_refl _).
    repeat constructor; try (eexists; reflexivity);
      intros; try discriminate; eexists; eexists; split; reflexivity.
Defined.

(** The amount 100.75 goes out as refundMoney 100, and -0.5 as 0. *)
Lemma fractional_amount_is_truncated :
  map (fun r => py_get (req_json r) "refundMoney" PNone)
    (sent (fst (autoRefund.process_refunds cfg_minimal (serving [bill_fractional])
                  (page [bill_fractional]) logged_in)))
  = [Ok (PInt 100)] /\
  py_int (int_of_str (serving [bill_fractional])) (PFloat (FFin (Qmake (-1) 2))) = Ok 0.
Proof. vm_compute. split; reflexivity. Qed.

(** The string parser of the concrete runs on a few strings. *)
Lemma ascii_int_of_str_examples :
  ascii_int_of_str " 42 " = Some 42 /\
  ascii_int_of_str "-007" = Some (-7) /\
  ascii_int_of_str "1_000" = Some 1000 /\
  ascii_int_of_str "1__0" = None /\
  ascii_int_of_str "12.5" = None /\
  ascii_int_of_str "" = None /\
  ascii_int_of_str (String (ascii_of_nat 28) "5") = None /\
  ascii_int_of_str (String (ascii_of_nat 9) "5") = Some 5.
Proof. vm_compute. repeat split. Qed.

(** ** Further properties: login *)

Lemma autoRefund_login_spec cfg E w :
  sent (fst (autoRefund.login cfg E w)) = sent w ++ [autoRefund_login_request cfg] /\
  match autoRefund_granted (net E (sent w) (autoRefund_login_request cfg)) with
  | Some s =>
      snd (autoRefund.login cfg E w) = Ok (PStr s) /\
      auth_token (fst (autoRefund.login cfg E w)) = PStr s
  | None =>
      snd (autoRefund.login cfg E w) = Ok PNone /\
      auth_token (fst (autoRefund.login cfg E w)) = auth_token w
  end.
Proof.
  unfold autoRefund.login, autoRefund_granted, answered_data, is_http_error,
    try_except, bind, post, raise_for_status, resp_json, lift, log, ret, set_token.
  fold (autoRefund_login_request cfg).
  destruct (net E (sent w) (autoRefund_login_request cfg)) as [e | resp]; simpl.
  - auto.
  - destruct ((400 <=? status_code resp) && (status_code resp <? 600)); simpl; [auto |].
    destruct (json_body resp) as [[| | | | | | kvs] |]; simpl; auto.
    destruct (assoc "data" kvs) as [[| [|] | z | [| | q] | s | [| x l] | [| kv l]] |];
      simpl; auto.
    + destruct (z =? 0); simpl; auto.
    + destruct (Qnum q =? 0); simpl; auto.
    + destruct (String.eqb s ""); simpl; auto.
Qed.

(** X1: [login()] of autoRefund.py makes exactly one call, the login
    call, and never raises.  It returns the token, and stores it in
    [auth_token], exactly when the answer has a status outside
    [400, 600) and is a JSON object whose [data] is a non-empty string;
    in every other case (exception, 4xx/5xx, body that is no JSON object,
    [data] missing, empty or not a string) it returns None and leaves
    [auth_token] as it was. *)
Theorem X1_autoRefund_login cfg E w :
  sent (fst (autoRefund.login cfg E w)) = sent w ++ [autoRefund_login_request cfg] /\
  match autoRefund_granted (net E (sent w) (autoRefund_login_request cfg)) with
  | Some s =>
      snd (autoRefund.login cfg E w) = Ok (PStr s) /\
      auth_token (fst (autoRefund.login cfg E w)) = PStr s
  | None =>
      snd (autoRefund.login cfg E w) = Ok PNone /\
      auth_token (fst (autoRefund.login cfg E w)) = auth_token w
  end.
Proof.
  unfold autoRefund.login, autoRefund_granted, answered_data, is_http_error,
    try_except, bind, post, raise_for_status, resp_json, lift, log, ret, set_token.
  fold (autoRefund_login_request cfg).
  destruct (net E (sent w) (autoRefund_login_request cfg)) as [e | resp]; simpl.
  - auto.
  - destruct ((400 <=? status_code resp) && (status_code resp <? 600)); simpl; [auto |].
    destruct (json_body resp) as [[| | | | | | kvs] |]; simpl; auto.
    destruct (assoc "data" kvs) as [[| [|] | z | [| | q] | s | [| x l] | [| kv l]] |];
      simpl; auto.
    + destruct (z =? 0); simpl; auto.
    + destruct (Qnum q =? 0); simpl; auto.
    + destruct (String.eqb s ""); simpl; auto.
Qed.

Lemma auto_refund_login_spec cfg E w :
  sent (fst (auto_refund.login cfg E w)) = sent w ++ [auto_refund_login_request cfg] /\
  match answered_data (net E (sent w) (auto_refund_login_request cfg)) with
  | Some v =>
      if py_truthy v
      then snd (auto_refund.login cfg E w)
             = Ok (cookies_accepted (net E (sent w) (auto_refund_login_request cfg))
                   && sliceable v) /\
           auth_token (fst (auto_refund.login cfg E w)) = v
      else snd (auto_refund.login cfg E w) = Ok false /\
           auth_token (fst (auto_refund.login cfg E w)) = auth_token w
  | None =>
      snd (auto_refund.login cfg E w) = Ok false /\
      auth_token (fst (auto_refund.login cfg E w)) = auth_token w
  end.
Proof.
  unfold auto_refund.login, answered_data, cookies_accepted, is_http_error,
    try_except, bind, post, raise_for_status, resp_json, lift, log, ret, set_token.
  fold (auto_refund_login_request cfg). simpl.
  destruct (net E (sent w) (auto_refund_login_request cfg)) as [e | resp]; simpl.
  - auto.
  - destruct ((400 <=? status_code resp) && (status_code resp <? 600)); simpl; [auto |].
    destruct (json_body resp) as [[| | | | s | l | kvs] |]; simpl; auto.
    + destruct (index 0 "data" s); simpl; auto.
    + destruct (existsb _ l); simpl; auto.
    + destruct (assoc "data" kvs) as [[| [|] | z | [| | q] | s | [| x l] | [| kv l]] |];
        simpl; auto;
        try (destruct (auto_refund.update_cookies resp) as [[] | ec]; simpl; auto; fail).
      * destruct (z =? 0); simpl; auto.
        destruct (auto_refund.update_cookies resp) as [[] | ec]; simpl; auto.
      * destruct (Qnum q =? 0); simpl; auto.
        destruct (auto_refund.update_cookies resp) as [[] | ec]; simpl; auto.
      * destruct (String.eqb s ""); simpl; auto.
        destruct (auto_refund.update_cookies resp) as [[] | ec]; simpl; auto.
Qed.

Lemma auto_refund_granted_inv a v :
  auto_refund_granted a = Some v ->
  answered_data a = Some v /\ py_truthy v = true /\
  cookies_accepted a = true /\ sliceable v = true.
Proof.
  unfold auto_refund_granted.
  destruct (answered_data a) as [u |]; [| discriminate].
  destruct (py_truthy u) eqn:Ht; destruct (cookies_accepted a) eqn:Hc;
    destruct (sliceable u) eqn:Hs; simpl; try discriminate.
  intros H. inversion H. subst. auto.
Qed.

Lemma auto_refund_login_granted cfg E w v :
  auto_refund_granted (net E (sent w) (auto_refund_login_request cfg)) = Some v ->
  sent (fst (auto_refund.login cfg E w)) = sent w ++ [auto_refund_login_request cfg] /\
  snd (auto_refund.login cfg E w) = Ok true /\
  auth_token (fst (auto_refund.login cfg E w)) = v.
Proof.
  intros Hg. apply auto_refund_granted_inv in Hg.
  destruct Hg as (Ha & Ht & Hc & Hs).
  destruct (auto_refund_login_spec cfg E w) as [Hsent Hres].
  rewrite Ha, Ht, Hc, Hs in Hres. destruct Hres as [Hr Htok].
  split; [exact Hsent | split; [exact Hr | exact Htok]].
Qed.

(** X2: [AuthManager.login()] of auto_refund.py makes exactly one call,
    the login call, and never raises.  When the answer has a status
    outside [400, 600) and is a JSON object with a truthy [data], that
    value is stored in [auth_token] whatever it is, and the function
    returns True only if the cookies of the answer can then be read into
    the [cookies] dict (see [cookies_accepted]; reading fails, for
    instance, on a name set twice or on an empty value) and the value
    can be sliced (a string or a list); otherwise the token stays stored
    although the login reports failure.  On any other answer it returns
    False and leaves [auth_token] as it was. *)
Theorem X2_auto_refund_login cfg E w :
  sent (fst (auto_refund.login cfg E w)) = sent w ++ [auto_refund_login_request cfg] /\
  match answered_data (net E (sent w) (auto_refund_login_request cfg)) with
  | Some v =>
      if py_truthy v
      then snd (auto_refund.login cfg E w)
             = Ok (cookies_accepted (net E (sent w) (auto_refund_login_request cfg))
                   && sliceable v) /\
           auth_token (fst (auto_refund.login cfg E w)) = v
      else snd (auto_refund.login cfg E w) = Ok false /\
           auth_token (fst (auto_refund.login cfg E w)) = auth_token w
  | None =>
      snd (auto_refund.login cfg E w) = Ok false /\
      auth_token (fst (auto_refund.login cfg E w)) = auth_token w
  end.
Proof.
  unfold auto_refund.login, answered_data, cookies_accepted, is_http_error,
    try_except, bind, post, raise_for_status, resp_json, lift, log, ret, set_token.
  fold (auto_refund_login_request cfg). simpl.
  destruct (net E (sent w) (auto_refund_login_request cfg)) as [e | resp]; simpl.
  - auto.
  - destruct ((400 <=? status_code resp) && (status_code resp <? 600)); simpl; [auto |].
    destruct (json_body resp) as [[| | | | s | l | kvs] |]; simpl; auto.
    + destruct (index 0 "data" s); simpl; auto.
    + destruct (existsb _ l); simpl; auto.
    + destruct (assoc "data" kvs) as [[| [|] | z | [| | q] | s | [| x l] | [| kv l]] |];
        simpl; auto;
        try (destruct (auto_refund.update_cookies resp) as [[] | ec]; simpl; auto; fail).
      * destruct (z =? 0); simpl; auto.
        destruct (auto_refund.update_cookies resp) as [[] | ec]; simpl; auto.
      * destruct (Qnum q =? 0); simpl; auto.
        destruct (auto_refund.update_cookies resp) as [[] | ec]; simpl; auto.
      * destruct (String.eqb s ""); simpl; auto.
        destruct (auto_refund.update_cookies resp) as [[] | ec]; simpl; auto.
Qed.

(** A login answer whose cookies cannot be read into the [cookies] dict:
    the token is already stored when [cookies.update] raises, the login
    reports failure, and the run stops after the login call. *)
Lemma auto_refund_cookie_conflict_fails_the_login :
  snd (auto_refund.login cfg_full login_cookie_conflict initial_world) = Ok false /\
  auth_token (fst (auto_refund.login cfg_full login_cookie_conflict initial_world))
    = PStr "tok_abc123" /\
  logged (fst (auto_refund.login cfg_full login_cookie_conflict initial_world))
    = [LogLoggingIn; LogLoginError CookieConflictError] /\
  map req_endpoint
    (sent (fst (auto_refund.script cfg_full login_cookie_conflict initial_world)))
    = [EpLogin] /\
  auto_refund.update_cookies
    {| status_code := 200; json_body := None; text := "";
       cookies := [("sid", Some "a"); ("lang", Some "")] |} = Raise KeyError /\
  auto_refund.update_cookies
    {| status_code := 200; json_body := None; text := "";
       cookies := [("sid", None); ("sid", Some "b")] |} = Ok tt.
Proof. vm_compute. repeat split. Qed.

(** ** Further properties: fetch *)

Lemma autoRefund_fetch_bills_spec cfg E token w :
  sent (fst (autoRefund.fetch_bills cfg E token w))
    = sent w ++ [autoRefund_fetch_request cfg E token w] /\
  auth_token (fst (autoRefund.fetch_bills cfg E token w)) = auth_token w /\
  snd (autoRefund.fetch_bills cfg E token w)
    = Ok (autoRefund_fetched (net E (sent w) (autoRefund_fetch_request cfg E token w))) /\
  (forall v, snd (autoRefund.fetch_bills cfg E token w) = Ok v ->
             v = PNone \/ is_dict v = true).
Proof.
  assert (H : sent (fst (autoRefund.fetch_bills cfg E token w))
                = sent w ++ [autoRefund_fetch_request cfg E token w] /\
              auth_token (fst (autoRefund.fetch_bills cfg E token w)) = auth_token w /\
              snd (autoRefund.fetch_bills cfg E token w)
                = Ok (autoRefund_fetched
                        (net E (sent w) (autoRefund_fetch_request cfg E token w)))).
  { unfold autoRefund.fetch_bills, autoRefund_fetched, is_http_error,
      try_except, bind, read, post, raise_for_status, resp_json, lift, log, ret.
    fold (autoRefund_fetch_request cfg E token w). simpl.
    destruct (net E (sent w) (autoRefund_fetch_request cfg E token w)) as [e | resp];
      simpl; [auto |].
    destruct ((400 <=? status_code resp) && (status_code resp <? 600)); simpl; [auto |].
    destruct (json_body resp) as [[| | | | | | kvs] |]; simpl; auto. }
  destruct H as (Hs & Ht & Hr). repeat split; try assumption.
  intros v Hv. rewrite Hr in Hv. inversion Hv; subst v.
  unfold autoRefund_fetched.
  destruct (net E _ _) as [e | resp]; [now left |].
  destruct (is_http_error resp); [now left |].
  destruct (json_body resp) as [[| | | | | | kvs] |]; auto.
Qed.

(** X3: [fetch_bills(token)] of autoRefund.py makes exactly one call, the
    page query carrying [token] as authorization, never raises and
    leaves [auth_token] alone.  It returns the parsed body when the answer
    has a status outside [400, 600) and is a JSON object, and None
    otherwise (exception, 4xx/5xx, unparsable body, JSON that is not an
    object): its result is always None or a dict. *)
Theorem X3_autoRefund_fetch_bills cfg E token w :
  sent (fst (autoRefund.fetch_bills cfg E token w))
    = sent w ++ [autoRefund_fetch_request cfg E token w] /\
  auth_token (fst (autoRefund.fetch_bills cfg E token w)) = auth_token w /\
  snd (autoRefund.fetch_bills cfg E token w)
    = Ok (autoRefund_fetched (net E (sent w) (autoRefund_fetch_request cfg E token w))) /\
  (forall v, snd (autoRefund.fetch_bills cfg E token w) = Ok v ->
             v = PNone \/ is_dict v = true).
Proof.
  assert (H : sent (fst (autoRefund.fetch_bills cfg E token w))
                = sent w ++ [autoRefund_fetch_request cfg E token w] /\
              auth_token (fst (autoRefund.fetch_bills cfg E token w)) = auth_token w /\
              snd (autoRefund.fetch_bills cfg E token w)
                = Ok (autoRefund_fetched
                        (net E (sent w) (autoRefund_fetch_request cfg E token w)))).
  { unfold autoRefund.fetch_bills, autoRefund_fetched, is_http_error,
      try_except, bind, read, post, raise_for_status, resp_json, lift, log, ret.
    fold (autoRefund_fetch_request cfg E token w). simpl.
    destruct (net E (sent w) (autoRefund_fetch_request cfg E token w)) as [e | resp];
      simpl; [auto |].
    destruct ((400 <=? status_code resp) && (status_code resp <? 600)); simpl; [auto |].
    destruct (json_body resp) as [[| | | | | | kvs] |]; simpl; auto. }
  destruct H as (Hs & Ht & Hr). repeat split; try assumption.
  intros v Hv. rewrite Hr in Hv. inversion Hv; subst v.
  unfold autoRefund_fetched.
  destruct (net E _ _) as [e | resp]; [now left |].
  destruct (is_http_error resp); [now left |].
  destruct (json_body resp) as [[| | | | | | kvs] |]; auto.
Qed.

(** X3 on the spec's page: the result is the page, a dict. *)
Lemma X3_witness :
  PDict [("totalCount", PInt 2); ("data", PList page_501_502)] = PNone \/
  is_dict (PDict [("totalCount", PInt 2); ("data", PList page_501_502)]) = true.
Proof.
  exact (proj2 (proj2 (proj2 (X3_autoRefund_fetch_bills cfg_minimal (serving page_501_502)
                                (PStr "tok_abc123") logged_in))) _ eq_refl).
Defined.

Lemma auto_refund_fetch_bills_spec cfg E w :
  sent (fst (auto_refund.fetch_bills cfg E w))
    = sent w ++ [auto_refund_fetch_request cfg E w] /\
  auth_token (fst (auto_refund.fetch_bills cfg E w)) = auth_token w /\
  snd (auto_refund.fetch_bills cfg E w)
    = Ok (auto_refund_fetched (net E (sent w) (auto_refund_fetch_request cfg E w))).
Proof.
  unfold auto_refund.fetch_bills, auto_refund.get_today_range, auto_refund.get_headers,
    auto_refund_fetched, auto_refund_fetch_request, is_http_error,
    try_except, bind, read, post, get_token, raise_for_status, resp_json, lift, log, ret.
  simpl.
  destruct (net E (sent w) _) as [e | resp]; simpl; [auto |].
  destruct ((400 <=? status_code resp) && (status_code resp <? 600)); simpl; [auto |].
  destruct (json_body resp); simpl; auto.
Qed.

(** X4: [fetch_bills()] of auto_refund.py makes exactly one call, the
    page query carrying the stored token, never raises and leaves
    [auth_token] alone; it returns whatever JSON value the body parses
    to when the answer has a status outside [400, 600) (an array or a
    string as well as an object), and None on an exception, a 4xx/5xx or
    an unparsable body. *)
Theorem X4_auto_refund_fetch_bills cfg E w :
  sent (fst (auto_refund.fetch_bills cfg E w))
    = sent w ++ [auto_refund_fetch_request cfg E w] /\
  auth_token (fst (auto_refund.fetch_bills cfg E w)) = auth_token w /\
  snd (auto_refund.fetch_bills cfg E w)
    = Ok (auto_refund_fetched (net E (sent w) (auto_refund_fetch_request cfg E w))).
Proof.
  unfold auto_refund.fetch_bills, auto_refund.get_today_range, auto_refund.get_headers,
    auto_refund_fetched, auto_refund_fetch_request, is_http_error,
    try_except, bind, read, post, get_token, raise_for_status, resp_json, lift, log, ret.
  simpl.
  destruct (net E (sent w) _) as [e | resp]; simpl; [auto |].
  destruct ((400 <=? status_code resp) && (status_code resp <? 600)); simpl; [auto |].
  destruct (json_body resp); simpl; auto.
Qed.

(** ** Further properties: one refund *)

(** X5: with a token stored, [refund_bill] of autoRefund.py makes exactly
    one call, never raises, leaves the token alone and returns True
    exactly when the answer has a status in [200, 300): an exception of
    the HTTP library, a 4xx/5xx and also a 1xx or 3xx answer all give
    False. *)
Theorem X5_autoRefund_refund_bill_outcome cfg E bill_id amount w :
  py_truthy (auth_token w) = true ->
  sent (fst (autoRefund.refund_bill cfg E bill_id amount w))
    = sent w ++ [autoRefund_refund_request cfg E bill_id amount w] /\
  auth_token (fst (autoRefund.refund_bill cfg E bill_id amount w)) = auth_token w /\
  snd (autoRefund.refund_bill cfg E bill_id amount w)
    = Ok (is_2xx (net E (sent w) (autoRefund_refund_request cfg E bill_id amount w))).
Proof.
  intros Htok.
  unfold autoRefund.refund_bill, autoRefund_refund_request, is_2xx,
    try_except, bind, read, post, get_token, log, ret.
  rewrite Htok. simpl.
  destruct (net E (sent w) _) as [e | resp]; simpl; [auto |].
  destruct ((200 <=? status_code resp) && (status_code resp <? 300)); simpl; auto.
Qed.

(** X5 on an answer 304 Not Modified: counted as a failure. *)
Lemma X5_witness :
  sent (fst (autoRefund.refund_bill cfg_minimal refund_not_modified 501 100 logged_in))
    = sent logged_in ++ [autoRefund_refund_request cfg_minimal refund_not_modified 501 100
                           logged_in] /\
  auth_token (fst (autoRefund.refund_bill cfg_minimal refund_not_modified 501 100 logged_in))
    = auth_token logged_in /\
  snd (autoRefund.refund_bill cfg_minimal refund_not_modified 501 100 logged_in)
    = Ok false.
Proof.
  exact (@X5_autoRefund_refund_bill_outcome cfg_minimal refund_not_modified 501 100
           logged_in eq_refl).
Defined.

(** X6: [refund_bill] of auto_refund.py converts the amount before its
    [try]: when [int(amount)] raises, the exception leaves the function
    with no call made and nothing logged.  Otherwise it makes exactly one
    call, with whatever [auth_token] holds (there is no check that a
    token is present), never raises, and returns True exactly when
    [raise_for_status] accepts the answer, that is for every status
    outside [400, 600): a 1xx or 3xx answer counts as a refund made. *)
Theorem X6_auto_refund_refund_bill_outcome cfg E bill_id amount w :
  (forall e, py_int (int_of_str E) amount = Raise e ->
     auto_refund.refund_bill cfg E bill_id amount w = (w, Raise e)) /\
  (forall money, py_int (int_of_str E) amount = Ok money ->
     sent (fst (auto_refund.refund_bill cfg E bill_id amount w))
       = sent w ++ [auto_refund_refund_request cfg bill_id money w] /\
     auth_token (fst (auto_refund.refund_bill cfg E bill_id amount w)) = auth_token w /\
     snd (auto_refund.refund_bill cfg E bill_id amount w)
       = Ok (not_http_error (net E (sent w) (auto_refund_refund_request cfg bill_id money w)))).
Proof.
  split.
  - intros e He. unfold auto_refund.refund_bill, bind, lift. rewrite He. reflexivity.
  - intros money Hm.
    unfold auto_refund.refund_bill, auto_refund.get_headers, auto_refund_refund_request,
      not_http_error, is_http_error,
      try_except, bind, post, get_token, raise_for_status, lift, log, ret.
    rewrite Hm. simpl.
    destruct (net E (sent w) _) as [e | resp]; simpl; [auto |].
    destruct ((400 <=? status_code resp) && (status_code resp <? 600)); simpl; auto.
Qed.

(** X6 on a string amount that is no integer, and on an answer 304. *)
Lemma X6_witness :
  auto_refund.refund_bill cfg_full refund_not_modified (PInt 501) (PStr "12.5") logged_in
    = (logged_in, Raise ValueError) /\
  snd (auto_refund.refund_bill cfg_full refund_not_modified (PInt 501) (PInt 100)
         initial_world) = Ok true.
Proof.
  destruct (X6_auto_refund_refund_bill_outcome cfg_full refund_not_modified (PInt 501)
              (PStr "12.5") logged_in) as [Hraise _].
  destruct (X6_auto_refund_refund_bill_outcome cfg_full refund_not_modified (PInt 501)
              (PInt 100) initial_world) as [_ Hok].
  split.
  - exact (Hraise ValueError eq_refl).
  - exact (proj2 (proj2 (Hok 100 eq_refl))).
Defined.

Section TokenFrame.

Variable tok : pyval.
Variable P : request -> Prop.

Lemma under_token_ret {A} (a : A) : under_token tok P (ret a).
Proof. intros w Hw. split; [exact Hw |]. exists []. simpl. rewrite app_nil_r. auto. Qed.

Lemma under_token_lift {A} (o : outcome A) : under_token tok P (lift o).
Proof. intros w Hw. split; [exact Hw |]. exists []. simpl. rewrite app_nil_r. auto. Qed.

Lemma under_token_log (e : log_event) : under_token tok P (log e).
Proof. intros w Hw. split; [exact Hw |]. exists []. simpl. rewrite app_nil_r. auto. Qed.

Lemma under_token_read {A} (f : list request -> A) : under_token tok P (read f).
Proof. intros w Hw. split; [exact Hw |]. exists []. simpl. rewrite app_nil_r. auto. Qed.

Lemma under_token_raise_for_status (r : response) : under_token tok P (raise_for_status r).
Proof.
  unfold raise_for_status.
  destruct (_ && _); [apply under_token_lift | apply under_token_ret].
Qed.

Lemma under_token_post (E : env) (r : request) : P r -> under_token tok P (post E r).
Proof.
  intros Hr w Hw. unfold post.
  destruct (net E (sent w) r); simpl; (split; [exact Hw | exists [r]; auto]).
Qed.

Lemma under_token_bind {A B} (m : Py A) (k : A -> Py B) :
  under_token tok P m -> (forall a, under_token tok P (k a)) ->
  under_token tok P (bind m k).
Proof.
  intros Hm Hk w Hw. unfold bind.
  destruct (Hm w Hw) as [T1 [l1 [E1 F1]]].
  destruct (m w) as [w1 [a | e]]; simpl in *.
  - destruct (Hk a w1 T1) as [T2 [l2 [E2 F2]]].
    split; [exact T2 |].
    exists (l1 ++ l2). rewrite E2, E1, app_assoc. split; [reflexivity |].
    apply Forall_app; auto.
  - split; [exact T1 |]. exists l1. auto.
Qed.

(** Reading the global gives [tok]. *)
Lemma under_token_get {B} (k : pyval -> Py B) :
  under_token tok P (k tok) -> under_token tok P (bind get_token k).
Proof.
  intros Hk w Hw. unfold bind, get_token. rewrite Hw. exact (Hk w Hw).
Qed.

Lemma under_token_try_except {A} (m : Py A) (h : exn -> Py A) :
  under_token tok P m -> (forall e, under_token tok P (h e)) ->
  under_token tok P (try_except m h).
Proof.
  intros Hm Hh w Hw. unfold try_except.
  destruct (Hm w Hw) as [T1 [l1 [E1 F1]]].
  destruct (m w) as [w1 [a | e]]; simpl in *.
  - split; [exact T1 |]. exists l1. auto.
  - destruct (Hh e w1 T1) as [T2 [l2 [E2 F2]]].
    split; [exact T2 |].
    exists (l1 ++ l2). rewrite E2, E1, app_assoc. split; [reflexivity |].
    apply Forall_app; auto.
Qed.

Lemma under_token_for_each {A} (body : A -> pyval -> Py A) :
  (forall acc x, under_token tok P (body acc x)) ->
  forall items acc, under_token tok P (for_each body acc items).
Proof.
  intros Hb items. induction items as [| x rest IH]; intros acc; simpl.
  - apply under_token_ret.
  - apply under_token_bind; auto.
Qed.

End TokenFrame.

(** Solves [under_token tok P m] by walking down [m]. *)
Ltac token_frame :=
  repeat first
    [ apply under_token_ret | apply under_token_lift | apply under_token_log
    | apply under_token_read | apply under_token_raise_for_status
    | apply under_token_post; solve [split; reflexivity]
    | apply under_token_get; cbv beta
    | apply under_token_bind; [| intros ?]
    | apply under_token_try_except; [| intros ?]
    | apply under_token_for_each; intros ? ?
    | match goal with
      | |- under_token _ _ (if ?b then _ else _) => destruct b
      | |- under_token _ _ (match ?o with _ => _ end) => destruct o
      end ].

Lemma autoRefund_process_refunds_under_token cfg E tok bill_data :
  under_token tok (refund_with tok) (autoRefund.process_refunds cfg E bill_data).
Proof.
  unfold autoRefund.process_refunds, autoRefund.process_bill, autoRefund.refund_bill.
  token_frame.
Qed.

Lemma auto_refund_process_refunds_under_token cfg E tok bill_data :
  under_token tok (refund_with tok) (auto_refund.process_refunds cfg E bill_data).
Proof.
  unfold auto_refund.process_refunds, auto_refund.process_bill, auto_refund.refund_bill,
    auto_refund.get_headers.
  token_frame.
Qed.

(** ** Further properties: a whole run *)

Lemma autoRefund_main_run cfg E w :
  run (autoRefund.main cfg E) w =
  let w1 := fst (autoRefund.login cfg E (fst (log LogStart w))) in
  match snd (autoRefund.login cfg E (fst (log LogStart w))) with
  | Raise e => (w1, Uncaught e)
  | Ok t =>
      if py_truthy t then
        let w2 := fst (autoRefund.fetch_bills cfg E (auth_token w1) w1) in
        match snd (autoRefund.fetch_bills cfg E (auth_token w1) w1) with
        | Raise e => (w2, Uncaught e)
        | Ok bill_data =>
            if py_truthy bill_data then
              match autoRefund.process_refunds cfg E bill_data w2 with
              | (w3, Ok _) => (fst (log LogDone w3), Finished)
              | (w3, Raise e) => (w3, Uncaught e)
              end
            else (fst (log LogDone (fst (log LogNoBillData w2))), Finished)
        end
      else (fst (log LogLoginFailed w1), SysExit 1)
  end.
Proof.
  unfold run, autoRefund.main, bind at 1 2. simpl.
  destruct (autoRefund.login cfg E _) as [w1 [t | e]]; simpl; [| reflexivity].
  destruct (py_truthy t); simpl; [| reflexivity].
  unfold bind at 1 2, get_token. simpl.
  destruct (autoRefund.fetch_bills cfg E (auth_token w1) w1) as [w2 [bd | e]]; simpl;
    [| reflexivity].
  unfold bind at 1.
  destruct (py_truthy bd); simpl.
  - destruct (autoRefund.process_refunds cfg E bd w2) as [w3 [[] | e]]; reflexivity.
  - reflexivity.
Qed.

Lemma auto_refund_main_run cfg E w :
  run (auto_refund.main cfg E) w =
  let w1 := fst (auto_refund.login cfg E (fst (log LogStart w))) in
  match snd (auto_refund.login cfg E (fst (log LogStart w))) with
  | Raise e => (w1, Uncaught e)
  | Ok ok =>
      if ok then
        let w2 := fst (auto_refund.fetch_bills cfg E w1) in
        match snd (auto_refund.fetch_bills cfg E w1) with
        | Raise e => (w2, Uncaught e)
        | Ok bill_data =>
            if py_truthy bill_data then
              match auto_refund.process_refunds cfg E bill_data w2 with
              | (w3, Ok _) => (fst (log LogDone w3), Finished)
              | (w3, Raise e) => (w3, Uncaught e)
              end
            else (fst (log LogDone w2), Finished)
        end
      else (fst (log LogLoginFailed w1), Finished)
  end.
Proof.
  unfold run, auto_refund.main, bind at 1 2. simpl.
  destruct (auto_refund.login cfg E _) as [w1 [ok | e]]; simpl; [| reflexivity].
  destruct ok; simpl; [| reflexivity].
  unfold bind at 1. simpl.
  destruct (auto_refund.fetch_bills cfg E w1) as [w2 [bd | e]]; simpl; [| reflexivity].
  unfold bind at 1.
  destruct (py_truthy bd); simpl.
  - destruct (auto_refund.process_refunds cfg E bd w2) as [w3 [[] | e]]; reflexivity.
  - reflexivity.
Qed.

Lemma autoRefund_granted_truthy a s :
  autoRefund_granted a = Some s -> py_truthy (PStr s) = true.
Proof.
  unfold autoRefund_granted.
  destruct (answered_data a) as [[| | | | s' | |] |]; try discriminate.
  simpl. destruct (String.eqb s' "") eqn:He; [discriminate |].
  intros H. inversion H; subst. now rewrite He.
Qed.

Lemma sent_after_process_refunds {A} (r : world * outcome A) (k : world -> world)
    (t : termination) :
  (forall w, sent (k w) = sent w) ->
  sent (fst (match r with
             | (w3, Ok _) => (k w3, t)
             | (w3, Raise e) => (w3, Uncaught e)
             end)) = sent (fst r).
Proof. intros Hk. destruct r as [w3 [a | e]]; simpl; auto. Qed.

(** X7: the calls of one run of autoRefund.py's main block, in order.
    When the login answer grants no token the run makes the login call
    and nothing else, and exits with 1.  When it grants the token [s] the
    run makes the login call, then exactly one page query, then refund
    calls only, and the query and every refund carry [s] as
    authorization: there is no second login, no second page and no call
    under another token. *)
Theorem X7_autoRefund_run_calls cfg E w :
  match autoRefund_granted (net E (sent w) (autoRefund_login_request cfg)) with
  | None =>
      sent (fst (run (autoRefund.main cfg E) w)) = sent w ++ [autoRefund_login_request cfg] /\
      snd (run (autoRefund.main cfg E) w) = SysExit 1
  | Some s =>
      exists fetch refunds,
        sent (fst (run (autoRefund.main cfg E) w))
          = sent w ++ autoRefund_login_request cfg :: fetch :: refunds /\
        req_endpoint fetch = EpFetch /\
        req_authorization fetch = Some (PStr s) /\
        Forall (refund_with (PStr s)) refunds
  end.
Proof.
  rewrite autoRefund_main_run.
  destruct (autoRefund_login_spec cfg E (fst (log LogStart w))) as [Hsent Hres].
  set (w1 := fst (autoRefund.login cfg E (fst (log LogStart w)))) in *.
  change (sent (fst (log LogStart w))) with (sent w) in Hsent, Hres.
  destruct (autoRefund_granted _) as [s |] eqn:Hg.
  - destruct Hres as [Hr Htok]. rewrite Hr. cbv zeta.
    rewrite (autoRefund_granted_truthy _ Hg).
    destruct (autoRefund_fetch_bills_spec cfg E (auth_token w1) w1)
      as (Hs2 & Ht2 & Hr2 & _).
    set (w2 := fst (autoRefund.fetch_bills cfg E (auth_token w1) w1)) in *.
    rewrite Hr2.
    exists (autoRefund_fetch_request cfg E (auth_token w1) w1).
    destruct (py_truthy _).
    + pose proof (@autoRefund_process_refunds_under_token cfg E (PStr s)
                    (autoRefund_fetched
                       (net E (sent w1) (autoRefund_fetch_request cfg E (auth_token w1) w1))))
        as Hpr.
      destruct (Hpr w2 (eq_trans Ht2 Htok)) as [_ [l [Hl HF]]].
      exists l.
      rewrite (sent_after_process_refunds _ (fun w => fst (log LogDone w)) Finished)
        by reflexivity.
      rewrite Hl, Hs2, Hsent, <- !app_assoc. simpl.
      rewrite Htok. repeat split; auto.
    + exists []. simpl. rewrite Hs2, Hsent, <- app_assoc. simpl.
      rewrite Htok. repeat split; auto.
  - destruct Hres as [Hr Htok]. rewrite Hr. simpl. split; [exact Hsent | reflexivity].
Qed.

(** X8: the calls of one run of auto_refund.py's [main()], in order.
    When the login answer carries a truthy [data] that is a string or a
    list, and its cookies can be read into the [cookies] dict, the run
    makes the login call, then exactly one page query, then refund calls
    only, all of them carrying that value as authorization.  In every
    other case it makes the login call and nothing else, and [main()]
    returns normally. *)
Theorem X8_auto_refund_run_calls cfg E w :
  match auto_refund_granted (net E (sent w) (auto_refund_login_request cfg)) with
  | Some v =>
      exists fetch refunds,
        sent (fst (run (auto_refund.main cfg E) w))
          = sent w ++ auto_refund_login_request cfg :: fetch :: refunds /\
        req_endpoint fetch = EpFetch /\
        req_authorization fetch = Some v /\
        Forall (refund_with v) refunds
  | None =>
      sent (fst (run (auto_refund.main cfg E) w))
        = sent w ++ [auto_refund_login_request cfg] /\
      snd (run (auto_refund.main cfg E) w) = Finished
  end.
Proof.
  rewrite auto_refund_main_run.
  destruct (auto_refund_login_spec cfg E (fst (log LogStart w))) as [Hsent Hres].
  set (w1 := fst (auto_refund.login cfg E (fst (log LogStart w)))) in *.
  change (sent (fst (log LogStart w))) with (sent w) in Hsent, Hres.
  unfold auto_refund_granted.
  destruct (answered_data _) as [v |] eqn:Hg.
  - destruct (py_truthy v) eqn:Hv; destruct Hres as [Hr Htok]; rewrite Hr; cbv zeta;
      simpl andb.
    + destruct (cookies_accepted _ && sliceable v).
      * destruct (auto_refund_fetch_bills_spec cfg E w1) as (Hs2 & Ht2 & Hr2).
        set (w2 := fst (auto_refund.fetch_bills cfg E w1)) in *.
        rewrite Hr2.
        exists (auto_refund_fetch_request cfg E w1).
        destruct (py_truthy (auto_refund_fetched _)).
        -- pose proof (@auto_refund_process_refunds_under_token cfg E v
                         (auto_refund_fetched
                            (net E (sent w1) (auto_refund_fetch_request cfg E w1))))
             as Hpr.
           destruct (Hpr w2 (eq_trans Ht2 Htok)) as [_ [l [Hl HF]]].
           exists l.
           rewrite (sent_after_process_refunds _ (fun w => fst (log LogDone w)) Finished)
             by reflexivity.
           rewrite Hl, Hs2, Hsent, <- !app_assoc. simpl.
           rewrite Htok. repeat split; auto.
        -- exists []. simpl. rewrite Hs2, Hsent, <- app_assoc. simpl.
           rewrite Htok. repeat split; auto.
      * simpl. split; [exact Hsent | reflexivity].
    + simpl. split; [exact Hsent | reflexivity].
  - destruct Hres as [Hr Htok]. rewrite Hr. simpl. split; [exact Hsent | reflexivity].
Qed.

(** X9: in autoRefund.py a page query that yields nothing is not fatal.
    After a granted login, when the query's answer is an exception, a
    4xx/5xx, an unparsable body, JSON that is not an object, or the empty
    object, the run makes no refund call and ends normally, with exit
    status 0. *)
Theorem X9_autoRefund_fetch_failure_is_not_fatal cfg E w s :
  autoRefund_granted (net E (sent w) (autoRefund_login_request cfg)) = Some s ->
  let w1 := fst (autoRefund.login cfg E (fst (log LogStart w))) in
  py_truthy (autoRefund_fetched
               (net E (sent w1) (autoRefund_fetch_request cfg E (PStr s) w1))) = false ->
  snd (run (autoRefund.main cfg E) w) = Finished /\
  exit_code (snd (run (autoRefund.main cfg E) w)) = 0 /\
  sent (fst (run (autoRefund.main cfg E) w))
    = sent w ++ [autoRefund_login_request cfg; autoRefund_fetch_request cfg E (PStr s) w1].
Proof.
  intros Hg w1 Hbd.
  rewrite autoRefund_main_run. fold w1.
  destruct (autoRefund_login_spec cfg E (fst (log LogStart w))) as [Hsent Hres].
  fold w1 in Hsent, Hres.
  change (sent (fst (log LogStart w))) with (sent w) in Hsent, Hres.
  rewrite Hg in Hres. destruct Hres as [Hr Htok].
  rewrite Hr. cbv zeta. rewrite (autoRefund_granted_truthy _ Hg), Htok.
  destruct (autoRefund_fetch_bills_spec cfg E (PStr s) w1) as (Hs2 & Ht2 & Hr2 & _).
  rewrite Hr2, Hbd. simpl.
  repeat split. rewrite Hs2, Hsent, <- app_assoc. reflexivity.
Qed.

(** X9 against a page query that answers 500. *)
Lemma X9_witness :
  snd (run (autoRefund.main cfg_minimal fetch_broken) initial_world) = Finished /\
  exit_code (snd (run (autoRefund.main cfg_minimal fetch_broken) initial_world)) = 0 /\
  map req_endpoint (sent (fst (run (autoRefund.main cfg_minimal fetch_broken) initial_world)))
    = [EpLogin; EpFetch].
Proof.
  destruct (@X9_autoRefund_fetch_failure_is_not_fatal cfg_minimal fetch_broken
              initial_world "tok_abc123" eq_refl eq_refl) as (Hfin & Hcode & Hsent).
  split; [exact Hfin | split; [exact Hcode |]].
  rewrite Hsent. reflexivity.
Defined.

Lemma process_refunds_of_non_dict cfg E v w :
  is_dict v = false ->
  auto_refund.process_refunds cfg E v w = (w, Raise AttributeError).
Proof.
  intros Hv. unfold auto_refund.process_refunds, bind, lift.
  destruct v; try discriminate; reflexivity.
Qed.

(** X10: in auto_refund.py, after a successful login (a truthy [data]
    that is a string or a list, in an answer whose cookies can be read),
    a page query that yields nothing (exception, 4xx/5xx, unparsable
    body, or a falsy JSON value) ends the run normally without a refund
    call; but a truthy JSON value that is not an object (a non-empty
    array or string, a number) reaches [process_refunds], whose
    [bill_data.get] raises an AttributeError that nothing catches: the
    script dies with exit status 1, again without a refund call. *)
Theorem X10_auto_refund_fetch_outcomes cfg E w v :
  auto_refund_granted (net E (sent w) (auto_refund_login_request cfg)) = Some v ->
  let w1 := fst (auto_refund.login cfg E (fst (log LogStart w))) in
  let page := auto_refund_fetched (net E (sent w1) (auto_refund_fetch_request cfg E w1)) in
  (py_truthy page = false ->
     snd (run (auto_refund.main cfg E) w) = Finished /\
     sent (fst (run (auto_refund.main cfg E) w))
       = sent w ++ [auto_refund_login_request cfg; auto_refund_fetch_request cfg E w1]) /\
  (py_truthy page = true -> is_dict page = false ->
     snd (run (auto_refund.main cfg E) w) = Uncaught AttributeError /\
     exit_code (snd (run (auto_refund.main cfg E) w)) = 1 /\
     sent (fst (run (auto_refund.main cfg E) w))
       = sent w ++ [auto_refund_login_request cfg; auto_refund_fetch_request cfg E w1]).
Proof.
  intros Hg w1 page.
  rewrite auto_refund_main_run. fold w1.
  destruct (@auto_refund_login_granted cfg E (fst (log LogStart w)) v Hg)
    as (Hsent & Hr & Htok).
  fold w1 in Hsent, Htok.
  change (sent (fst (log LogStart w))) with (sent w) in Hsent.
  rewrite Hr. cbv zeta iota.
  destruct (auto_refund_fetch_bills_spec cfg E w1) as (Hs2 & Ht2 & Hr2).
  rewrite Hr2. fold page.
  assert (Hcalls : sent (fst (auto_refund.fetch_bills cfg E w1))
                   = sent w ++ [auto_refund_login_request cfg;
                                auto_refund_fetch_request cfg E w1]).
  { rewrite Hs2, Hsent, <- app_assoc. reflexivity. }
  split.
  - intros Hpage. rewrite Hpage. simpl. split; [reflexivity | exact Hcalls].
  - intros Hpage Hdict. rewrite Hpage.
    rewrite (process_refunds_of_non_dict cfg E page _ Hdict). simpl.
    repeat split. exact Hcalls.
Qed.

(** X10 against a page query that answers 500, and one that answers a
    JSON array. *)
Lemma X10_witness :
  snd (run (auto_refund.main cfg_full fetch_broken) initial_world) = Finished /\
  snd (run (auto_refund.main cfg_full fetch_array) initial_world) = Uncaught AttributeError /\
  map req_endpoint (sent (fst (run (auto_refund.main cfg_full fetch_array) initial_world)))
    = [EpLogin; EpFetch].
Proof.
  destruct (@X10_auto_refund_fetch_outcomes cfg_full fetch_broken initial_world
              (PStr "tok_abc123") eq_refl) as [Hnone _].
  destruct (@X10_auto_refund_fetch_outcomes cfg_full fetch_array initial_world
              (PStr "tok_abc123") eq_refl) as [_ Harr].
  destruct (Hnone eq_refl) as [Hfin _].
  destruct (Harr eq_refl eq_refl) as (Hcrash & _ & Hsent).
  split; [exact Hfin | split; [exact Hcrash |]].
  rewrite Hsent. reflexivity.
Defined.

(** ** Further properties: what can end a run *)

Section RaiseFrame.

Variable Q : exn -> Prop.

Lemma raises_only_ret {A} (a : A) : raises_only Q (ret a).
Proof. intros w e H. discriminate H. Qed.

Lemma raises_only_log (ev : log_event) : raises_only Q (log ev).
Proof. intros w e H. discriminate H. Qed.

Lemma raises_only_read {A} (f : list request -> A) : raises_only Q (read f).
Proof. intros w e H. discriminate H. Qed.

Lemma raises_only_get_token : raises_only Q get_token.
Proof. intros w e H. discriminate H. Qed.

Lemma raises_only_lift {A} (o : outcome A) :
  (forall e, o = Raise e -> Q e) -> raises_only Q (lift o).
Proof. intros Ho w e H. apply Ho. exact H. Qed.

Lemma raises_only_bind {A B} (m : Py A) (k : A -> Py B) :
  raises_only Q m -> (forall a, raises_only Q (k a)) -> raises_only Q (bind m k).
Proof.
  intros Hm Hk w e. unfold bind.
  specialize (Hm w). destruct (m w) as [w1 [a | e1]]; simpl in *.
  - apply Hk.
  - intros H. apply Hm. inversion H. reflexivity.
Qed.

(** A handler that raises nothing makes the [try] raise nothing. *)
Lemma raises_only_try_except {A} (m : Py A) (h : exn -> Py A) :
  (forall e, raises_only Q (h e)) -> raises_only Q (try_except m h).
Proof.
  intros Hh w e. unfold try_except.
  destruct (m w) as [w1 [a | e1]]; simpl.
  - discriminate.
  - apply Hh.
Qed.

Lemma raises_only_for_each {A} (body : A -> pyval -> Py A) :
  (forall acc x, raises_only Q (body acc x)) ->
  forall items acc, raises_only Q (for_each body acc items).
Proof.
  intros Hb items. induction items as [| x rest IH]; intros acc; simpl.
  - apply raises_only_ret.
  - apply raises_only_bind; auto.
Qed.

End RaiseFrame.

Lemma py_get_raises d k v e : py_get d k v = Raise e -> is_conversion_error e = true.
Proof. destruct d; simpl; intros H; inversion H; reflexivity. Qed.

Lemma py_int_raises of_str v e : py_int of_str v = Raise e -> is_conversion_error e = true.
Proof.
  destruct v as [| b | z | [| n | q] | s | l | kvs]; simpl; intros H;
    try (inversion H; reflexivity).
  destruct (of_str s); inversion H; reflexivity.
Qed.

Lemma py_iter_raises v e : py_iter v = Raise e -> is_conversion_error e = true.
Proof. destruct v; simpl; intros H; inversion H; reflexivity. Qed.

(** Solves [raises_only Q m] by walking down [m]. *)
Ltac raise_frame :=
  repeat first
    [ apply raises_only_ret | apply raises_only_log | apply raises_only_read
    | apply raises_only_get_token
    | apply raises_only_lift; intros ? ?;
      solve [eauto using py_get_raises, py_int_raises, py_iter_raises]
    | apply raises_only_try_except; intros ?
    | apply raises_only_bind; [| intros ?]
    | apply raises_only_for_each; intros ? ?
    | match goal with
      | |- raises_only _ (if ?b then _ else _) => destruct b
      end ].

Lemma autoRefund_process_refunds_raises cfg E bill_data :
  raises_only (fun e => is_conversion_error e = true)
    (autoRefund.process_refunds cfg E bill_data).
Proof.
  unfold autoRefund.process_refunds, autoRefund.process_bill, autoRefund.refund_bill.
  raise_frame.
Qed.

Lemma auto_refund_process_refunds_raises cfg E bill_data :
  raises_only (fun e => is_conversion_error e = true)
    (auto_refund.process_refunds cfg E bill_data).
Proof.
  unfold auto_refund.process_refunds, auto_refund.process_bill, auto_refund.refund_bill.
  raise_frame.
Qed.

(** X11: no failure of the network ends a run.  Whatever the remote API
    answers and whatever the HTTP library raises, on any call, an
    exception that escapes either script comes from reading a malformed
    page ([.get] on a non-dict, [int()] of an id or amount, iterating a
    non-iterable): it is an AttributeError, TypeError, ValueError or
    OverflowError, never an exception of the HTTP library. *)
Theorem X11_only_conversions_escape cfg E w e :
  (snd (autoRefund.script cfg E w) = Uncaught e -> is_conversion_error e = true) /\
  (snd (auto_refund.script cfg E w) = Uncaught e -> is_conversion_error e = true).
Proof.
  split.
  - unfold autoRefund.script. destruct (autoRefund.missing cfg); [| discriminate].
    rewrite autoRefund_main_run.
    destruct (autoRefund_login_spec cfg E (fst (log LogStart w))) as [_ Hres].
    destruct (autoRefund_granted _); destruct Hres as [-> _]; cbv zeta;
      [| simpl; discriminate].
    destruct (py_truthy _); [| simpl; discriminate].
    destruct (autoRefund_fetch_bills_spec cfg E
                (auth_token (fst (autoRefund.login cfg E (fst (log LogStart w)))))
                (fst (autoRefund.login cfg E (fst (log LogStart w)))))
      as (_ & _ & -> & _).
    destruct (py_truthy _); [| simpl; discriminate].
    match goal with
    | |- context [autoRefund.process_refunds cfg E ?bd ?w2] =>
        pose proof (@autoRefund_process_refunds_raises cfg E bd w2) as Hpr;
        destruct (autoRefund.process_refunds cfg E bd w2) as [w3 [[] | e3]]
    end; simpl in *; [discriminate |].
    intros H. inversion H; subst. apply Hpr. reflexivity.
  - unfold auto_refund.script. destruct (auto_refund.config_complete cfg); [| discriminate].
    rewrite auto_refund_main_run.
    destruct (auto_refund_login_returns cfg E (fst (log LogStart w))) as [w1 [ok Hl]].
    rewrite Hl. simpl fst. simpl snd. cbv zeta iota.
    destruct ok; [| simpl; discriminate].
    destruct (auto_refund_fetch_bills_spec cfg E w1) as (_ & _ & ->).
    destruct (py_truthy _); [| simpl; discriminate].
    match goal with
    | |- context [auto_refund.process_refunds cfg E ?bd ?w2] =>
        pose proof (@auto_refund_process_refunds_raises cfg E bd w2) as Hpr;
        destruct (auto_refund.process_refunds cfg E bd w2) as [w3 [[] | e3]]
    end; simpl in *; [discriminate |].
    intros H. inversion H; subst. apply Hpr. reflexivity.
Qed.

(** X11 on a page with the id "abc" (autoRefund.py) and on a page that is
    a JSON array (auto_refund.py). *)
Lemma X11_witness :
  snd (autoRefund.script cfg_minimal (serving page_abc) initial_world) = Uncaught ValueError /\
  is_conversion_error ValueError = true /\
  snd (auto_refund.script cfg_full fetch_array initial_world) = Uncaught AttributeError /\
  is_conversion_error AttributeError = true.
Proof.
  split; [reflexivity | split; [| split; [reflexivity |]]].
  - exact (proj1 (X11_only_conversions_escape cfg_minimal (serving page_abc)
                    initial_world ValueError) eq_refl).
  - exact (proj2 (X11_only_conversions_escape cfg_full fetch_array
                    initial_world AttributeError) eq_refl).
Defined.

(** ** Further properties: the batch *)

(** X12: with a token stored and a page whose ids and amounts convert,
    [process_refunds] of autoRefund.py completes and makes exactly the
    refund calls that are due, one per record whose id passes the guard
    and whose amount is neither 0 nor None, in the order of the list,
    each with that record's [int(id)] and [int(amount)].  This holds
    whatever the refund endpoint answers: a failed refund neither stops
    the batch nor is retried.  The logged success + failed is the number
    of calls made. *)
Theorem X12_autoRefund_refunds_exactly_the_due_bills cfg E fields bills total w :
  assoc "data" fields = Some (PList bills) ->
  assoc "totalCount" fields = Some total ->
  py_eq_zero total = false ->
  py_truthy (auth_token w) = true ->
  Forall (autoRefund_convertible E) bills ->
  exists w' l s f k pre,
    autoRefund.process_refunds cfg E (PDict fields) w = (w', Ok tt) /\
    sent w' = sent w ++ l /\
    Forall (fun r => req_endpoint r = EpRefund) l /\
    map billed l = flat_map (autoRefund_due E) bills /\
    logged w' = pre ++ [LogSummary s f k] /\
    (s + f = List.length l)%nat.
Proof.
  intros Hdata Htotal Hnz Htok Hall.
  rewrite (autoRefund_process_refunds_loop cfg E fields w Hdata Htotal Hnz).
  destruct (@autoRefund_loop_exact cfg E bills Hall
              {| autoRefund.success := 0; autoRefund.failed := 0; autoRefund.skipped := 0 |}
              (fst (log (LogBillsFound total) w)) Htok)
    as (w1 & c1 & l & -> & Hs & HF & Hm & Hc).
  exists (fst (log (LogSummary (autoRefund.success c1) (autoRefund.failed c1)
                     (autoRefund.skipped c1)) w1)),
    l, (autoRefund.success c1), (autoRefund.failed c1), (autoRefund.skipped c1),
    (logged w1).
  simpl in *. repeat split; auto.
Qed.

(** X12 on the spec's page with a refund endpoint that cannot be reached:
    the one due refund (bill 501, amount 100) is still attempted, once. *)
Lemma X12_witness :
  exists w' l s f k pre,
    autoRefund.process_refunds cfg_minimal (refund_unreachable page_501_502)
      (page page_501_502) logged_in = (w', Ok tt) /\
    sent w' = sent logged_in ++ l /\
    Forall (fun r => req_endpoint r = EpRefund) l /\
    map billed l = [(Some (PInt 501), Some (PInt 100))] /\
    logged w' = pre ++ [LogSummary s f k] /\
    (s + f = List.length l)%nat.
Proof.
  refine (@X12_autoRefund_refunds_exactly_the_due_bills cfg_minimal
            (refund_unreachable page_501_502)
            [("totalCount", PInt 2); ("data", PList page_501_502)]
            page_501_502 (PInt 2) logged_in eq_refl eq_refl eq_refl eq_refl _).
  repeat constructor; try (eexists; reflexivity);
    intros; try discriminate; eexists; eexists; split; reflexivity.
Defined.

(** X13: on a page whose amounts convert, [process_refunds] of
    auto_refund.py completes and makes exactly one refund call per record
    with a truthy id and an amount that is not None, in the order of the
    list, with the id as the page gives it (no conversion, so a string id
    goes out as a string) and [int(amount)] as refundMoney, an amount of 0
    included.  It does so whether or not a token is stored and whatever
    the refund endpoint answers, and the logged success + failed is the
    number of calls made. *)
Theorem X13_auto_refund_refunds_exactly_the_due_bills cfg E fields bills total w :
  assoc "data" fields = Some (PList bills) ->
  assoc "totalCount" fields = Some total ->
  py_eq_zero total = false ->
  Forall (auto_refund_convertible E) bills ->
  exists w' l s f pre,
    auto_refund.process_refunds cfg E (PDict fields) w = (w', Ok tt) /\
    sent w' = sent w ++ l /\
    Forall (fun r => req_endpoint r = EpRefund) l /\
    map billed l = flat_map (auto_refund_due E) bills /\
    logged w' = pre ++ [LogSummary2 s f] /\
    (s + f = List.length l)%nat.
Proof.
  intros Hdata Htotal Hnz Hall.
  rewrite (auto_refund_process_refunds_loop cfg E fields w Hdata Htotal Hnz).
  destruct (@auto_refund_loop_exact cfg E bills Hall
              {| auto_refund.success := 0; auto_refund.failed := 0 |}
              (fst (log (LogBillsFound total) w)))
    as (w1 & c1 & l & -> & Hs & HF & Hm & Hc).
  exists (fst (log (LogSummary2 (auto_refund.success c1) (auto_refund.failed c1)) w1)),
    l, (auto_refund.success c1), (auto_refund.failed c1), (logged w1).
  simpl in *. repeat split; auto.
Qed.

(** X13 on the spec's page: bill 502, amount 0, is sent too. *)
Lemma X13_witness :
  exists w' l s f pre,
    auto_refund.process_refunds cfg_full (serving page_501_502)
      (page page_501_502) logged_in = (w', Ok tt) /\
    sent w' = sent logged_in ++ l /\
    Forall (fun r => req_endpoint r = EpRefund) l /\
    map billed l = [(Some (PInt 501), Some (PInt 100)); (Some (PInt 502), Some (PInt 0))] /\
    logged w' = pre ++ [LogSummary2 s f] /\
    (s + f = List.length l)%nat.
Proof.
  refine (@X13_auto_refund_refunds_exactly_the_due_bills cfg_full
            (serving page_501_502)
            [("totalCount", PInt 2); ("data", PList page_501_502)]
            page_501_502 (PInt 2) logged_in eq_refl eq_refl eq_refl _).
  repeat constructor; try (eexists; reflexivity);
    intros; try discriminate; eexists; eexists; split; reflexivity.
Defined.

(** X14: in autoRefund.py a record whose id passes the guard but is
    rejected by [int()] (a string its parser does not accept) makes the
    loop raise that exception at once, before any call or log line; the
    records after it are not processed at all. *)
Theorem X14_autoRefund_unconvertible_id_stops_the_batch cfg E b id e :
  py_get b "id" PNone = Ok id ->
  py_truthy id = true ->
  isinstance_int_str id = true ->
  py_int (int_of_str E) id = Raise e ->
  forall c rest w,
    for_each (autoRefund.process_bill cfg E) c (b :: rest) w = (w, Raise e).
Proof.
  intros Hid Ht Hi He c rest w. simpl.
  unfold bind at 1, autoRefund.process_bill, bind, lift.
  rewrite Hid, Ht, Hi, He. reflexivity.
Qed.

(** X14 on the page with the id "abc". *)
Lemma X14_witness :
  for_each (autoRefund.process_bill cfg_minimal (serving page_abc))
    {| autoRefund.success := 0; autoRefund.failed := 0; autoRefund.skipped := 0 |}
    page_abc logged_in
  = (logged_in, Raise ValueError).
Proof.
  exact (@X14_autoRefund_unconvertible_id_stops_the_batch cfg_minimal (serving page_abc)
           (bill (PStr "abc") (PInt 100)) (PStr "abc") ValueError
           eq_refl eq_refl eq_refl eq_refl _ [bill (PInt 501) (PInt 100)] logged_in).
Defined.

(** X15: a record that is due a refund but whose amount [int()] rejects
    (a string its parser does not accept, a list, NaN, an infinity) makes
    the loop of either variant raise that exception after the
    "processing" log line and before any call; the records after it are
    not processed at all. *)
Theorem X15_unconvertible_amount_stops_the_batch cfg E b id amt e :
  py_get b "id" PNone = Ok id ->
  py_get b "actualMoney" PNone = Ok amt ->
  py_int (int_of_str E) amt = Raise e ->
  (forall id_int c rest w,
     py_truthy id = true -> isinstance_int_str id = true -> py_int (int_of_str E) id = Ok id_int ->
     py_eq_zero amt = false -> py_is_none amt = false ->
     for_each (autoRefund.process_bill cfg E) c (b :: rest) w
     = (fst (log (LogProcessing (PInt id_int) amt) w), Raise e)) /\
  (forall c rest w,
     py_truthy id = true -> py_is_none amt = false ->
     for_each (auto_refund.process_bill cfg E) c (b :: rest) w
     = (fst (log (LogProcessing id amt) w), Raise e)).
Proof.
  intros Hid Hamt He. split.
  - intros id_int c rest w Ht Hi Hint Hz Hn. simpl.
    unfold bind at 1, autoRefund.process_bill, bind, lift.
    rewrite Hid, Ht, Hi, Hint, Hamt, Hz, Hn. simpl. rewrite He. reflexivity.
  - intros c rest w Ht Hn. simpl.
    unfold bind at 1, auto_refund.process_bill, auto_refund.refund_bill, bind, lift.
    rewrite Hid, Hamt, Ht, Hn. simpl. rewrite He. reflexivity.
Qed.

(** X15 on a page whose first amount is the string "12.5". *)
Lemma X15_witness :
  for_each (autoRefund.process_bill cfg_minimal (serving page_bad_amount))
    {| autoRefund.success := 0; autoRefund.failed := 0; autoRefund.skipped := 0 |}
    page_bad_amount logged_in
  = (fst (log (LogProcessing (PInt 500) (PStr "12.5")) logged_in), Raise ValueError) /\
  for_each (auto_refund.process_bill cfg_full (serving page_bad_amount))
    {| auto_refund.success := 0; auto_refund.failed := 0 |}
    page_bad_amount logged_in
  = (fst (log (LogProcessing (PInt 500) (PStr "12.5")) logged_in), Raise ValueError).
Proof.
  destruct (@X15_unconvertible_amount_stops_the_batch cfg_minimal (serving page_bad_amount)
              (bill (PInt 500) (PStr "12.5")) (PInt 500) (PStr "12.5") ValueError
              eq_refl eq_refl eq_refl) as [HA _].
  destruct (@X15_unconvertible_amount_stops_the_batch cfg_full (serving page_bad_amount)
              (bill (PInt 500) (PStr "12.5")) (PInt 500) (PStr "12.5") ValueError
              eq_refl eq_refl eq_refl) as [_ HB].
  split.
  - exact (HA 500 _ [bill (PInt 501) (PInt 100)] logged_in
             eq_refl eq_refl eq_refl eq_refl eq_refl).
  - exact (HB _ [bill (PInt 501) (PInt 100)] logged_in eq_refl eq_refl).
Defined.

Lemma str_chars_nonempty a s : exists c cs, str_chars (String a s) = c :: cs.
Proof.
  simpl. destruct (str_chars s) as [| c cs]; [eauto |].
  destruct (starts_with_continuation s); eauto.
Qed.

(** X16: a page with a non-zero totalCount whose [data] is not a list.
    autoRefund.py checks for it: it logs a warning and returns normally,
    with no call and no summary.  auto_refund.py iterates [data]
    unchecked: unless it is an empty string or an empty object, the loop
    raises with no call made, a TypeError when [data] cannot be iterated
    (null, a number, a boolean) and an AttributeError when it iterates
    over strings (a non-empty object or string). *)
Theorem X16_data_that_is_not_a_list cfg E fields total v w :
  assoc "totalCount" fields = Some total ->
  py_eq_zero total = false ->
  assoc "data" fields = Some v ->
  isinstance_list v = false ->
  autoRefund.process_refunds cfg E (PDict fields) w
    = (fst (log (LogNotList v) (fst (log (LogBillsFound total) w))), Ok tt) /\
  (empty_container v = false ->
   auto_refund.process_refunds cfg E (PDict fields) w
     = (fst (log (LogBillsFound total) w),
        Raise (if iterates_strings v then AttributeError else TypeError))).
Proof.
  intros Htotal Hnz Hdata Hlist. split.
  - unfold autoRefund.process_refunds, bind, lift, log, ret. simpl.
    rewrite Htotal, Hnz, Hdata, Hlist. reflexivity.
  - intros Hne.
    unfold auto_refund.process_refunds, bind, lift, log, ret. simpl.
    rewrite Htotal, Hnz, Hdata.
    destruct v as [| b | z | f | [| a s] | l | [| kv kvs]]; try discriminate;
      try reflexivity.
    unfold py_iter.
    destruct (str_chars_nonempty a s) as (c & cs & ->). reflexivity.
Qed.

(** X16 on a page whose data is null. *)
Lemma X16_witness :
  autoRefund.process_refunds cfg_minimal (serving []) (PDict page_data_null) logged_in
    = (fst (log (LogNotList PNone) (fst (log (LogBillsFound (PInt 3)) logged_in))), Ok tt) /\
  auto_refund.process_refunds cfg_full (serving []) (PDict page_data_null) logged_in
    = (fst (log (LogBillsFound (PInt 3)) logged_in), Raise TypeError).
Proof.
  destruct (@X16_data_that_is_not_a_list cfg_minimal (serving []) page_data_null
              (PInt 3) PNone logged_in eq_refl eq_refl eq_refl eq_refl) as [HA _].
  destruct (@X16_data_that_is_not_a_list cfg_full (serving []) page_data_null
              (PInt 3) PNone logged_in eq_refl eq_refl eq_refl eq_refl) as [_ HB].
  split; [exact HA | exact (HB eq_refl)].
Defined.

(** ** Further properties: the configuration check *)

(** X17: the configuration check comes before everything else.
    autoRefund.py exits with 1, having made no call and logged nothing,
    when BASE_URL or USERNAME is unset; an empty string passes its check.
    auto_refund.py exits with 1 the same way when BASE_URL, USERNAME or
    PASSWORD_HASH is unset or empty.  With the values present, either
    script starts with the login call. *)
Theorem X17_configuration_check cfg E w :
  (BASE_URL cfg = None \/ USERNAME cfg = None ->
   autoRefund.script cfg E w = (w, SysExit 1)) /\
  (BASE_URL cfg <> None -> USERNAME cfg <> None ->
   exists l, sent (fst (autoRefund.script cfg E w))
             = sent w ++ autoRefund_login_request cfg :: l) /\
  (py_truthy (env_val (BASE_URL cfg)) = false \/
   py_truthy (env_val (USERNAME cfg)) = false \/
   py_truthy (env_val (PASSWORD_HASH cfg)) = false ->
   auto_refund.script cfg E w = (w, SysExit 1)) /\
  (py_truthy (env_val (BASE_URL cfg)) = true ->
   py_truthy (env_val (USERNAME cfg)) = true ->
   py_truthy (env_val (PASSWORD_HASH cfg)) = true ->
   exists l, sent (fst (auto_refund.script cfg E w))
             = sent w ++ auto_refund_login_request cfg :: l).
Proof.
  split; [| split; [| split]].
  - unfold autoRefund.script, autoRefund.missing.
    intros [-> | ->]; [| destruct (BASE_URL cfg)]; reflexivity.
  - intros Hb Hu. unfold autoRefund.script, autoRefund.missing.
    destruct (BASE_URL cfg); [| contradiction].
    destruct (USERNAME cfg); [| contradiction]. simpl.
    rewrite autoRefund_main_run.
    destruct (autoRefund_login_spec cfg E (fst (log LogStart w))) as [Hsent Hres].
    set (w1 := fst (autoRefund.login cfg E (fst (log LogStart w)))) in *.
    change (sent (fst (log LogStart w))) with (sent w) in Hsent.
    destruct (autoRefund_login_returns cfg E (fst (log LogStart w))) as [w1' [t Hl]].
    rewrite Hl. change (snd (w1', Ok t)) with (@Ok pyval t). cbv beta iota zeta.
    destruct (py_truthy t).
    + destruct (autoRefund_fetch_bills_spec cfg E (auth_token w1) w1)
        as (Hs2 & _ & Hr2 & _).
      rewrite Hr2.
      destruct (py_truthy (autoRefund_fetched _)).
      * match goal with
        | |- context [autoRefund.process_refunds cfg E ?bd ?w2] =>
            destruct (@autoRefund_process_refunds_under_token cfg E (auth_token w2) bd
                        w2 eq_refl) as [_ [l [Hl2 _]]];
            exists (autoRefund_fetch_request cfg E (auth_token w1) w1 :: l);
            rewrite (sent_after_process_refunds _ (fun w => fst (log LogDone w)) Finished)
              by reflexivity;
            rewrite Hl2, Hs2, Hsent, <- !app_assoc; reflexivity
        end.
      * exists [autoRefund_fetch_request cfg E (auth_token w1) w1]. simpl.
        rewrite Hs2, Hsent, <- app_assoc. reflexivity.
    + exists []. simpl. exact Hsent.
  - unfold auto_refund.script, auto_refund.config_complete.
    intros [-> | [-> | ->]]; rewrite ?andb_false_r; reflexivity.
  - intros Hb Hu Hp. unfold auto_refund.script, auto_refund.config_complete.
    rewrite Hb, Hu, Hp. simpl.
    rewrite auto_refund_main_run.
    destruct (auto_refund_login_spec cfg E (fst (log LogStart w))) as [Hsent _].
    set (w1 := fst (auto_refund.login cfg E (fst (log LogStart w)))) in *.
    change (sent (fst (log LogStart w))) with (sent w) in Hsent.
    destruct (auto_refund_login_returns cfg E (fst (log LogStart w))) as [w1' [ok Hl]].
    rewrite Hl. change (snd (w1', Ok ok)) with (@Ok bool ok). cbv beta iota zeta.
    destruct ok.
    + destruct (auto_refund_fetch_bills_spec cfg E w1) as (Hs2 & _ & Hr2).
      rewrite Hr2.
      destruct (py_truthy (auto_refund_fetched _)).
      * match goal with
        | |- context [auto_refund.process_refunds cfg E ?bd ?w2] =>
            destruct (@auto_refund_process_refunds_under_token cfg E (auth_token w2) bd
                        w2 eq_refl) as [_ [l [Hl2 _]]];
            exists (auto_refund_fetch_request cfg E w1 :: l);
            rewrite (sent_after_process_refunds _ (fun w => fst (log LogDone w)) Finished)
              by reflexivity;
            rewrite Hl2, Hs2, Hsent, <- !app_assoc; reflexivity
        end.
      * exists [auto_refund_fetch_request cfg E w1]. simpl.
        rewrite Hs2, Hsent, <- app_assoc. reflexivity.
    + exists []. simpl. exact Hsent.
Qed.

(** X17 on a configuration without USERNAME, one without PASSWORD_HASH
    and one whose BASE_URL is the empty string. *)
Lemma X17_witness :
  autoRefund.script cfg_no_user (serving page_501_502) initial_world
    = (initial_world, SysExit 1) /\
  (exists l, sent (fst (autoRefund.script cfg_empty_url (serving page_501_502) initial_world))
             = sent initial_world ++ autoRefund_login_request cfg_empty_url :: l) /\
  auto_refund.script cfg_minimal (serving page_501_502) initial_world
    = (initial_world, SysExit 1) /\
  auto_refund.script cfg_empty_url (serving page_501_502) initial_world
    = (initial_world, SysExit 1) /\
  (exists l, sent (fst (auto_refund.script cfg_full (serving page_501_502) initial_world))
             = sent initial_world ++ auto_refund_login_request cfg_full :: l).
Proof.
  split; [| split; [| split; [| split]]].
  - exact (proj1 (X17_configuration_check cfg_no_user (serving page_501_502)
                    initial_world) (or_intror eq_refl)).
  - apply (proj1 (proj2 (X17_configuration_check cfg_empty_url (serving page_501_502)
                           initial_world))); discriminate.
  - exact (proj1 (proj2 (proj2 (X17_configuration_check cfg_minimal
                                  (serving page_501_502) initial_world)))
             (or_intror (or_intror eq_refl))).
  - exact (proj1 (proj2 (proj2 (X17_configuration_check cfg_empty_url
                                  (serving page_501_502) initial_world)))
             (or_introl eq_refl)).
  - exact (proj2 (proj2 (proj2 (X17_configuration_check cfg_full
                                  (serving page_501_502) initial_world)))
             eq_refl eq_refl eq_refl).
Defined.

(** ** Further properties: the note *)

Lemma string_length_append (s t : string) :
  String.length (String.append s t) = (String.length s + String.length t)%nat.
Proof. induction s as [| a s IH]; simpl; [reflexivity | now rewrite IH]. Qed.

Lemma string_append_cancel_r (t s1 s2 : string) :
  String.append s1 t = String.append s2 t -> s1 = s2.
Proof.
  revert s2. induction s1 as [| a s1 IH]; intros [| b s2] H; simpl in H.
  - reflexivity.
  - apply (f_equal String.length) in H. simpl in H.
    rewrite string_length_append in H. lia.
  - apply (f_equal String.length) in H. simpl in H.
    rewrite string_length_append in H. lia.
  - inversion H; subst. f_equal. now apply IH.
Qed.

Lemma to_int_not_nil (z : Z) : Z.to_int z <> Decimal.Pos Decimal.Nil /\
                               Z.to_int z <> Decimal.Neg Decimal.Nil.
Proof.
  destruct z as [| p | p]; simpl; split; try discriminate;
    intros H; inversion H as [Hp];
    exact (DecimalPos.Unsigned.to_uint_nonnil p Hp).
Qed.

Lemma str_of_int_inj (z1 z2 : Z) : str_of_int z1 = str_of_int z2 -> z1 = z2.
Proof.
  unfold str_of_int. intros H.
  apply (f_equal NilZero.int_of_string) in H.
  destruct (to_int_not_nil z1) as [H1 H1'], (to_int_not_nil z2) as [H2 H2'].
  rewrite !NilZero.isi in H by assumption.
  inversion H as [Hz].
  apply (f_equal Z.of_int) in Hz. now rewrite !DecimalZ.of_to in Hz.
Qed.

(** X18: the note of autoRefund.py identifies the bill: two refund
    payloads built on the same date carry the same note only when they
    are for the same bill id, whatever their amounts. *)
Theorem X18_autoRefund_note_identifies_the_bill (id1 id2 amount1 amount2 : Z)
    (day : string) :
  py_get (autoRefund.refund_payload id1 amount1 day) "note" PNone
    = py_get (autoRefund.refund_payload id2 amount2 day) "note" PNone ->
  id1 = id2.
Proof.
  simpl. intros H. inversion H as [Hnote].
  apply str_of_int_inj.
  apply (string_append_cancel_r (String.append "-" day)). exact Hnote.
Qed.

(** X18 on bill 501 with two amounts. *)
Lemma X18_witness : 501 = 501.
Proof.
  exact (@X18_autoRefund_note_identifies_the_bill 501 501 100 7 "20260102" eq_refl).
Defined.

(** ** Further properties: the exit status *)

Lemma autoRefund_process_refunds_returns cfg E page w :
  page = PNone \/ is_dict page = true ->
  py_truthy page = true ->
  autoRefund_readable E page ->
  exists w', autoRefund.process_refunds cfg E page w = (w', Ok tt).
Proof.
  intros [-> | Hd] Ht Hread; [discriminate |].
  destruct page as [| | | | | | fields]; try discriminate.
  unfold autoRefund_readable in Hread. simpl py_get in Hread.
  unfold autoRefund.process_refunds, bind, lift, log, ret. simpl.
  destruct (py_eq_zero match assoc "totalCount" fields with
                       | Some v => v
                       | None => PInt 0
                       end); [eauto |].
  destruct (assoc "data" fields) as [[| | | | | bills |] |]; simpl; eauto.
  - match goal with
    | |- context [for_each ?body ?c0 bills ?w0] =>
        destruct (@for_each_returns _ body (autoRefund_convertible E)
                    (@autoRefund_process_bill_returns cfg E) bills
                    (Hread bills eq_refl) c0 w0)
          as [w1 [c ->]]
    end.
    eauto.
Qed.

(** X19: refund outcomes do not reach the exit status of autoRefund.py.
    After a granted login, whenever the page read back converts (see
    [autoRefund_readable]; a failed page query included), the main block
    runs to its end and the process exits with status 0, whatever the
    refund endpoint answers or raises on each call. *)
Theorem X19_autoRefund_exit_status_ignores_refunds cfg E w s :
  autoRefund_granted (net E (sent w) (autoRefund_login_request cfg)) = Some s ->
  let w1 := fst (autoRefund.login cfg E (fst (log LogStart w))) in
  autoRefund_readable E
    (autoRefund_fetched (net E (sent w1) (autoRefund_fetch_request cfg E (PStr s) w1))) ->
  snd (run (autoRefund.main cfg E) w) = Finished /\
  exit_code (snd (run (autoRefund.main cfg E) w)) = 0.
Proof.
  intros Hg w1 Hread.
  assert (H : snd (run (autoRefund.main cfg E) w) = Finished);
    [| split; [exact H | rewrite H; reflexivity]].
  rewrite autoRefund_main_run. fold w1.
  destruct (autoRefund_login_spec cfg E (fst (log LogStart w))) as [Hsent Hres].
  fold w1 in Hsent, Hres.
  change (sent (fst (log LogStart w))) with (sent w) in Hsent, Hres.
  rewrite Hg in Hres. destruct Hres as [Hr Htok].
  rewrite Hr. cbv zeta. rewrite (autoRefund_granted_truthy _ Hg), Htok.
  destruct (autoRefund_fetch_bills_spec cfg E (PStr s) w1) as (_ & _ & Hr2 & Hshape).
  rewrite Hr2 in *.
  destruct (py_truthy (autoRefund_fetched _)) eqn:Hpage; [| reflexivity].
  destruct (@autoRefund_process_refunds_returns cfg E _
              (fst (autoRefund.fetch_bills cfg E (PStr s) w1))
              (Hshape _ eq_refl) Hpage Hread) as [w3 ->].
  reflexivity.
Qed.

(** X19 against a refund endpoint that answers 500 to every call. *)
Lemma X19_witness :
  snd (run (autoRefund.main cfg_minimal (refund_rejected page_501_502)) initial_world)
    = Finished /\
  exit_code (snd (run (autoRefund.main cfg_minimal (refund_rejected page_501_502))
                    initial_world)) = 0.
Proof.
  refine (@X19_autoRefund_exit_status_ignores_refunds cfg_minimal
            (refund_rejected page_501_502) initial_world "tok_abc123" eq_refl _).
  intros bills Hb. inversion Hb; subst bills.
  repeat constructor; try (eexists; reflexivity);
    intros; try discriminate; eexists; eexists; split; reflexivity.
Defined.

Lemma auto_refund_process_refunds_returns cfg E page w :
  py_truthy page = true ->
  auto_refund_readable E page ->
  exists w', auto_refund.process_refunds cfg E page w = (w', Ok tt).
Proof.
  intros Ht Hread. destruct (Hread Ht) as (total & Htotal & Hcase).
  unfold auto_refund.process_refunds, bind, lift, log, ret.
  rewrite Htotal.
  destruct Hcase as [-> | (bills & Hdata & Hall)]; [eauto |].
  destruct (py_eq_zero total); [eauto |].
  rewrite Hdata. simpl.
  match goal with
  | |- context [for_each ?body ?c0 bills ?w0] =>
      destruct (@for_each_returns _ body (auto_refund_convertible E)
                  (@auto_refund_process_bill_returns cfg E) bills Hall c0 w0)
        as [w1 [c ->]]
  end.
  eauto.
Qed.

(** X20: refund outcomes do not reach the exit status of auto_refund.py
    either.  After a successful login (a truthy [data] that is a string
    or a list, in an answer whose cookies can be read), whenever the
    page read back converts (see [auto_refund_readable]; a failed page
    query included), [main()] runs to its end and the process exits with
    status 0, whatever the refund endpoint answers or raises on each
    call. *)
Theorem X20_auto_refund_exit_status_ignores_refunds cfg E w v :
  auto_refund_granted (net E (sent w) (auto_refund_login_request cfg)) = Some v ->
  let w1 := fst (auto_refund.login cfg E (fst (log LogStart w))) in
  auto_refund_readable E
    (auto_refund_fetched (net E (sent w1) (auto_refund_fetch_request cfg E w1))) ->
  snd (run (auto_refund.main cfg E) w) = Finished /\
  exit_code (snd (run (auto_refund.main cfg E) w)) = 0.
Proof.
  intros Hg w1 Hread.
  assert (H : snd (run (auto_refund.main cfg E) w) = Finished);
    [| split; [exact H | rewrite H; reflexivity]].
  rewrite auto_refund_main_run. fold w1.
  destruct (@auto_refund_login_granted cfg E (fst (log LogStart w)) v Hg)
    as (Hsent & Hr & Htok).
  fold w1 in Hsent, Htok.
  rewrite Hr. cbv zeta iota.
  destruct (auto_refund_fetch_bills_spec cfg E w1) as (_ & _ & Hr2).
  rewrite Hr2.
  destruct (py_truthy (auto_refund_fetched _)) eqn:Hpage; [| reflexivity].
  destruct (@auto_refund_process_refunds_returns cfg E _
              (fst (auto_refund.fetch_bills cfg E w1)) Hpage Hread) as [w3 ->].
  reflexivity.
Qed.

(** X20 against a refund endpoint that answers 500 to every call. *)
Lemma X20_witness :
  snd (run (auto_refund.main cfg_full (refund_rejected page_501_502)) initial_world)
    = Finished /\
  exit_code (snd (run (auto_refund.main cfg_full (refund_rejected page_501_502))
                    initial_world)) = 0.
Proof.
  refine (@X20_auto_refund_exit_status_ignores_refunds cfg_full
            (refund_rejected page_501_502) initial_world (PStr "tok_abc123")
            eq_refl _).
  intros _. exists (PInt 2). split; [reflexivity |].
  right. exists page_501_502. split; [reflexivity |].
  repeat constructor; try (eexists; reflexivity);
    intros; try discriminate; eexists; eexists; split; reflexivity.
Defined.

(** ** Further properties: the token in the log *)

Lemma str_len_leaders (s : string) :
  str_len s = (leaders s + (if starts_with_continuation s then 1 else 0))%nat.
Proof.
  unfold str_len. induction s as [| a r IH]; [reflexivity |].
  simpl str_chars. simpl leaders. simpl starts_with_continuation.
  destruct (str_chars r) as [| c cs] eqn:Hr.
  - destruct r as [| b r']; [| destruct (str_chars_nonempty b r') as (c & cs & Hc);
                                rewrite Hc in Hr; discriminate].
    simpl. destruct (is_continuation a); reflexivity.
  - destruct (starts_with_continuation r); simpl in *;
      destruct (is_continuation a); lia.
Qed.

Lemma leaders_str_prefix (n : nat) (s : string) : (leaders (str_prefix n s) <= n)%nat.
Proof.
  revert n. induction s as [| a r IH]; intros n; simpl; [lia |].
  destruct (is_continuation a) eqn:Ha; simpl.
  - rewrite Ha. apply IH.
  - destruct n as [| n]; simpl; [lia |]. rewrite Ha. specialize (IH n). lia.
Qed.

Lemma str_prefix_starts (n : nat) (s : string) :
  starts_with_continuation s = false ->
  starts_with_continuation (str_prefix n s) = false.
Proof.
  destruct s as [| a r]; simpl; [reflexivity |].
  intros Ha. rewrite Ha. destruct n; simpl; [reflexivity | exact Ha].
Qed.

Lemma str_prefix_all (n : nat) (s : string) :
  (leaders s <= n)%nat -> str_prefix n s = s.
Proof.
  revert n. induction s as [| a r IH]; intros n; simpl; [reflexivity |].
  destruct (is_continuation a); simpl; intros Hl.
  - f_equal. apply IH. exact Hl.
  - destruct n as [| n]; [lia |]. f_equal. apply IH. lia.
Qed.

(** Slices and lengths count characters: one two-byte character is cut
    off whole. *)
Lemma str_prefix_examples :
  str_prefix 1 (String.append e_acute "b") = e_acute /\
  str_chars (String.append e_acute "b") = [e_acute; "b"] /\
  str_len (String.append e_acute "b") = 2%nat /\
  String.length (String.append e_acute "b") = 3%nat.
Proof. vm_compute. repeat split. Qed.

(** X21: a successful login writes one line about the token, and that
    line holds its first 20 characters only: autoRefund.py logs
    [token[:20] + "..."], auto_refund.py (after its "logging in" line)
    [token[:20]].  A token of up to 20 characters is therefore logged in
    full.  Characters are counted, not bytes: the token is held in its
    UTF-8 encoding. *)
Theorem X21_login_logs_a_token_prefix cfg E w s :
  (autoRefund_granted (net E (sent w) (autoRefund_login_request cfg)) = Some s ->
   logged (fst (autoRefund.login cfg E w))
     = logged w ++ [LogLoginOk (PStr (String.append (str_prefix 20 s) "..."))]) /\
  (auto_refund_granted (net E (sent w) (auto_refund_login_request cfg)) = Some (PStr s) ->
   logged (fst (auto_refund.login cfg E w))
     = logged w ++ [LogLoggingIn; LogLoginOk (PStr (str_prefix 20 s))]) /\
  (starts_with_continuation s = false -> (str_len (str_prefix 20 s) <= 20)%nat) /\
  ((str_len s <= 20)%nat -> str_prefix 20 s = s).
Proof.
  split; [| split; [| split]].
  - unfold autoRefund_granted, answered_data, is_http_error, autoRefund.login,
      try_except, bind, post, raise_for_status, resp_json, lift, log, ret, set_token.
    fold (autoRefund_login_request cfg).
    destruct (net E (sent w) (autoRefund_login_request cfg)) as [e | resp]; simpl;
      [discriminate |].
    destruct ((400 <=? status_code resp) && (status_code resp <? 600)); simpl;
      [discriminate |].
    destruct (json_body resp) as [[| | | | | | kvs] |]; simpl; try discriminate.
    destruct (assoc "data" kvs) as [[| | | | s' | |] |]; simpl; try discriminate.
    destruct (String.eqb s' ""); simpl; [discriminate |].
    intros H. inversion H; subst. reflexivity.
  - unfold auto_refund_granted, cookies_accepted, answered_data, is_http_error,
      auto_refund.login,
      try_except, bind, post, raise_for_status, resp_json, lift, log, ret, set_token.
    fold (auto_refund_login_request cfg). simpl.
    destruct (net E (sent w) (auto_refund_login_request cfg)) as [e | resp]; simpl;
      [discriminate |].
    destruct ((400 <=? status_code resp) && (status_code resp <? 600)); simpl;
      [discriminate |].
    destruct (json_body resp) as [[| | | | | | kvs] |]; simpl; try discriminate.
    destruct (assoc "data" kvs) as [d |]; simpl; [| discriminate].
    destruct (py_truthy d) eqn:Hd; simpl; [| discriminate].
    destruct (auto_refund.update_cookies resp) as [[] | ec]; simpl; [| discriminate].
    destruct (sliceable d); [| discriminate].
    intros H. inversion H; subst d. simpl.
    rewrite <- app_assoc. reflexivity.
  - intros Hs. rewrite str_len_leaders, (str_prefix_starts 20 s Hs).
    pose proof (leaders_str_prefix 20 s). lia.
  - intros Hl. apply str_prefix_all. rewrite str_len_leaders in Hl. lia.
Qed.

(** X21 on the token "tok_abc123", which is shorter than 20 characters. *)
Lemma X21_witness :
  logged (fst (autoRefund.login cfg_minimal (serving page_501_502) initial_world))
    = logged initial_world ++ [LogLoginOk (PStr "tok_abc123...")] /\
  logged (fst (auto_refund.login cfg_full (serving page_501_502) initial_world))
    = logged initial_world ++ [LogLoggingIn; LogLoginOk (PStr "tok_abc123")] /\
  (str_len (str_prefix 20 "tok_abc123") <= 20)%nat /\
  str_prefix 20 "tok_abc123" = "tok_abc123".
Proof.
  destruct (X21_login_logs_a_token_prefix cfg_minimal (serving page_501_502)
              initial_world "tok_abc123") as (HA & _ & Hlen & Hall).
  destruct (X21_login_logs_a_token_prefix cfg_full (serving page_501_502)
              initial_world "tok_abc123") as (_ & HB & _).
  split; [exact (HA eq_refl) | split; [exact (HB eq_refl) | split]].
  - exact (Hlen eq_refl).
  - apply Hall. vm_compute. lia.
Defined.
